(** * FeedPulse: the classifier gateway and the analytics handlers of
      [src/index.ts], embedded in Rocq and checked against the specification.

    Conventions of the embedding.
    - A JavaScript [number] that the code computes with fractions (ratios,
      averages, percentages, the parsed priority) is an IEEE-754 binary64
      value, modelled by [spec_float] with precision 53 and maximal exponent
      1024.  Counters, lengths, sums of priorities, and the page arithmetic of
      the listing hold integers only; they are modelled by [Z], which is
      what binary64 holds below [2^53], and by [jsint] where [parseInt] may
      produce [NaN].  The statements about pages and offsets are made for
      that range.
    - Strings are sequences of 8-bit code units.  [toLowerCase] and [trim] act
      on the ASCII letters and the ASCII white space; other code units are
      left untouched.  On ASCII text this is what JavaScript does; the
      statements about themes are made for ASCII text.
    - A plain object used as a counter is modelled by the list of its own
      properties in the order [Object.entries] enumerates them: canonical
      array-index keys first, in ascending numeric order, then every other key
      in insertion order.  A lookup [o[k]] is a lookup among the own
      properties; for the names in [Obj.prototype_names] JavaScript finds an
      inherited member instead.  The accumulator of the urgent-issue insight
      models what the code then does; the statements about the counters and
      the theme groups are made for themes outside these names.
    - [JSON.parse], the number/string conversions and [Date.toISOString] are
      services of the platform: they are fields of the class [Platform]. *)

From Stdlib Require Import ZArith NArith QArith List Bool Ascii String Lia.
From Stdlib Require Import Sorted Permutation DecimalString DecimalN.
From Stdlib Require Import Floats.SpecFloat.
Import ListNotations.

#[local] Open Scope string_scope.
#[local] Open Scope list_scope.
#[local] Open Scope Z_scope.

(* ================================================================= *)
(** ** JavaScript numbers *)

Module Num.

Definition number := spec_float.

Definition prec : Z := 53.
Definition emax : Z := 1024.

(** The binary64 value of a mathematical integer (exact below [2^53]). *)
Definition of_Z (z : Z) : number := binary_normalize prec emax z 0 false.

Definition NaN : number := S754_nan.

Definition add : number -> number -> number := SFadd prec emax.
Definition sub : number -> number -> number := SFsub prec emax.
Definition mul : number -> number -> number := SFmul prec emax.
Definition div : number -> number -> number := SFdiv prec emax.

(** [a < b], [a > b] and [a === b] on numbers; all three are false as soon
    as one side is [NaN]. *)
Definition lt (a b : number) : bool := SFltb a b.
Definition gt (a b : number) : bool := SFltb b a.
Definition strict_eq (a b : number) : bool := SFeqb a b.

(** The literal [0.1]: the double nearest to one tenth. *)
Definition lit_0_1 : number := S754_finite false 7205759403792794 (-56).

Definition is_nan (x : number) : bool :=
  match x with S754_nan => true | _ => false end.

Definition is_zero (x : number) : bool :=
  match x with S754_zero _ => true | _ => false end.

(** ToBoolean on a number: [NaN], [+0] and [-0] are falsy. *)
Definition truthy (x : number) : bool := negb (is_nan x || is_zero x).

(** [x || d] on numbers. *)
Definition or_else (x d : number) : number := if truthy x then x else d.

Definition signed_mantissa (s : bool) (m : positive) : Z :=
  if s then Z.neg m else Z.pos m.

(** [Math.round]: the integer nearest to [x], ties towards [+Infinity];
    the sign of a zero result is the sign of [x]. *)
Definition Math_round (x : number) : number :=
  match x with
  | S754_finite s m e =>
      if 0 <=? e then x
      else
        let d := 2 ^ (- e) in
        let n := (2 * signed_mantissa s m + d) / (2 * d) in
        if n =? 0 then S754_zero s else of_Z n
  | _ => x
  end.

(** [Math.ceil]: the least integer not below [x]; the sign of a zero
    result is the sign of [x]. *)
Definition Math_ceil (x : number) : number :=
  match x with
  | S754_finite s m e =>
      if 0 <=? e then x
      else
        let d := 2 ^ (- e) in
        let n := - ((- signed_mantissa s m) / d) in
        if n =? 0 then S754_zero s else of_Z n
  | _ => x
  end.

Definition is_neg_zero (x : number) : bool :=
  match x with S754_zero true => true | _ => false end.

(** [Math.max(a, b)] and [Math.min(a, b)]: [NaN] if either is [NaN];
    [+0] counts as larger than [-0]. *)
Definition Math_max (a b : number) : number :=
  match SFcompare a b with
  | None => NaN
  | Some Lt => b
  | Some Gt => a
  | Some Eq => if is_neg_zero a then b else a
  end.

Definition Math_min (a b : number) : number :=
  match SFcompare a b with
  | None => NaN
  | Some Lt => a
  | Some Gt => b
  | Some Eq => if is_neg_zero a then a else b
  end.

(** A number that is an integer or [NaN]: the results of [parseInt] and of
    the integer arithmetic built on them. *)
Inductive jsint : Type :=
| IntNaN : jsint
| Int (z : Z) : jsint.

Definition int_max (a : Z) (b : jsint) : jsint :=
  match b with IntNaN => IntNaN | Int z => Int (Z.max a z) end.

Definition int_min (a : Z) (b : jsint) : jsint :=
  match b with IntNaN => IntNaN | Int z => Int (Z.min a z) end.

Definition int_sub (a b : jsint) : jsint :=
  match a, b with Int x, Int y => Int (x - y) | _, _ => IntNaN end.

Definition int_mul (a b : jsint) : jsint :=
  match a, b with Int x, Int y => Int (x * y) | _, _ => IntNaN end.

Definition int_lt (a b : jsint) : bool :=
  match a, b with Int x, Int y => x <? y | _, _ => false end.

Definition int_gt (a b : jsint) : bool := int_lt b a.

(** [Math.ceil(a / b)] for an integer [a] and a positive integer [b]. *)
Definition ceil_div (a b : Z) : Z := - ((- a) / b).

Definition int_ceil_div (a : Z) (b : jsint) : jsint :=
  match b with IntNaN => IntNaN | Int z => Int (ceil_div a z) end.

End Num.

Abbreviation number := Num.number.
Abbreviation jsint := Num.jsint.

(* ================================================================= *)
(** ** JavaScript strings *)

Module Str.

Definition code (c : ascii) : nat := nat_of_ascii c.

Definition is_upper (c : ascii) : bool :=
  (65 <=? code c)%nat && (code c <=? 90)%nat.

Definition lower_char (c : ascii) : ascii :=
  if is_upper c then ascii_of_nat (code c + 32) else c.

(** [s.toLowerCase()] *)
Fixpoint toLowerCase (s : string) : string :=
  match s with
  | EmptyString => EmptyString
  | String c r => String (lower_char c) (toLowerCase r)
  end.

(** White space and line terminators: TAB, LF, VT, FF, CR and SPACE. *)
Definition is_space (c : ascii) : bool :=
  ((9 <=? code c)%nat && (code c <=? 13)%nat) || (code c =? 32)%nat.

Fixpoint trimStart (s : string) : string :=
  match s with
  | EmptyString => EmptyString
  | String c r => if is_space c then trimStart r else s
  end.

Definition is_empty (s : string) : bool :=
  match s with EmptyString => true | _ => false end.

Fixpoint trimEnd (s : string) : string :=
  match s with
  | EmptyString => EmptyString
  | String c r =>
      let r' := trimEnd r in
      if is_space c && is_empty r' then EmptyString else String c r'
  end.

(** [s.trim()] *)
Definition trim (s : string) : string := trimEnd (trimStart s).

(** ToBoolean on a string: only the empty string is falsy. *)
Definition truthy (s : string) : bool := negb (is_empty s).

(** Position of the first occurrence of [c]. *)
Fixpoint indexOf (c : ascii) (s : string) : option nat :=
  match s with
  | EmptyString => None
  | String d r =>
      if Ascii.eqb d c then Some O
      else option_map S (indexOf c r)
  end.

(** Position of the last occurrence of [c]. *)
Fixpoint lastIndexOf (c : ascii) (s : string) : option nat :=
  match s with
  | EmptyString => None
  | String d r =>
      match lastIndexOf c r with
      | Some j => Some (S j)
      | None => if Ascii.eqb d c then Some O else None
      end
  end.

(** The suffix of [s] from position [n] on. *)
Fixpoint drop (n : nat) (s : string) : string :=
  match n, s with
  | O, _ => s
  | S n', String _ r => drop n' r
  | S _, EmptyString => EmptyString
  end.

Definition is_digit (c : ascii) : bool :=
  (48 <=? code c)%nat && (code c <=? 57)%nat.

Definition digit_value (c : ascii) : Z := Z.of_nat (code c) - 48.

(** Value of the hexadecimal digit [c], if it is one. *)
Definition hex_value (c : ascii) : option Z :=
  let n := code c in
  if is_digit c then Some (Z.of_nat n - 48)
  else if (97 <=? n)%nat && (n <=? 102)%nat then Some (Z.of_nat n - 87)
  else if (65 <=? n)%nat && (n <=? 70)%nat then Some (Z.of_nat n - 55)
  else None.

Definition radix_digit (radix : Z) (c : ascii) : option Z :=
  if radix =? 16 then hex_value c
  else if is_digit c then Some (digit_value c) else None.

(** Reads the longest prefix of digits of [s] in [radix]; [acc] is the
    value read so far and [seen] tells whether a digit was read. *)
Fixpoint read_digits (radix : Z) (s : string) (acc : Z) (seen : bool)
  : option Z :=
  match s with
  | EmptyString => if seen then Some acc else None
  | String c r =>
      match radix_digit radix c with
      | Some d => read_digits radix r (acc * radix + d) true
      | None => if seen then Some acc else None
      end
  end.

Definition strip_hex_prefix (s : string) : option string :=
  match s with
  | String "0" (String x r) =>
      if Ascii.eqb x "x" || Ascii.eqb x "X" then Some r else None
  | _ => None
  end.

(** [parseInt(s)] without a radix argument: leading white space, an
    optional sign, an optional [0x] prefix, then the longest run of
    digits; [NaN] when there is none.  The value is the exact integer,
    which is the number JavaScript returns below [2^53]. *)
Definition parseInt (s : string) : jsint :=
  let s1 := trimStart s in
  let '(neg, s2) :=
    match s1 with
    | String "-" r => (true, r)
    | String "+" r => (false, r)
    | _ => (false, s1)
    end in
  let '(radix, s3) :=
    match strip_hex_prefix s2 with
    | Some r => (16, r)
    | None => (10, s2)
    end in
  match read_digits radix s3 0 false with
  | Some v => Num.Int (if neg then - v else v)
  | None => Num.IntNaN
  end.

(** The decimal numeral of a natural number, as [String(n)] prints it. *)
Definition of_N (n : N) : string :=
  NilZero.string_of_uint (N.to_uint n).

(** A canonical array index: a decimal numeral without sign or leading
    zero that prints back to itself, below [2^32 - 1]. *)
Definition array_index (k : string) : option N :=
  match NilZero.uint_of_string k with
  | Some d =>
      let n := N.of_uint d in
      if String.eqb (of_N n) k && (n <? 4294967295)%N then Some n else None
  | None => None
  end.

End Str.

(* ================================================================= *)
(** ** Arrays and plain objects *)

Module Arr.

(** [a.forEach(x => body)] with the body acting on a state. *)
Definition forEach {A S : Type} (body : A -> S -> S) (a : list A) (st : S)
  : S :=
  fold_left (fun s x => body x s) a st.

(** A relative index of [slice], clamped into [0 .. len]. *)
Definition clamp_index (len i : Z) : nat :=
  Z.to_nat (if i <? 0 then Z.max (len + i) 0 else Z.min i len).

(** [a.slice(start, end)]; [end_ = None] stands for an omitted end. *)
Definition slice {A : Type} (start : Z) (end_ : option Z) (a : list A)
  : list A :=
  let len := Z.of_nat (List.length a) in
  let k := clamp_index len start in
  let final := match end_ with
               | None => List.length a
               | Some e => clamp_index len e
               end in
  firstn (final - k) (skipn k a).

(** Stable sorting with a comparator: [precedes x y] tells that the
    comparator does not put [y] before [x] ([compare(x, y) <= 0]).  This is
    what [a.sort(compare)] returns, [Array.prototype.sort] being stable. *)
Fixpoint insert_sorted {A : Type} (precedes : A -> A -> bool) (x : A)
  (l : list A) : list A :=
  match l with
  | [] => [x]
  | y :: l' =>
      if precedes x y then x :: l
      else y :: insert_sorted precedes x l'
  end.

Definition stable_sort {A : Type} (precedes : A -> A -> bool) (l : list A)
  : list A :=
  fold_right (insert_sorted precedes) [] l.

(** [a.sort((x, y) => key(y) - key(x))]: largest key first. *)
Definition sort_desc {A : Type} (key : A -> Z) (l : list A) : list A :=
  stable_sort (fun x y => key y <=? key x) l.

End Arr.

Module Obj.

(** The own properties of a plain object, in enumeration order. *)
Definition t (V : Type) : Type := list (string * V).

Definition empty {V : Type} : t V := [].

(** [o[k]]; [None] is [undefined]. *)
Fixpoint get {V : Type} (k : string) (o : t V) : option V :=
  match o with
  | [] => None
  | (k', v) :: r => if String.eqb k' k then Some v else get k r
  end.

Definition has {V : Type} (k : string) (o : t V) : bool :=
  match get k o with Some _ => true | None => false end.

Fixpoint replace {V : Type} (k : string) (v : V) (o : t V) : t V :=
  match o with
  | [] => []
  | (k', v') :: r =>
      if String.eqb k' k then (k', v) :: r else (k', v') :: replace k v r
  end.

(** Places a new array-index key [k], of index [n], after the index keys
    that are smaller and before every other key. *)
Fixpoint insert_index {V : Type} (n : N) (k : string) (v : V) (o : t V)
  : t V :=
  match o with
  | [] => [(k, v)]
  | (k', v') :: r =>
      match Str.array_index k' with
      | Some n' =>
          if (n' <? n)%N then (k', v') :: insert_index n k v r
          else (k, v) :: o
      | None => (k, v) :: o
      end
  end.

(** [o[k] = v] *)
Definition set {V : Type} (k : string) (v : V) (o : t V) : t V :=
  if has k o then replace k v o
  else match Str.array_index k with
       | Some n => insert_index n k v o
       | None => o ++ [(k, v)]
       end.

(** [Object.entries(o)] and [Object.values(o)] *)
Definition entries {V : Type} (o : t V) : list (string * V) := o.
Definition values {V : Type} (o : t V) : list V := map snd o.
Definition keys {V : Type} (o : t V) : list string := map fst o.

(** The names of the members of [Object.prototype]: for these, [o[k]] on
    a plain object without such an own property is a function (the
    object [Object.prototype] itself for [__proto__]), not [undefined]. *)
Definition prototype_names : list string :=
  [ "constructor"; "__defineGetter__"; "__defineSetter__"; "hasOwnProperty";
    "__lookupGetter__"; "__lookupSetter__"; "isPrototypeOf";
    "propertyIsEnumerable"; "toString"; "valueOf"; "__proto__";
    "toLocaleString" ].

Definition inherited (k : string) : bool :=
  existsb (String.eqb k) prototype_names.

End Obj.

(* ================================================================= *)
(** ** JSON values, the platform, exceptions *)

#[local] Set Warnings "-register-all".

Inductive json : Type :=
| JNull : json
| JBool (b : bool) : json
| JNum (x : number) : json
| JStr (s : string) : json
| JArr (items : list json) : json
| JObj (fields : Obj.t json) : json.

(** Services of the JavaScript platform used by the handlers.
    [JSON_parse] answers [None] where [JSON.parse] throws a [SyntaxError];
    [toISOString] prints a time given in milliseconds since the epoch. *)
Class Platform : Type := {
  JSON_parse : string -> option json;
  StringToNumber : string -> number;
  NumberToString : number -> string;
  toISOString : Z -> string
}.

(** The outcome of a block that may throw. *)
Inductive completion (A : Type) : Type :=
| Normal (a : A) : completion A
| Throw (message : string) : completion A.

Arguments Normal {A} a.
Arguments Throw {A} message.

Definition bind {A B : Type} (c : completion A) (k : A -> completion B)
  : completion B :=
  match c with
  | Normal a => k a
  | Throw m => Throw m
  end.

Notation "x <- c ;; k" := (bind c (fun x => k))
  (at level 61, c at next level, right associativity).

(** [try { body } catch { handler }] *)
Definition try_catch {A : Type} (body : completion A) (handler : A) : A :=
  match body with
  | Normal a => a
  | Throw _ => handler
  end.

Section Coercions.
Context {P : Platform}.

(** [String(v)] on a parsed JSON value. *)
Fixpoint ToString (v : json) : string :=
  match v with
  | JNull => "null"
  | JBool true => "true"
  | JBool false => "false"
  | JNum x => NumberToString x
  | JStr s => s
  | JArr items =>
      String.concat ","
        (map (fun e => match e with
                       | JNull => ""
                       | _ => ToString e
                       end) items)
  | JObj _ => "[object Object]"
  end.

(** ToNumber on a property value; [None] is [undefined]. *)
Definition ToNumber (v : option json) : number :=
  match v with
  | None => Num.NaN
  | Some JNull => Num.of_Z 0
  | Some (JBool true) => Num.of_Z 1
  | Some (JBool false) => Num.of_Z 0
  | Some (JNum x) => x
  | Some (JStr s) => StringToNumber s
  | Some w => StringToNumber (ToString w)
  end.

End Coercions.

(* ================================================================= *)
(** ** AI analysis: [analyzeFeedback] *)

Record FeedbackAnalysis : Type := {
  fa_sentiment : string;
  fa_category : string;
  fa_priority : number;
  fa_themes : list string
}.

(** What [await ai.run(model, { prompt, max_tokens })] does: it rejects, or
    resolves to an object whose [response] property is a string
    ([Some text]) or is not one ([None]). *)
Inductive ai_outcome : Type :=
| AiRejects : ai_outcome
| AiResolves (response : option string) : ai_outcome.

Definition Ai : Type := string -> ai_outcome.

Definition nl : string := String "010" EmptyString.
Definition dq : string := String "034" EmptyString.

Definition lines (l : list string) : string := String.concat nl l.

Definition prompt (content : string) : string :=
  lines
    [ "You are a feedback analyzer. Analyze the following customer feedback and respond with ONLY a valid JSON object, no other text.";
      "";
      ("Feedback: " ++ dq ++ content ++ dq)%string;
      "";
      "Analyze and respond with this exact JSON structure:";
      "{";
      ("  " ++ dq ++ "sentiment" ++ dq ++ ": " ++ dq
         ++ "<positive|negative|neutral>" ++ dq ++ ",")%string;
      ("  " ++ dq ++ "category" ++ dq ++ ": " ++ dq
         ++ "<bug|feature|praise|complaint>" ++ dq ++ ",")%string;
      ("  " ++ dq ++ "priority" ++ dq
         ++ ": <1-5 where 5 is most urgent>,")%string;
      ("  " ++ dq ++ "themes" ++ dq ++ ": [" ++ dq ++ "<theme1>" ++ dq
         ++ ", " ++ dq ++ "<theme2>" ++ dq ++ "]")%string;
      "}";
      "";
      "Rules:";
      "- sentiment: positive (happy, satisfied, thankful), negative (frustrated, angry, disappointed), neutral (informational, questions)";
      "- category: bug (something broken), feature (request for new functionality), praise (compliment), complaint (dissatisfaction)";
      "- priority: 5 = critical/urgent, 4 = high, 3 = medium, 2 = low, 1 = minimal";
      ("- themes: 1-3 short keywords describing the main topics (e.g., "
         ++ dq ++ "performance" ++ dq ++ ", " ++ dq ++ "ui" ++ dq ++ ", "
         ++ dq ++ "pricing" ++ dq ++ ", " ++ dq ++ "documentation" ++ dq
         ++ ")")%string;
      "";
      "Respond with ONLY the JSON object." ].

(** [text.match(/\{[\s\S]*\}/)]: the span from the first opening brace to
    the last closing brace after it; [None] when there is no match. *)
Definition match_json_span (text : string) : option string :=
  match Str.indexOf "{" text with
  | None => None
  | Some i =>
      match Str.lastIndexOf "}" (Str.drop (S i) text) with
      | None => None
      | Some j => Some (substring i (j + 2) text)
      end
  end.

(** [analysis.k] on the parsed value; [None] is [undefined]. *)
Definition get_prop (analysis : json) (k : string) : option json :=
  match analysis with
  | JObj fields => Obj.get k fields
  | _ => None
  end.

(** [allowed.includes(v) ? v : fallback] *)
Definition one_of (allowed : list string) (fallback : string)
  (v : option json) : string :=
  match v with
  | Some (JStr s) => if existsb (String.eqb s) allowed then s else fallback
  | _ => fallback
  end.

Definition default_analysis : FeedbackAnalysis :=
  {| fa_sentiment := "neutral";
     fa_category := "complaint";
     fa_priority := Num.of_Z 3;
     fa_themes := [] |}.

Section AnalyzeFeedback.
Context {P : Platform}.

(** [Math.min(5, Math.max(1, Math.round(v) || 3))] *)
Definition sanitize_priority (v : option json) : number :=
  Num.Math_min (Num.of_Z 5)
    (Num.Math_max (Num.of_Z 1)
       (Num.or_else (Num.Math_round (ToNumber v)) (Num.of_Z 3))).

(** [Array.isArray(v) ? v.slice(0, 5).map(t => String(t).toLowerCase().trim()) : []] *)
Definition sanitize_themes (v : option json) : list string :=
  match v with
  | Some (JArr items) =>
      map (fun t => Str.trim (Str.toLowerCase (ToString t)))
        (Arr.slice 0 (Some 5) items)
  | _ => []
  end.

(** Validate and sanitize the response. *)
Definition sanitize (analysis : json) : FeedbackAnalysis :=
  {| fa_sentiment :=
       one_of ["positive"; "negative"; "neutral"] "neutral"
         (get_prop analysis "sentiment");
     fa_category :=
       one_of ["bug"; "feature"; "praise"; "complaint"] "complaint"
         (get_prop analysis "category");
     fa_priority := sanitize_priority (get_prop analysis "priority");
     fa_themes := sanitize_themes (get_prop analysis "themes") |}.

(** The body of the [try] block. *)
Definition analyzeFeedback_try (ai : Ai) (content : string)
  : completion FeedbackAnalysis :=
  response <-
    match ai (prompt content) with
    | AiRejects => Throw "ai.run rejected"
    | AiResolves r => Normal r
    end ;;
  text <-
    match response with
    | None => Throw "TypeError: text.match is not a function"
    | Some s => Normal s
    end ;;
  jsonMatch <-
    match match_json_span text with
    | None => Throw "No JSON found in AI response"
    | Some span => Normal span
    end ;;
  analysis <-
    match JSON_parse jsonMatch with
    | None => Throw "SyntaxError"
    | Some JNull => Throw "TypeError: cannot read properties of null"
    | Some v => Normal v
    end ;;
  Normal (sanitize analysis).

Definition analyzeFeedback (ai : Ai) (content : string)
  : FeedbackAnalysis :=
  try_catch (analyzeFeedback_try ai content) default_analysis.

End AnalyzeFeedback.

(* ================================================================= *)
(** ** The feedback table *)

(** A row of the table [feedback] of [schema.sql] as D1 returns it; the
    column [themes] holds JSON text, or NULL ([None]). *)
Record Feedback : Type := {
  id : Z;
  source : string;
  content : string;
  sentiment : string;
  category : string;
  priority : Z;
  themes : option string;
  created_at : string
}.

(** A condition of the WHERE clause together with its bound parameter. *)
Inductive condition : Type :=
| SourceEq (v : string) : condition        (* AND source = ? *)
| SentimentEq (v : string) : condition     (* AND sentiment = ? *)
| CategoryEq (v : string) : condition      (* AND category = ? *)
| PriorityEq (v : jsint) : condition       (* AND priority = ? *)
| CreatedAtGe (v : string) : condition.    (* AND created_at >= ? *)

Module Sql.

(** Whether a row satisfies a condition.  Text is compared byte-wise;
    a [NaN] parameter is bound as NULL, which equals nothing. *)
Definition holds (c : condition) (f : Feedback) : bool :=
  match c with
  | SourceEq v => String.eqb (source f) v
  | SentimentEq v => String.eqb (sentiment f) v
  | CategoryEq v => String.eqb (category f) v
  | PriorityEq (Num.Int n) => priority f =? n
  | PriorityEq Num.IntNaN => false
  | CreatedAtGe v => String.leb v (created_at f)
  end.

(** [WHERE 1=1 AND c1 AND c2 ...] *)
Definition where_ (w : list condition) (f : Feedback) : bool :=
  forallb (fun c => holds c f) w.

(** [ORDER BY created_at DESC].  SQL leaves the order of rows with equal
    stamps open; they keep table order here, and the statements about the
    order of a listing hold for every such order or are made for stamps
    that differ. *)
Definition order_by_created_at_desc (rows : list Feedback)
  : list Feedback :=
  Arr.stable_sort
    (fun x y => String.leb (created_at y) (created_at x)) rows.

(** [SELECT COUNT( * ) as total FROM feedback WHERE ...] *)
Definition count (db : list Feedback) (w : list condition) : Z :=
  Z.of_nat (List.length (filter (where_ w) db)).

(** [SELECT * FROM feedback WHERE ... ORDER BY created_at DESC
    LIMIT ? OFFSET ?]; SQLite rejects a LIMIT or OFFSET that is not an
    integer. *)
Definition select (db : list Feedback) (w : list condition)
  (limit offset : jsint) : completion (list Feedback) :=
  match limit, offset with
  | Num.Int l, Num.Int o =>
      Normal
        (firstn (Z.to_nat l)
           (skipn (Z.to_nat o)
              (order_by_created_at_desc (filter (where_ w) db))))
  | _, _ => Throw "D1_ERROR: datatype mismatch"
  end.

End Sql.

(* ================================================================= *)
(** ** GET /api/feedback: [handleGetFeedback] *)

(** The values of [url.searchParams.get(name)]; [None] is [null]. *)
Record searchParams : Type := {
  q_source : option string;
  q_sentiment : option string;
  q_category : option string;
  q_priority : option string;
  q_dateRange : option string;
  q_page : option string;
  q_limit : option string
}.

(** [if (p)] on a parameter: present and not empty. *)
Definition given (p : option string) : option string :=
  match p with
  | Some s => if Str.truthy s then Some s else None
  | None => None
  end.

(** [p || d] *)
Definition or_default (p : option string) (d : string) : string :=
  match given p with Some s => s | None => d end.

Record pagination : Type := {
  page : jsint;
  limit : jsint;
  total : Z;
  totalPages : jsint;
  hasNext : bool;
  hasPrev : bool
}.

(** An element of the [feedback] array of the response: the row with its
    [themes] replaced by the parsed value. *)
Record FeedbackItem : Type := {
  item_row : Feedback;
  item_themes : json
}.

Record listing : Type := {
  feedback : list FeedbackItem;
  listing_pagination : pagination
}.

(** [Math.max(1, parseInt(page || '1'))], and likewise the limit and the
    offset, on exact integers: the numbers of the code below [2^53]. *)
Definition page_of (q : searchParams) : jsint :=
  Num.int_max 1 (Str.parseInt (or_default (q_page q) "1")).

Definition limit_of (q : searchParams) : jsint :=
  Num.int_min 100 (Num.int_max 1 (Str.parseInt (or_default (q_limit q) "10"))).

Definition offset_of (q : searchParams) : jsint :=
  Num.int_mul (Num.int_sub (page_of q) (Num.Int 1)) (limit_of q).

Definition day_ms : Z := 24 * 60 * 60 * 1000.

(** The [switch (dateRange)] block. *)
Definition dateThreshold (now : Z) (dateRange : string) : option Z :=
  if String.eqb dateRange "24h" then Some (now - day_ms)
  else if String.eqb dateRange "7d" then Some (now - 7 * day_ms)
  else if String.eqb dateRange "30d" then Some (now - 30 * day_ms)
  else None.

Section HandleGetFeedback.
Context {P : Platform}.

(** Build WHERE clause for both queries. *)
Definition whereClause (now : Z) (q : searchParams) : list condition :=
  (match given (q_source q) with Some v => [SourceEq v] | None => [] end)
  ++ (match given (q_sentiment q) with
      | Some v => [SentimentEq v] | None => [] end)
  ++ (match given (q_category q) with
      | Some v => [CategoryEq v] | None => [] end)
  ++ (match given (q_priority q) with
      | Some v => [PriorityEq (Str.parseInt v)] | None => [] end)
  ++ (match given (q_dateRange q) with
      | Some r =>
          match dateThreshold now r with
          | Some t => [CreatedAtGe (toISOString t)]
          | None => []
          end
      | None => []
      end).

(** The two statements of the handler, as the conditions they carry. *)
Definition countQuery (now : Z) (q : searchParams) : list condition :=
  whereClause now q.

Definition dataQuery (now : Z) (q : searchParams)
  : list condition * jsint * jsint :=
  (whereClause now q, limit_of q, offset_of q).

(** [typeof f.themes === 'string' ? JSON.parse(f.themes) : f.themes] *)
Definition parse_themes (f : Feedback) : completion json :=
  match themes f with
  | None => Normal JNull
  | Some text =>
      match JSON_parse text with
      | Some v => Normal v
      | None => Throw "SyntaxError"
      end
  end.

Fixpoint parse_rows (rows : list Feedback)
  : completion (list FeedbackItem) :=
  match rows with
  | [] => Normal []
  | f :: rest =>
      v <- parse_themes f ;;
      items <- parse_rows rest ;;
      Normal ({| item_row := f; item_themes := v |} :: items)
  end.

(** The handler: [Throw] is the 500 answer of the [catch] block. *)
Definition handleGetFeedback (db : list Feedback) (now : Z)
  (q : searchParams) : completion listing :=
  let page := page_of q in
  let limit := limit_of q in
  let total := Sql.count db (countQuery now q) in
  let '(w, l, o) := dataQuery now q in
  results <- Sql.select db w l o ;;
  items <- parse_rows results ;;
  let totalPages := Num.int_ceil_div total limit in
  Normal
    {| feedback := items;
       listing_pagination :=
         {| page := page;
            limit := limit;
            total := total;
            totalPages := totalPages;
            hasNext := Num.int_lt page totalPages;
            hasPrev := Num.int_gt page (Num.Int 1) |} |}.

End HandleGetFeedback.

(* ================================================================= *)
(** ** Scanning the themes of a row *)

Section ThemeScan.
Context {P : Platform}.
Context {S : Type}.

(** [themes.forEach(theme => { const t = theme.toLowerCase().trim();
    if (t) body })].  An element that is not a string has no
    [toLowerCase]: the call throws a [TypeError], the enclosing [catch]
    swallows it, and the rest of the array is not visited; what the body
    did before stays done. *)
Fixpoint forEach_theme_items (body : string -> S -> S) (items : list json)
  (st : S) : S :=
  match items with
  | [] => st
  | JStr theme :: rest =>
      let t := Str.trim (Str.toLowerCase theme) in
      forEach_theme_items body rest (if Str.truthy t then body t st else st)
  | _ :: _ => st
  end.

(** [try { const themes = typeof f.themes === 'string' ?
    JSON.parse(f.themes) : f.themes; if (Array.isArray(themes)) ... }
    catch { }] *)
Definition forEach_theme (body : string -> S -> S) (f : Feedback) (st : S)
  : S :=
  match themes f with
  | None => st
  | Some text =>
      match JSON_parse text with
      | Some (JArr items) => forEach_theme_items body items st
      | _ => st
      end
  end.

End ThemeScan.

(** [counts[t] = (counts[t] || 0) + 1], for a theme [t] that is not a name
    of [Object.prototype] (for such a name the code adds 1 to the inherited
    member, which gives text). *)
Definition increment (t : string) (counts : Obj.t Z) : Obj.t Z :=
  Obj.set t (match Obj.get t counts with Some n => n | None => 0 end + 1)
    counts.

Record ThemeCount : Type := {
  tc_theme : string;
  tc_count : Z
}.

(* ================================================================= *)
(** ** GET /api/insights: [handleGetInsights] (theme extraction) *)

Section HandleGetInsights.
Context {P : Platform}.

(** Extract and count themes. *)
Definition themeCounts (allFeedback : list Feedback) : Obj.t Z :=
  Arr.forEach (fun f counts => forEach_theme increment f counts)
    allFeedback Obj.empty.

(** Get top 5 themes. *)
Definition topThemes (allFeedback : list Feedback) : list ThemeCount :=
  map (fun e => {| tc_theme := fst e; tc_count := snd e |})
    (Arr.slice 0 (Some 5)
       (Arr.sort_desc snd (Obj.entries (themeCounts allFeedback)))).

End HandleGetInsights.

(* ================================================================= *)
(** ** GET /api/ai-insights: [handleGetAIInsights] *)

Record ThemePriority : Type := {
  tp_total : Z;
  tp_count : Z
}.

Record UrgentIssue : Type := {
  ui_theme : string;
  ui_avgPriority : number;
  ui_count : Z
}.

Record TrendingTopic : Type := {
  tt_theme : string;
  tt_count : Z;
  tt_recentMentions : Z
}.

Record SentimentTrend : Type := {
  trend : string;
  description : string;
  recentPositive : option Z;
  recentNegative : option Z
}.

Record ThemeDistribution : Type := {
  td_theme : string;
  td_count : Z;
  td_percentage : number
}.

Record AIInsights : Type := {
  mostUrgentIssue : option UrgentIssue;
  trendingTopic : option TrendingTopic;
  sentimentTrend : SentimentTrend;
  themeDistribution : list ThemeDistribution
}.

(** [items.filter(f => f.sentiment === s).length] *)
Definition count_sentiment (s : string) (items : list Feedback) : Z :=
  Z.of_nat (List.length (filter (fun f => String.eqb (sentiment f) s) items)).

Definition calcPositiveRatio (items : list Feedback) : number :=
  if (List.length items =? 0)%nat then Num.of_Z 0
  else
    let positive := count_sentiment "positive" items in
    let negative := count_sentiment "negative" items in
    if (0 <? List.length items)%nat
    then Num.div (Num.of_Z (positive - negative))
           (Num.of_Z (Z.of_nat (List.length items)))
    else Num.of_Z 0.

(** [Math.floor(feedback.length / 2)] *)
Definition midpoint (feedback : list Feedback) : Z :=
  Z.of_nat (List.length feedback) / 2.

(** [midpoint || 1] *)
Definition midpoint_or_1 (feedback : list Feedback) : Z :=
  if midpoint feedback =? 0 then 1 else midpoint feedback.

Definition recentHalf (feedback : list Feedback) : list Feedback :=
  Arr.slice 0 (Some (midpoint_or_1 feedback)) feedback.

Definition olderHalf (feedback : list Feedback) : list Feedback :=
  Arr.slice (midpoint_or_1 feedback) None feedback.

(** 3. Sentiment Trend: compare recent half vs older half. *)
Definition calcSentimentTrend (feedback : list Feedback) : SentimentTrend :=
  let recentRatio := calcPositiveRatio (recentHalf feedback) in
  let olderRatio := calcPositiveRatio (olderHalf feedback) in
  let diff := Num.sub recentRatio olderRatio in
  let recentPositive := count_sentiment "positive" (recentHalf feedback) in
  let recentNegative := count_sentiment "negative" (recentHalf feedback) in
  if Num.gt diff Num.lit_0_1 then
    {| trend := "improving";
       description := "Sentiment is getting more positive recently";
       recentPositive := Some recentPositive;
       recentNegative := Some recentNegative |}
  else if Num.lt diff (SFopp Num.lit_0_1) then
    {| trend := "declining";
       description := "More negative feedback in recent entries";
       recentPositive := Some recentPositive;
       recentNegative := Some recentNegative |}
  else
    {| trend := "stable";
       description := "Sentiment has remained consistent";
       recentPositive := Some recentPositive;
       recentNegative := Some recentNegative |}.

(** The update of [negativeThemePriorities] for one theme of a row:
    [if (!acc[t]) acc[t] = { total: 0, count: 0 }; acc[t].total += p;
    acc[t].count++].  For a name of [Object.prototype] the value [acc[t]]
    is the inherited member, which is truthy: no entry is created, and
    [total] and [count] are written on that member, not on the
    accumulator, which therefore never holds such a name. *)
Definition add_priority (p : Z) (t : string) (acc : Obj.t ThemePriority)
  : Obj.t ThemePriority :=
  if Obj.inherited t then acc
  else
    let acc1 :=
      if Obj.has t acc then acc
      else Obj.set t {| tp_total := 0; tp_count := 0 |} acc in
    match Obj.get t acc1 with
    | Some d =>
        Obj.set t {| tp_total := tp_total d + p; tp_count := tp_count d + 1 |}
          acc1
    | None => acc1
    end.

(** [data.total / data.count] *)
Definition average (data : ThemePriority) : number :=
  Num.div (Num.of_Z (tp_total data)) (Num.of_Z (tp_count data)).

(** [Math.round(avg * 10) / 10] *)
Definition round1 (avg : number) : number :=
  Num.div (Num.Math_round (Num.mul avg (Num.of_Z 10))) (Num.of_Z 10).

(** One round of the loop over [Object.entries(negativeThemePriorities)];
    the state is [(mostUrgentIssue, highestAvgPriority)]. *)
Definition urgent_step (e : string * ThemePriority)
  (st : option UrgentIssue * number) : option UrgentIssue * number :=
  let '(theme, data) := e in
  let '(mostUrgentIssue, highestAvgPriority) := st in
  let avg := average data in
  if Num.gt avg highestAvgPriority
     || (Num.strict_eq avg highestAvgPriority
         && (tp_count data >?
             match mostUrgentIssue with Some i => ui_count i | None => 0 end))
  then (Some {| ui_theme := theme;
                ui_avgPriority := round1 avg;
                ui_count := tp_count data |}, avg)
  else st.

(** One round of the loop over [Object.entries(recentThemeCounts)]. *)
Definition trending_step (e : string * Z)
  (st : option TrendingTopic * Z) : option TrendingTopic * Z :=
  let '(theme, count) := e in
  let '(trendingTopic, maxRecentCount) := st in
  if count >? maxRecentCount
  then (Some {| tt_theme := theme; tt_count := count;
                tt_recentMentions := count |}, count)
  else st.

(** [Math.round((count / totalThemeMentions) * 100)] *)
Definition percentage (count totalThemeMentions : Z) : number :=
  Num.Math_round
    (Num.mul (Num.div (Num.of_Z count) (Num.of_Z totalThemeMentions))
       (Num.of_Z 100)).

Section HandleGetAIInsights.
Context {P : Platform}.

(** 1. Most Urgent Issue: theme with highest avg priority among negative
    feedback. *)
Definition negativeThemePriorities (feedback : list Feedback)
  : Obj.t ThemePriority :=
  Arr.forEach
    (fun f acc =>
       if String.eqb (sentiment f) "negative"
       then forEach_theme (add_priority (priority f)) f acc
       else acc)
    feedback Obj.empty.

Definition calcMostUrgentIssue (feedback : list Feedback)
  : option UrgentIssue :=
  fst (Arr.forEach urgent_step
         (Obj.entries (negativeThemePriorities feedback))
         (None, Num.of_Z 0)).

(** 2. Trending Topic: theme that appeared most in recent entries. *)
Definition recentThemeCounts (feedback : list Feedback) : Obj.t Z :=
  Arr.forEach (fun f counts => forEach_theme increment f counts)
    (Arr.slice 0 (Some 10) feedback) Obj.empty.

Definition calcTrendingTopic (feedback : list Feedback)
  : option TrendingTopic :=
  fst (Arr.forEach trending_step
         (Obj.entries (recentThemeCounts feedback)) (None, 0)).

(** 4. Theme Distribution (top 5 with counts and percentages). *)
Definition allThemeCounts (feedback : list Feedback) : Obj.t Z :=
  Arr.forEach (fun f counts => forEach_theme increment f counts)
    feedback Obj.empty.

(** [Object.values(allThemeCounts).reduce((a, b) => a + b, 0)] *)
Definition totalThemeMentions (feedback : list Feedback) : Z :=
  fold_left Z.add (Obj.values (allThemeCounts feedback)) 0.

Definition calcThemeDistribution (feedback : list Feedback)
  : list ThemeDistribution :=
  map (fun e =>
         {| td_theme := fst e;
            td_count := snd e;
            td_percentage :=
              percentage (snd e) (totalThemeMentions feedback) |})
    (Arr.slice 0 (Some 5)
       (Arr.sort_desc snd (Obj.entries (allThemeCounts feedback)))).

(** The handler applied to the rows of
    [SELECT ... FROM feedback ORDER BY created_at DESC]. *)
Definition aiInsights (feedback : list Feedback) : AIInsights :=
  if (List.length feedback =? 0)%nat then
    {| mostUrgentIssue := None;
       trendingTopic := None;
       sentimentTrend :=
         {| trend := "neutral"; description := "No data yet";
            recentPositive := None; recentNegative := None |};
       themeDistribution := [] |}
  else
    {| mostUrgentIssue := calcMostUrgentIssue feedback;
       trendingTopic := calcTrendingTopic feedback;
       sentimentTrend := calcSentimentTrend feedback;
       themeDistribution := calcThemeDistribution feedback |}.

Definition handleGetAIInsights (db : list Feedback) : AIInsights :=
  aiInsights (Sql.order_by_created_at_desc db).

End HandleGetAIInsights.

(* ================================================================= *)
(** ** A platform instance for the examples *)

Module Sample.

(** [JSON.stringify] of an array of plain strings (no escapes needed). *)
Definition json_of_themes (l : list string) : string :=
  ("[" ++ String.concat "," (map (fun s => dq ++ s ++ dq) l) ++ "]")%string.

(** [{"key":value}] *)
Definition json_of_field (key value : string) : string :=
  ("{" ++ dq ++ key ++ dq ++ ":" ++ value ++ "}")%string.

Definition theme_lists : list (list string) :=
  [ []; ["a"; "a"; "b"]; ["b"; "b"]; ["ui"]; ["404"]; ["api"];
    ["api"; "ui"]; [""]; ["a"]; ["b"]; ["c"]; ["constructor"] ].

(** The texts the examples use, with the values [JSON.parse] gives. *)
Definition parse_table : list (string * json) :=
  map (fun l => (json_of_themes l, JArr (map JStr l))) theme_lists
  ++ [ (json_of_field "themes" (json_of_themes [""]),
        JObj [("themes", JArr [JStr ""])]);
       (json_of_field "priority" "0",
        JObj [("priority", JNum (Num.of_Z 0))]);
       (json_of_field "priority" "9",
        JObj [("priority", JNum (Num.of_Z 9))]) ].

(** A decimal numeral gives its value, the empty string zero, any other
    text of the examples [NaN]. *)
Definition string_to_number (s : string) : number :=
  if Str.is_empty s then Num.of_Z 0
  else match NilZero.uint_of_string s with
       | Some d => Num.of_Z (Z.of_N (N.of_uint d))
       | None => Num.NaN
       end.

#[export] Instance platform : Platform := {
  JSON_parse := fun s => Obj.get s parse_table;
  StringToNumber := string_to_number;
  NumberToString := fun _ => "NaN";
  toISOString := fun _ => "1970-01-01T00:00:00.000Z"
}.

(** A row that differs from the others by what the examples look at. *)
Definition row (n : Z) (sent : string) (prio : Z) (ths : list string)
  : Feedback :=
  {| id := n; source := "github"; content := "text";
     sentiment := sent; category := "bug"; priority := prio;
     themes := Some (json_of_themes ths);
     created_at := "2024-01-01 00:00:00" |}.

(** A classifier that answers [text] whatever the prompt. *)
Definition ai_says (text : string) : Ai := fun _ => AiResolves (Some text).

End Sample.

(* ################################################################# *)
(** * The rest of the worker: storage, single-item routes, grouping,
      seeding and the router *)

(* ================================================================= *)
(** ** Integers among the numbers *)

(** The integer a number stands for, when it is one. *)
Definition integer_value (x : number) : option Z :=
  match x with
  | S754_zero _ => Some 0
  | S754_finite s m e =>
      if 0 <=? e then Some (Num.signed_mantissa s m * 2 ^ e)
      else if Num.signed_mantissa s m mod 2 ^ (- e) =? 0
           then Some (Num.signed_mantissa s m / 2 ^ (- e))
           else None
  | _ => None
  end.

(** A number in the format of binary64: normalized mantissa, exponent in
    range. *)
Definition binary64 (x : number) : bool := valid_binary Num.prec Num.emax x.

(* ================================================================= *)
(** ** The database *)

(** A stored row: the columns the analytics read, and the two columns of
    [schema.sql] that only the single-item routes touch. *)
Record StoredFeedback : Type := {
  columns : Feedback;
  addressed : Z;
  addressed_at : option string
}.

(** The table [feedback], its rows in rowid order, and the largest rowid
    ever given out: the [sqlite_sequence] entry of the AUTOINCREMENT key. *)
Record database : Type := {
  table : list StoredFeedback;
  sequence : Z
}.

(** The rows as the analytics handlers read them: the eight columns
    other than [addressed] and [addressed_at].  The listing and the
    [highPriority] list of the insights run [SELECT *] and hand on the two
    columns as well; the statements about them speak of the eight. *)
Definition rows (db : database) : list Feedback := map columns (table db).

(** Services of the platform used by the writing handlers:
    [JSON.stringify] on an array of strings, and SQLite's
    [datetime('now')] at the time [now] (milliseconds since the epoch). *)
Class Runtime : Type := {
  JSON_stringify : list string -> string;
  datetime : Z -> string
}.

Definition validSources : list string :=
  ["twitter"; "discord"; "github"; "support"].

Module Table.

(** The CHECK constraints of [schema.sql]. *)
Definition check (f : Feedback) : bool :=
  existsb (String.eqb (source f)) ["twitter"; "discord"; "github"; "support"]
  && existsb (String.eqb (sentiment f)) ["positive"; "negative"; "neutral"]
  && existsb (String.eqb (category f))
       ["bug"; "feature"; "praise"; "complaint"]
  && (1 <=? priority f) && (priority f <=? 5).

(** The rowid of the next row: one more than the largest rowid that ever
    existed in the table. *)
Definition next_id (db : database) : Z :=
  fold_left Z.max (map (fun r => id (columns r)) (table db)) (sequence db)
  + 1.

(** [INSERT INTO feedback (source, content, sentiment, category, priority,
    themes) VALUES (?, ?, ?, ?, ?, ?) RETURNING *]: the new row gets the
    next rowid, the default [created_at], [addressed = 0] and
    [addressed_at = NULL]; a row that fails a CHECK is rejected.  The
    bound priority is a JavaScript number; the column only holds the
    integers, which is all [analyzeFeedback] and the seed produce. *)
Definition insert {R : Runtime} (db : database) (now : Z)
  (src text sent cat : string) (prio : number) (th : string)
  : completion (database * StoredFeedback) :=
  match integer_value prio with
  | None => Throw "SQLITE_CONSTRAINT"
  | Some p =>
      let f := {| id := next_id db; source := src; content := text;
                  sentiment := sent; category := cat; priority := p;
                  themes := Some th; created_at := datetime now |} in
      let r := {| columns := f; addressed := 0; addressed_at := None |} in
      if check f
      then Normal ({| table := table db ++ [r]; sequence := next_id db |}, r)
      else Throw "SQLITE_CONSTRAINT_CHECK"
  end.

(** [SELECT * FROM feedback WHERE id = ?] with [.first()]; a [NaN]
    parameter is bound as NULL, which equals nothing. *)
Definition first_by_id (db : database) (n : jsint) : option StoredFeedback :=
  match n with
  | Num.Int z => find (fun r => id (columns r) =? z) (table db)
  | Num.IntNaN => None
  end.

(** [UPDATE feedback SET addressed = ?, addressed_at = ? WHERE id = ?] *)
Definition update_addressed (db : database) (a : Z) (at_ : option string)
  (n : jsint) : database :=
  match n with
  | Num.Int z =>
      {| table :=
           map (fun r =>
                  if id (columns r) =? z
                  then {| columns := columns r; addressed := a;
                          addressed_at := at_ |}
                  else r)
             (table db);
         sequence := sequence db |}
  | Num.IntNaN => db
  end.

(** [DELETE FROM feedback]: the rows go, the sequence stays. *)
Definition delete_all (db : database) : database :=
  {| table := []; sequence := sequence db |}.

(** [SELECT col, COUNT( * ) as count FROM feedback GROUP BY col]: one row
    for each value of the column, with the number of rows that carry it.
    SQL leaves the order of the groups open; they are listed here in the
    order of their first row. *)
Definition group_count (col : Feedback -> string) (db : list Feedback)
  : list (string * Z) :=
  fold_left
    (fun groups f =>
       match Obj.get (col f) groups with
       | Some n => Obj.replace (col f) (n + 1) groups
       | None => groups ++ [(col f, 1)]
       end)
    db [].

(** [SELECT * FROM feedback WHERE priority >= 4 ORDER BY priority DESC,
    created_at DESC LIMIT 5].  SQL leaves the order of complete ties
    open; they keep table order here, and the statements about the list
    do not depend on it. *)
Definition high_priority (db : list Feedback) : list Feedback :=
  firstn 5
    (Arr.stable_sort
       (fun x y =>
          (priority y <? priority x)
          || ((priority y =? priority x)
              && String.leb (created_at y) (created_at x)))
       (filter (fun f => 4 <=? priority f) db)).

End Table.

(* ================================================================= *)
(** ** Responses *)

Module Headers.

(** A [Headers] object: the names are kept in lower case. *)
Definition t : Type := list (string * string).

Definition get (name : string) (h : t) : option string :=
  Obj.get (Str.toLowerCase name) h.

(** [h.set(name, value)] *)
Definition set (name value : string) (h : t) : t :=
  let k := Str.toLowerCase name in
  if Obj.has k h then Obj.replace k value h else h ++ [(k, value)].

(** [new Headers(init)] on a plain object of headers. *)
Definition of_object (init : list (string * string)) : t :=
  fold_left (fun h e => set (fst e) (snd e) h) init [].

End Headers.

(** A row of the table with its [themes] replaced by the parsed value. *)
Record StoredItem : Type := {
  stored : StoredFeedback;
  stored_themes : json
}.

Record InsightsResponse : Type := {
  ins_total : Z;
  ins_sentiment : Obj.t Z;
  ins_categories : Obj.t Z;
  ins_topThemes : list ThemeCount;
  ins_highPriority : list FeedbackItem
}.

(** An example of a theme group. *)
Record ThemeExample : Type := {
  ex_id : Z;
  ex_content : string;
  ex_sentiment : string;
  ex_source : string
}.

Record ThemeGroupData : Type := {
  tg_count : Z;
  tg_feedback : list ThemeExample
}.

Record ThemeGroup : Type := {
  th_theme : string;
  th_count : Z;
  th_feedback : list ThemeExample
}.

Record SeedCounts : Type := {
  seed_total : Z;
  seed_negative : Z;
  seed_neutral : Z;
  seed_positive : Z;
  seed_bug : Z;
  seed_feature : Z;
  seed_complaint : Z;
  seed_praise : Z
}.

(** What a response carries: nothing, the page of [getDashboardHTML]
    (whose text is not modelled), or one of the JSON documents of the
    handlers. *)
Inductive Body : Type :=
| NoBody : Body
| DashboardHTML : Body
| ErrorJson (error : string) : Body
| FeedbackJson (item : StoredItem) : Body
| ListingJson (l : listing) : Body
| InsightsJson (insights : InsightsResponse) : Body
| ThemesJson (groups : list ThemeGroup) : Body
| AIInsightsJson (insights : AIInsights) : Body
| SeedJson (text : string) (counts : SeedCounts) : Body.

Record Response : Type := {
  status : Z;
  headers : Headers.t;
  body : Body
}.

(** [Response.json(data, { status })] *)
Definition json_response (code : Z) (data : Body) : Response :=
  {| status := code;
     headers := Headers.of_object [("content-type", "application/json")];
     body := data |}.

(** A request: its method, the path and the query of its URL, and the
    text of its body. *)
Record Request : Type := {
  method : string;
  pathname : string;
  query : searchParams;
  body_text : string
}.

Record Env : Type := {
  DB : database;
  AI : Ai
}.

(** ToBoolean on a property value; [None] is [undefined]. *)
Definition json_truthy (v : option json) : bool :=
  match v with
  | None | Some JNull => false
  | Some (JBool b) => b
  | Some (JNum x) => Num.truthy x
  | Some (JStr s) => Str.truthy s
  | Some (JArr _) | Some (JObj _) => true
  end.

(** [typeof v === 'string'] *)
Definition is_string (v : option json) : bool :=
  match v with Some (JStr _) => true | _ => false end.

(** [list.includes(v)] on a list of strings. *)
Definition includes (l : list string) (v : option json) : bool :=
  match v with
  | Some (JStr s) => existsb (String.eqb s) l
  | _ => false
  end.

(** [body.k] on a parsed request body: reading a property of [null]
    throws, every other value that is not an object has none of the
    properties asked for. *)
Definition member (v : json) (k : string) : completion (option json) :=
  match v with
  | JNull => Throw "TypeError: cannot read properties of null"
  | JObj fields => Normal (Obj.get k fields)
  | _ => Normal None
  end.

Section Handlers.
Context {P : Platform} {R : Runtime}.

(** [await request.json()] *)
Definition request_json (request : Request) : completion json :=
  match JSON_parse (body_text request) with
  | Some v => Normal v
  | None => Throw "SyntaxError"
  end.

Definition with_parsed_themes (r : StoredFeedback) : completion StoredItem :=
  v <- parse_themes (columns r) ;;
  Normal {| stored := r; stored_themes := v |}.

(* ================================================================= *)
(** ** POST /api/feedback: [handlePostFeedback] *)

Definition handlePostFeedback (request : Request) (env : Env) (now : Z)
  : Response * database :=
  let failed :=
    json_response 500 (ErrorJson "Failed to create feedback") in
  match
    (parsed <- request_json request ;;
     text <- member parsed "content" ;;
     if negb (json_truthy text) || negb (is_string text)
     then Normal (inl (json_response 400 (ErrorJson "content is required")))
     else
       src <- member parsed "source" ;;
       if negb (json_truthy src) || negb (includes validSources src)
       then
         Normal
           (inl (json_response 400
                   (ErrorJson
                      ("source must be one of: "
                       ++ String.concat ", " validSources)%string)))
       else
         match text, src with
         | Some (JStr text), Some (JStr src) => Normal (inr (src, text))
         | _, _ => Throw "TypeError"
         end)
  with
  | Throw _ => (failed, DB env)
  | Normal (inl rejected) => (rejected, DB env)
  | Normal (inr (src, text)) =>
      let analysis := analyzeFeedback (AI env) text in
      match
        Table.insert (DB env) now src text (fa_sentiment analysis)
          (fa_category analysis) (fa_priority analysis)
          (JSON_stringify (fa_themes analysis))
      with
      | Throw _ => (failed, DB env)
      | Normal (db, result) =>
          match with_parsed_themes result with
          | Throw _ => (failed, db)
          | Normal item => (json_response 201 (FeedbackJson item), db)
          end
      end
  end.

(* ================================================================= *)
(** ** GET /api/feedback/:id: [handleGetFeedbackById] *)

Definition handleGetFeedbackById (id_text : string) (env : Env) : Response :=
  try_catch
    (match Table.first_by_id (DB env) (Str.parseInt id_text) with
     | None => Normal (json_response 404 (ErrorJson "Feedback not found"))
     | Some result =>
         item <- with_parsed_themes result ;;
         Normal (json_response 200 (FeedbackJson item))
     end)
    (json_response 500 (ErrorJson "Failed to fetch feedback")).

(* ================================================================= *)
(** ** PATCH /api/feedback/:id: [handlePatchFeedback] *)

Definition handlePatchFeedback (id_text : string) (request : Request)
  (env : Env) (now : Z) : Response * database :=
  let failed :=
    json_response 500 (ErrorJson "Failed to update feedback") in
  match (parsed <- request_json request ;; member parsed "addressed") with
  | Throw _ => (failed, DB env)
  | Normal (Some (JBool flag)) =>
      let a := if flag then 1 else 0 in
      let addressedAt := if flag then Some (toISOString now) else None in
      let db :=
        Table.update_addressed (DB env) a addressedAt
          (Str.parseInt id_text) in
      match Table.first_by_id db (Str.parseInt id_text) with
      | None => (json_response 404 (ErrorJson "Feedback not found"), db)
      | Some result =>
          match with_parsed_themes result with
          | Throw _ => (failed, db)
          | Normal item => (json_response 200 (FeedbackJson item), db)
          end
      end
  | Normal _ =>
      (json_response 400 (ErrorJson "No valid fields to update"), DB env)
  end.

(* ================================================================= *)
(** ** GET /api/feedback and GET /api/ai-insights as responses *)

Definition getFeedback_response (request : Request) (env : Env) (now : Z)
  : Response :=
  match handleGetFeedback (rows (DB env)) now (query request) with
  | Normal l => json_response 200 (ListingJson l)
  | Throw _ => json_response 500 (ErrorJson "Failed to fetch feedback")
  end.

Definition getAIInsights_response (env : Env) : Response :=
  json_response 200 (AIInsightsJson (handleGetAIInsights (rows (DB env)))).

(* ================================================================= *)
(** ** GET /api/insights: [handleGetInsights] *)

(** [sentimentResult.results.forEach(r => { if (r.sentiment in
    sentimentCounts) sentimentCounts[r.sentiment] = r.count })] *)
Definition sentimentCounts (sentimentResult : list (string * Z)) : Obj.t Z :=
  Arr.forEach
    (fun r counts =>
       if Obj.has (fst r) counts then Obj.set (fst r) (snd r) counts
       else counts)
    sentimentResult
    [("positive", 0); ("negative", 0); ("neutral", 0)].

(** [categoryResult.results.forEach(r => { categories[r.category] =
    r.count })] *)
Definition categories (categoryResult : list (string * Z)) : Obj.t Z :=
  Arr.forEach (fun r o => Obj.set (fst r) (snd r) o) categoryResult
    Obj.empty.

Definition handleGetInsights (db : list Feedback)
  : completion InsightsResponse :=
  let total := Z.of_nat (List.length db) in
  let sentimentResult := Table.group_count sentiment db in
  let categoryResult := Table.group_count category db in
  highPriority <- parse_rows (Table.high_priority db) ;;
  Normal
    {| ins_total := total;
       ins_sentiment := sentimentCounts sentimentResult;
       ins_categories := categories categoryResult;
       ins_topThemes := topThemes db;
       ins_highPriority := highPriority |}.

Definition getInsights_response (env : Env) : Response :=
  match handleGetInsights (rows (DB env)) with
  | Normal i => json_response 200 (InsightsJson i)
  | Throw _ => json_response 500 (ErrorJson "Failed to fetch insights")
  end.

(* ================================================================= *)
(** ** GET /api/themes: [handleGetThemes] *)

Definition example_of (f : Feedback) : ThemeExample :=
  {| ex_id := id f; ex_content := content f;
     ex_sentiment := sentiment f; ex_source := source f |}.

(** The update of [themeGroups] for one theme of a row, for a theme that
    is not a name of [Object.prototype] (for such a name the code finds
    the inherited member, and [push] on its missing [feedback] throws). *)
Definition add_to_group (f : Feedback) (t : string)
  (groups : Obj.t ThemeGroupData) : Obj.t ThemeGroupData :=
  let groups1 :=
    if Obj.has t groups then groups
    else Obj.set t {| tg_count := 0; tg_feedback := [] |} groups in
  match Obj.get t groups1 with
  | Some d =>
      Obj.set t
        {| tg_count := tg_count d + 1;
           tg_feedback := tg_feedback d ++ [example_of f] |}
        groups1
  | None => groups1
  end.

Definition themeGroups (db : list Feedback) : Obj.t ThemeGroupData :=
  Arr.forEach (fun f groups => forEach_theme (add_to_group f) f groups)
    db Obj.empty.

(** Sort by count and convert to array, three examples per theme. *)
Definition handleGetThemes (db : list Feedback) : list ThemeGroup :=
  map (fun e =>
         {| th_theme := fst e;
            th_count := tg_count (snd e);
            th_feedback := Arr.slice 0 (Some 3) (tg_feedback (snd e)) |})
    (Arr.sort_desc (fun e => tg_count (snd e))
       (Obj.entries (themeGroups db))).

Definition getThemes_response (env : Env) : Response :=
  json_response 200 (ThemesJson (handleGetThemes (rows (DB env)))).

End Handlers.

(* ================================================================= *)
(** ** POST /api/seed: [handleSeed] *)

Record MockFeedback : Type := {
  mock_source : string;
  mock_content : string;
  mock_sentiment : string;
  mock_category : string;
  mock_priority : Z;
  mock_themes : list string
}.

(** The mock feedback of [handleSeed], entry by entry. *)
Definition mockFeedback : list MockFeedback :=
  [
    {| mock_source := "github";
       mock_content :=
         "The API keeps timing out when I try to deploy large projects. Getting 504 errors consistently after 30 seconds.";
       mock_sentiment := "negative"; mock_category := "bug"; mock_priority := 5;
       mock_themes := ["api"; "deployment"; "performance"] |};
    {| mock_source := "discord";
       mock_content :=
         "Workers AI returns empty responses randomly. About 1 in 10 requests just comes back blank.";
       mock_sentiment := "negative"; mock_category := "bug"; mock_priority := 5;
       mock_themes := ["workers ai"; "reliability"] |};
    {| mock_source := "support";
       mock_content :=
         "D1 database queries are failing silently. No error messages, just undefined results.";
       mock_sentiment := "negative"; mock_category := "bug"; mock_priority := 5;
       mock_themes := ["d1"; "database"; "errors"] |};
    {| mock_source := "github";
       mock_content :=
         "Wrangler dev mode crashes when using custom domains. Have to restart every few minutes.";
       mock_sentiment := "negative"; mock_category := "bug"; mock_priority := 4;
       mock_themes := ["wrangler"; "development"; "domains"] |};
    {| mock_source := "twitter";
       mock_content :=
         "Anyone else seeing their Worker just randomly stop responding? Mine goes down for like 5 mins then comes back.";
       mock_sentiment := "negative"; mock_category := "bug"; mock_priority := 4;
       mock_themes := ["reliability"; "downtime"] |};
    {| mock_source := "support";
       mock_content :=
         "KV storage is returning stale data even after writes complete. Cache invalidation seems broken.";
       mock_sentiment := "negative"; mock_category := "bug"; mock_priority := 4;
       mock_themes := ["kv"; "caching"; "storage"] |};
    {| mock_source := "github";
       mock_content :=
         "TypeScript types for Env bindings are wrong after running wrangler types. Had to manually fix them.";
       mock_sentiment := "negative"; mock_category := "bug"; mock_priority := 3;
       mock_themes := ["typescript"; "wrangler"; "dx"] |};
    {| mock_source := "discord";
       mock_content :=
         "The dashboard keeps logging me out every hour. Super annoying when debugging.";
       mock_sentiment := "negative"; mock_category := "bug"; mock_priority := 3;
       mock_themes := ["dashboard"; "authentication"] |};
    {| mock_source := "twitter";
       mock_content :=
         "R2 upload failing for files over 50MB even though docs say 5GB limit. What gives?";
       mock_sentiment := "negative"; mock_category := "bug"; mock_priority := 4;
       mock_themes := ["r2"; "storage"; "uploads"] |};
    {| mock_source := "github";
       mock_content :=
         "Cron triggers not firing at the scheduled time. Sometimes 10+ minutes late.";
       mock_sentiment := "negative"; mock_category := "bug"; mock_priority := 3;
       mock_themes := ["cron"; "scheduling"; "reliability"] |};
    {| mock_source := "support";
       mock_content :=
         ("Pages deployment stuck in " ++ dq ++ "building" ++ dq ++ " state for 2 hours now. Cannot cancel or retry.")%string;
       mock_sentiment := "negative"; mock_category := "bug"; mock_priority := 4;
       mock_themes := ["pages"; "deployment"; "builds"] |};
    {| mock_source := "discord";
       mock_content :=
         "Websocket connections dropping after exactly 100 seconds. Thought there was no timeout?";
       mock_sentiment := "negative"; mock_category := "bug"; mock_priority := 4;
       mock_themes := ["websockets"; "connections"; "reliability"] |};
    {| mock_source := "github";
       mock_content :=
         "Can you add support for Python 3.12? Would love to use the latest features in Workers.";
       mock_sentiment := "neutral"; mock_category := "feature"; mock_priority := 3;
       mock_themes := ["python"; "languages"; "workers"] |};
    {| mock_source := "discord";
       mock_content :=
         "Would be great to have native PostgreSQL support instead of just D1/SQLite.";
       mock_sentiment := "neutral"; mock_category := "feature"; mock_priority := 3;
       mock_themes := ["database"; "postgresql"; "storage"] |};
    {| mock_source := "twitter";
       mock_content :=
         "Any plans for a VS Code extension with better Wrangler integration? The current workflow is clunky.";
       mock_sentiment := "neutral"; mock_category := "feature"; mock_priority := 2;
       mock_themes := ["dx"; "vscode"; "tooling"] |};
    {| mock_source := "github";
       mock_content :=
         "Please add ability to set memory limits per Worker. Some of mine need more than others.";
       mock_sentiment := "neutral"; mock_category := "feature"; mock_priority := 3;
       mock_themes := ["workers"; "resources"; "configuration"] |};
    {| mock_source := "support";
       mock_content :=
         "Is there a way to get detailed cost breakdown per Worker? Hard to optimize without visibility.";
       mock_sentiment := "neutral"; mock_category := "feature"; mock_priority := 2;
       mock_themes := ["pricing"; "analytics"; "dashboard"] |};
    {| mock_source := "discord";
       mock_content :=
         "Request: Allow custom error pages for Workers. Want to show branded 500 errors.";
       mock_sentiment := "neutral"; mock_category := "feature"; mock_priority := 2;
       mock_themes := ["workers"; "errors"; "customization"] |};
    {| mock_source := "github";
       mock_content :=
         "Would love to see GitHub Actions for D1 migrations. Current manual process is error-prone.";
       mock_sentiment := "neutral"; mock_category := "feature"; mock_priority := 3;
       mock_themes := ["d1"; "ci/cd"; "automation"] |};
    {| mock_source := "twitter";
       mock_content :=
         "Any ETA on bringing Queues out of beta? Need it for production but hesitant on beta products.";
       mock_sentiment := "neutral"; mock_category := "feature"; mock_priority := 3;
       mock_themes := ["queues"; "reliability"; "production"] |};
    {| mock_source := "twitter";
       mock_content :=
         "Why is my bill so high this month?! Jumped from $5 to $47 with no traffic increase. This is ridiculous.";
       mock_sentiment := "negative"; mock_category := "complaint"; mock_priority := 5;
       mock_themes := ["pricing"; "billing"; "costs"] |};
    {| mock_source := "support";
       mock_content :=
         "Documentation for Workers AI is so confusing. Spent 3 hours trying to figure out basic setup.";
       mock_sentiment := "negative"; mock_category := "complaint"; mock_priority := 3;
       mock_themes := ["documentation"; "workers ai"; "onboarding"] |};
    {| mock_source := "discord";
       mock_content :=
         "The pricing calculator is completely wrong. Estimated $10/month, actually charged $35.";
       mock_sentiment := "negative"; mock_category := "complaint"; mock_priority := 4;
       mock_themes := ["pricing"; "billing"; "transparency"] |};
    {| mock_source := "twitter";
       mock_content :=
         "Support response time is awful. Opened a ticket 5 days ago for a production issue. Still waiting.";
       mock_sentiment := "negative"; mock_category := "complaint"; mock_priority := 4;
       mock_themes := ["support"; "response time"] |};
    {| mock_source := "github";
       mock_content :=
         "The migration from older Workers syntax was a nightmare. Breaking changes with minimal guidance.";
       mock_sentiment := "negative"; mock_category := "complaint"; mock_priority := 3;
       mock_themes := ["migration"; "dx"; "documentation"] |};
    {| mock_source := "support";
       mock_content :=
         "Tried to contact sales about enterprise plan for a week. No response. Going with AWS instead.";
       mock_sentiment := "negative"; mock_category := "complaint"; mock_priority := 5;
       mock_themes := ["sales"; "enterprise"; "support"] |};
    {| mock_source := "twitter";
       mock_content :=
         "Love the new dashboard update! So much cleaner and faster. Great work team! ðŸŽ‰";
       mock_sentiment := "positive"; mock_category := "praise"; mock_priority := 1;
       mock_themes := ["dashboard"; "ui"; "performance"] |};
    {| mock_source := "discord";
       mock_content :=
         "Just migrated from AWS Lambda to Workers. 10x faster cold starts and way cheaper. Incredibly impressed.";
       mock_sentiment := "positive"; mock_category := "praise"; mock_priority := 1;
       mock_themes := ["performance"; "pricing"; "migration"] |};
    {| mock_source := "github";
       mock_content :=
         "The D1 team shipped that fix incredibly fast. Reported yesterday, patched today. Amazing support!";
       mock_sentiment := "positive"; mock_category := "praise"; mock_priority := 1;
       mock_themes := ["d1"; "support"; "reliability"] |};
    {| mock_source := "twitter";
       mock_content :=
         "Workers AI is a game changer. Running LLMs at the edge with zero config? Mind blown. ðŸ¤¯";
       mock_sentiment := "positive"; mock_category := "praise"; mock_priority := 1;
       mock_themes := ["workers ai"; "edge"; "innovation"] |} ].

Section Router.
Context {P : Platform} {R : Runtime}.

(** [mockFeedback.filter(f => f.sentiment === s).length] and the like. *)
Definition count_mock (field : MockFeedback -> string) (v : string) : Z :=
  Z.of_nat
    (List.length (filter (fun f => String.eqb (field f) v) mockFeedback)).

(** One statement of the seed; a rejected statement leaves the table as it
    is and makes [Promise.all] reject. *)
Definition seed_insert (now : Z) (st : database * bool) (f : MockFeedback)
  : database * bool :=
  match
    Table.insert (fst st) now (mock_source f) (mock_content f)
      (mock_sentiment f) (mock_category f) (Num.of_Z (mock_priority f))
      (JSON_stringify (mock_themes f))
  with
  | Normal (db, _) => (db, snd st)
  | Throw _ => (fst st, false)
  end.

(** The handler: the table is cleared, then the statements run in the
    order of the array, in which [map] issues them. *)
Definition handleSeed (env : Env) (now : Z) : Response * database :=
  let '(db, inserted) :=
    fold_left (seed_insert now) mockFeedback
      (Table.delete_all (DB env), true) in
  if inserted then
    (json_response 200
       (SeedJson
          ("Seeded "
           ++ Str.of_N (N.of_nat (List.length mockFeedback))
           ++ " feedback entries")%string
          {| seed_total := Z.of_nat (List.length mockFeedback);
             seed_negative := count_mock mock_sentiment "negative";
             seed_neutral := count_mock mock_sentiment "neutral";
             seed_positive := count_mock mock_sentiment "positive";
             seed_bug := count_mock mock_category "bug";
             seed_feature := count_mock mock_category "feature";
             seed_complaint := count_mock mock_category "complaint";
             seed_praise := count_mock mock_category "praise" |}),
     db)
  else (json_response 500 (ErrorJson "Failed to seed database"), db).

(* ================================================================= *)
(** ** The router: [fetch] and [addCorsHeaders] *)

Definition corsHeaders : list (string * string) :=
  [ ("Access-Control-Allow-Origin", "*");
    ("Access-Control-Allow-Methods", "GET, POST, PATCH, OPTIONS");
    ("Access-Control-Allow-Headers", "Content-Type") ].

(** Helper to add CORS headers to response. *)
Definition addCorsHeaders (response : Response)
  (cors : list (string * string)) : Response :=
  {| status := status response;
     headers :=
       Arr.forEach (fun e h => Headers.set (fst e) (snd e) h) cors
         (headers response);
     body := body response |}.

(** [s.startsWith(p)] *)
Definition startsWith (p s : string) : bool := String.prefix p s.

Fixpoint all_digits (s : string) : bool :=
  match s with
  | EmptyString => true
  | String c r => Str.is_digit c && all_digits r
  end.

(** [path.match(/^\/api\/feedback\/(\d+)$/)]: the captured digits. *)
Definition feedbackIdMatch (path : string) : option string :=
  if startsWith "/api/feedback/" path then
    let digits := Str.drop 14 path in
    if Str.truthy digits && all_digits digits then Some digits else None
  else None.

(** The router.  Every handler catches what it throws, so the [catch] of
    the router itself is never entered; a path of the single-item form
    with a method other than GET and PATCH falls through to the tests that
    follow. *)
Definition fetch (request : Request) (env : Env) (now : Z)
  : Response * database :=
  let path := pathname request in
  let verb := method request in
  let cors r := addCorsHeaders r corsHeaders in
  if String.eqb verb "OPTIONS" then
    ({| status := 200; headers := Headers.of_object corsHeaders;
        body := NoBody |}, DB env)
  else if String.eqb path "/api/feedback" && String.eqb verb "POST" then
    let '(response, db) := handlePostFeedback request env now in
    (cors response, db)
  else if String.eqb path "/api/feedback" && String.eqb verb "GET" then
    (cors (getFeedback_response request env now), DB env)
  else
    let others :=
      if String.eqb path "/api/insights" && String.eqb verb "GET" then
        (cors (getInsights_response env), DB env)
      else if String.eqb path "/api/themes" && String.eqb verb "GET" then
        (cors (getThemes_response env), DB env)
      else if String.eqb path "/api/ai-insights" && String.eqb verb "GET"
      then (cors (getAIInsights_response env), DB env)
      else if String.eqb path "/api/seed" && String.eqb verb "POST" then
        let '(response, db) := handleSeed env now in
        (cors response, db)
      else if String.eqb path "/" || negb (startsWith "/api" path) then
        ({| status := 200;
            headers := Headers.of_object [("Content-Type", "text/html")];
            body := DashboardHTML |}, DB env)
      else (json_response 404 (ErrorJson "Not found"), DB env) in
    match feedbackIdMatch path with
    | Some id_text =>
        if String.eqb verb "GET" then
          (cors (handleGetFeedbackById id_text env), DB env)
        else if String.eqb verb "PATCH" then
          let '(response, db) :=
            handlePatchFeedback id_text request env now in
          (cors response, db)
        else others
    | None => others
    end.

End Router.
(* ################################################################# *)
(** * Vocabulary of the statements *)

(** [x] occurs somewhere before an occurrence of [y]. *)
Definition before {A : Type} (x y : A) (l : list A) : Prop :=
  exists l1 l2 l3, l = l1 ++ x :: l2 ++ y :: l3.

(** Position of the first occurrence of [k] in [scan]; the length of [scan]
    when there is none. *)
Fixpoint first_pos (k : string) (scan : list string) : nat :=
  match scan with
  | [] => O
  | t :: rest => if String.eqb t k then O else S (first_pos k rest)
  end.

(** The order in which a counter object lists two of its keys, the keys
    having been inserted in the order of [scan]: array indices come first,
    by value; the other keys follow, by first insertion. *)
Definition own_key_before (scan : list string) (a b : string) : Prop :=
  match Str.array_index a, Str.array_index b with
  | Some x, Some y => (x < y)%N
  | Some _, None => True
  | None, Some _ => False
  | None, None => (first_pos a scan < first_pos b scan)%nat
  end.

(** Number of occurrences of [t] in a scan. *)
Definition occurrences (t : string) (scan : list string) : Z :=
  Z.of_nat (count_occ string_dec scan t).

(** The strings at the head of an array, up to its first element that is
    not a string. *)
Fixpoint leading_strings (items : list json) : list string :=
  match items with
  | JStr s :: rest => s :: leading_strings rest
  | _ => []
  end.

(** Lower case, trimmed, the empty results dropped. *)
Definition normalized (l : list string) : list string :=
  filter Str.truthy (map (fun s => Str.trim (Str.toLowerCase s)) l).

Section ScanVocabulary.
Context {P : Platform}.

(** The strings a row offers as themes: those at the head of its [themes]
    array, as they are stored; none when the column is NULL, is not JSON
    or is not an array. *)
Definition theme_strings (f : Feedback) : list string :=
  match themes f with
  | None => []
  | Some text =>
      match JSON_parse text with
      | Some (JArr items) => leading_strings items
      | _ => []
      end
  end.

(** The themes a row contributes to a scan, in order: its theme strings
    in lower case and trimmed, the empty ones left out. *)
Definition scanned_themes (f : Feedback) : list string :=
  normalized (theme_strings f).

(** All theme mentions of a record set, in scan order. *)
Definition theme_scan (rows : list Feedback) : list string :=
  flat_map scanned_themes rows.

End ScanVocabulary.

(** Every code unit of [s] is an ASCII character. *)
Definition is_ascii (s : string) : bool :=
  forallb (fun c => (Str.code c <? 128)%nat) (list_ascii_of_string s).

(** A theme as a row may hold it that the model of the counters covers:
    ASCII text whose normal form is not a name of [Object.prototype]. *)
Definition plain (s : string) : bool :=
  is_ascii s && negb (Obj.inherited (Str.trim (Str.toLowerCase s))).

Section PlainThemes.
Context {P : Platform}.

(** The themes of the rows are ASCII text. *)
Definition ascii_themes (rows : list Feedback) : Prop :=
  forall f s, In f rows -> In s (theme_strings f) -> is_ascii s = true.

(** The themes of the rows are plain. *)
Definition plain_themes (rows : list Feedback) : Prop :=
  forall f s, In f rows -> In s (theme_strings f) -> plain s = true.

(** The same, as a test. *)
Definition all_plain (rows : list Feedback) : bool :=
  forallb (fun f => forallb plain (theme_strings f)) rows.

End PlainThemes.

(** The keys [ks] respect the enumeration order of a counter filled in the
    order of [scan]. *)
Definition keys_ordered (scan ks : list string) : Prop :=
  forall x y, before x y ks -> own_key_before scan x y.

(** [v || 0] on a counter that may be [undefined]. *)
Definition count_or_0 (v : option Z) : Z :=
  match v with Some n => n | None => 0 end.

(** The sum of a list of integers. *)
Definition sum (l : list Z) : Z := fold_right Z.add 0 l.

(** The entries of a counter filled by [scan], after the sort and the cut
    to five. *)
Definition ranked (scan : list string) : list (string * Z) :=
  Arr.slice 0 (Some 5)
    (Arr.sort_desc snd
       (Obj.entries
          (fold_left (fun o x => increment x o) scan Obj.empty))).

Section ThemeVocabulary.
Context {P : Platform}.

(** The ranking as the specification words it: at most five entries,
    counts going down, and equal counts in first-encountered order. *)
Definition spec_ties_first_encountered (rows : list Feedback) : Prop :=
  forall i j a b,
    (i < j)%nat ->
    nth_error (topThemes rows) i = Some a ->
    nth_error (topThemes rows) j = Some b ->
    tc_count a = tc_count b ->
    (first_pos (tc_theme a) (theme_scan rows)
     < first_pos (tc_theme b) (theme_scan rows))%nat.





(** One row that holds the theme [b] twice. *)
Definition sample_repeat_rows : list Feedback :=
  [Sample.row 1 "neutral" 3 ["b"; "b"]].

(** One row with the themes [a], [a] and [b]. *)
Definition sample_share_rows : list Feedback :=
  [Sample.row 1 "neutral" 3 ["a"; "a"; "b"]].

(** [t] is one of the themes listed by the distribution. *)
Definition listed (t : string) (dist : list ThemeDistribution) : Prop :=
  exists d, In d dist /\ td_theme d = t.

End ThemeVocabulary.

(** *** Sentiment trend, in the words of the specification *)

(** Where the record set is cut: at its midpoint, or after the single
    record if only one exists. *)
Definition spec_split_point (n : nat) : nat :=
  if (n =? 1)%nat then 1%nat else (n / 2)%nat.

(** Number of records of a half with sentiment [s]. *)
Definition spec_count (s : string) (half : list Feedback) : Z :=
  fold_right (fun f n => if String.eqb (sentiment f) s then n + 1 else n)
    0 half.

(** [(countPositive - countNegative) / size], 0 if the half is empty: a
    fraction. *)
Definition spec_positiveRatio (half : list Feedback) : Q :=
  match half with
  | [] => 0%Q
  | _ :: _ =>
      Qmake (spec_count "positive" half - spec_count "negative" half)
        (Pos.of_nat (List.length half))
  end.

(** [diff > 0.1]: improving; [diff < -0.1]: declining; otherwise stable;
    [0.1] is one tenth. *)
Definition spec_classify (diff : Q) : string :=
  if Qlt_le_dec (1 # 10) diff then "improving"
  else if Qlt_le_dec diff (- (1 # 10)) then "declining"
  else "stable".

(** The trend of a record set, newest first. *)
Definition spec_trend (feedback : list Feedback) : string :=
  let k := spec_split_point (List.length feedback) in
  spec_classify
    (Qminus (spec_positiveRatio (firstn k feedback))
       (spec_positiveRatio (skipn k feedback))).

(** Four records, newest first: positive, positive, negative, negative. *)
Definition sample_trend_rows : list Feedback :=
  [ Sample.row 4 "positive" 2 []; Sample.row 3 "positive" 2 [];
    Sample.row 2 "negative" 4 []; Sample.row 1 "negative" 4 [] ].

(** The day [d] of January 2024 at midnight, as SQLite stamps it. *)
Definition january (d : nat) : string :=
  ("2024-01-"
   ++ (if (d <? 10)%nat then "0" ++ Str.of_N (N.of_nat d)
       else Str.of_N (N.of_nat d))
   ++ " 00:00:00")%string.

(** The record of id [n], stored on the day of that number. *)
Definition dated (n : nat) (sent : string) : Feedback :=
  {| id := Z.of_nat n; source := "github"; content := "text";
     sentiment := sent; category := "bug"; priority := 2;
     themes := Some (Sample.json_of_themes []);
     created_at := january n |}.

(** A table of twenty records, one a day: seven neutral ones, three
    positive ones, six neutral ones, four positive ones. *)
Definition sample_tenth_table : list Feedback :=
  map (fun n => dated n "neutral") (seq 1 7)
  ++ map (fun n => dated n "positive") (seq 8 3)
  ++ map (fun n => dated n "neutral") (seq 11 6)
  ++ map (fun n => dated n "positive") (seq 17 4).

(** The same records newest first, as the AI insights read them. *)
Definition sample_tenth_rows : list Feedback :=
  Sql.order_by_created_at_desc sample_tenth_table.

(** *** Classifier gateway *)

(** The text holds an opening brace with a closing brace further on. *)
Definition has_json_span (text : string) : Prop :=
  exists i j,
    (i < j)%nat
    /\ String.get i text = Some "{"%char
    /\ String.get j text = Some "}"%char.






Section AnswerVocabulary.
Context {P : Platform}.



End AnswerVocabulary.

(** [Math.min(5, Math.max(1, x))]: clamping into [1 .. 5]. *)
Definition clamp_1_5 (x : number) : number :=
  Num.Math_min (Num.of_Z 5) (Num.Math_max (Num.of_Z 1) x).

(** A listing request without filters, with the given [page] and [limit]
    parameters. *)
Definition plain_request (p l : option string) : searchParams :=
  {| q_source := None; q_sentiment := None; q_category := None;
     q_priority := None; q_dateRange := None; q_page := p; q_limit := l |}.

(** *** Listing *)

(** Two requests that differ at most by their [page] parameter. *)
Definition same_filters (q r : searchParams) : Prop :=
  q_source r = q_source q
  /\ q_sentiment r = q_sentiment q
  /\ q_category r = q_category q
  /\ q_priority r = q_priority q
  /\ q_dateRange r = q_dateRange q
  /\ q_limit r = q_limit q.

(** The rows of the [feedback] array of a response. *)
Definition rows_of (r : listing) : list Feedback :=
  map item_row (feedback r).

(** A filter parameter that is absent or empty filters nothing; otherwise
    the row must pass [test]. *)
Definition filter_by (p : option string) (test : string -> bool) : bool :=
  match p with
  | None => true
  | Some v => if Str.is_empty v then true else test v
  end.

(** The row [f] passes the filters of the request [q] received at [now]:
    its source, sentiment and category are the ones asked for, its
    priority is the integer at the head of the [priority] parameter, and
    its [created_at] is not before the instant 24 hours, 7 days or 30 days
    ago, printed by [toISOString], for the three date ranges. *)
Definition spec_matches {P : Platform} (now : Z) (q : searchParams)
  (f : Feedback) : bool :=
  filter_by (q_source q) (fun v => String.eqb (source f) v)
  && filter_by (q_sentiment q) (fun v => String.eqb (sentiment f) v)
  && filter_by (q_category q) (fun v => String.eqb (category f) v)
  && filter_by (q_priority q)
       (fun v => match Str.parseInt v with
                 | Num.Int n => priority f =? n
                 | Num.IntNaN => false
                 end)
  && filter_by (q_dateRange q)
       (fun v =>
          if String.eqb v "24h"
          then String.leb (toISOString (now - 86400000)) (created_at f)
          else if String.eqb v "7d"
          then String.leb (toISOString (now - 7 * 86400000)) (created_at f)
          else if String.eqb v "30d"
          then String.leb (toISOString (now - 30 * 86400000)) (created_at f)
          else true).


(** Three rows for the examples of the listing. *)
Definition sample_db : list Feedback :=
  [ Sample.row 1 "positive" 3 []; Sample.row 2 "negative" 5 ["ui"];
    Sample.row 3 "positive" 1 ["api"] ].

(** The request for page [k + 1] of [sample_db], two rows a page. *)
Definition sample_page (k : nat) : searchParams :=
  plain_request (Some (Str.of_N (N.of_nat (S k)))) (Some "2").



(** *** Numbers that are not negative *)

(** A number that is [+0], positive and finite, or [+Infinity]. *)
Definition nonneg (x : number) : bool :=
  match x with
  | S754_zero false | S754_finite false _ _ | S754_infinity false => true
  | _ => false
  end.

(** The position of such a number on the line: its class (zero, finite,
    infinite), then exponent and mantissa for a finite one. *)
Definition rank (x : number) : Z * Z * Z :=
  match x with
  | S754_zero _ => (0, 0, 0)
  | S754_finite _ m e => (1, e, Z.pos m)
  | S754_infinity _ => (2, 0, 0)
  | S754_nan => (3, 0, 0)
  end.

Definition rank_lt (a b : Z * Z * Z) : Prop :=
  let '(ca, ea, ma) := a in
  let '(cb, eb, mb) := b in
  ca < cb \/ (ca = cb /\ (ea < eb \/ (ea = eb /\ ma < mb))).

(** *** Most urgent issue *)

Section UrgentVocabulary.
Context {P : Platform}.

(** The theme mentions of the negative rows, each with the priority of its
    row, in scan order. *)
Definition negative_mentions (feedback : list Feedback)
  : list (string * Z) :=
  flat_map
    (fun f =>
       if String.eqb (sentiment f) "negative"
       then map (fun t => (t, priority f)) (scanned_themes f)
       else [])
    feedback.

End UrgentVocabulary.

(** The mentions of theme [t]. *)
Definition mentions_of (t : string) (ms : list (string * Z))
  : list (string * Z) :=
  filter (fun m => String.eqb (fst m) t) ms.

(** Sum of the priorities, and number, of the mentions of [t]. *)
Definition total_for (t : string) (ms : list (string * Z)) : Z :=
  sum (map snd (mentions_of t ms)).

Definition count_for (t : string) (ms : list (string * Z)) : Z :=
  Z.of_nat (List.length (mentions_of t ms)).

(** The average priority of the mentions of [t], as a fraction. *)
Definition spec_average (t : string) (ms : list (string * Z)) : Q :=
  Qmake (total_for t ms) (Z.to_pos (count_for t ms)).

(** The theme [a] is more urgent than [b]: its average priority is
    higher, or the averages are equal and it is mentioned more often. *)
Definition more_urgent (ms : list (string * Z)) (a b : string) : bool :=
  match Qcompare (spec_average a ms) (spec_average b ms) with
  | Gt => true
  | Eq => count_for b ms <? count_for a ms
  | Lt => false
  end.

(** The most urgent issue as the specification words it: the theme with
    the highest average priority among the mentions, the higher count
    deciding between equal averages; none when there is no mention. *)
Definition spec_mostUrgent (ms : list (string * Z)) : option string :=
  fold_left
    (fun best m =>
       match best with
       | None => Some (fst m)
       | Some b => if more_urgent ms (fst m) b then Some (fst m) else best
       end)
    ms None.

(** What the accumulator holds for a theme after a scan of [ms]. *)
Definition accumulated (t : string) (ms : list (string * Z))
  : option ThemePriority :=
  if count_for t ms =? 0 then None
  else Some {| tp_total := total_for t ms; tp_count := count_for t ms |}.

(** The accumulator after the mentions [ms]. *)
Definition accumulate (ms : list (string * Z)) : Obj.t ThemePriority :=
  fold_left (fun acc m => add_priority (snd m) (fst m) acc) ms Obj.empty.

(** The selection loop run over a list of entries. *)
Definition select_urgent (entries : list (string * ThemePriority))
  : option UrgentIssue * number :=
  Arr.forEach urgent_step entries (None, Num.of_Z 0).

(** An entry whose sum and count are those of between 1 and [bound]
    priorities, each between 1 and 5. *)
Definition sound_entry (bound : Z) (e : string * ThemePriority) : Prop :=
  1 <= tp_count (snd e) <= bound
  /\ tp_count (snd e) <= tp_total (snd e) <= 5 * tp_count (snd e).

(** Three negative rows that mention [ui] with priorities 4, 4 and 5, and
    one that mentions [api] with priority 3. *)
Definition sample_negative_rows : list Feedback :=
  [ Sample.row 4 "negative" 4 ["ui"]; Sample.row 3 "negative" 3 ["api"];
    Sample.row 2 "negative" 4 ["api"; "ui"]; Sample.row 1 "negative" 5 ["ui"];
    Sample.row 0 "positive" 5 ["b"; "b"] ].

(** Two negative rows: [constructor] with priority 5, [ui] with
    priority 2. *)
Definition sample_inherited_rows : list Feedback :=
  [ Sample.row 2 "negative" 5 ["constructor"];
    Sample.row 1 "negative" 2 ["ui"] ].

(** [data.total / data.count] written out on the two fields. *)
Definition quotient (d : ThemePriority) : number :=
  Num.div (Num.of_Z (tp_total d)) (Num.of_Z (tp_count d)).

(** The issue the loop records for an entry. *)
Definition urgent_of (e : string * ThemePriority) : UrgentIssue :=
  {| ui_theme := fst e;
     ui_avgPriority := round1 (average (snd e));
     ui_count := tp_count (snd e) |}.

(** [e] has the highest average among [seen] and, among the entries of
    that average, the highest count. *)
Definition leads (e : string * ThemePriority)
  (seen : list (string * ThemePriority)) : Prop :=
  forall e', In e' seen ->
    Num.gt (average (snd e')) (average (snd e)) = false
    /\ (Num.strict_eq (average (snd e')) (average (snd e)) = true ->
        tp_count (snd e') <= tp_count (snd e)).

(** The state of the selection loop after the entries [seen]. *)
Definition best_so_far (seen : list (string * ThemePriority))
  (st : option UrgentIssue * number) : Prop :=
  match fst st with
  | None => seen = [] /\ snd st = Num.of_Z 0
  | Some issue =>
      exists e,
        In e seen /\ issue = urgent_of e /\ snd st = average (snd e)
        /\ leads e seen
  end.




(** *** Binary64 against exact arithmetic, on small integers *)

(** Two numbers are the same value and representation. *)
Definition number_eqb (x y : number) : bool :=
  match x, y with
  | S754_zero a, S754_zero b => Bool.eqb a b
  | S754_infinity a, S754_infinity b => Bool.eqb a b
  | S754_nan, S754_nan => true
  | S754_finite a m e, S754_finite b m' e' =>
      Bool.eqb a b && Pos.eqb m m' && Z.eqb e e'
  | _, _ => false
  end.

(** The percentage of [c] out of [t] is one of the two integers around
    [100 * c / t], and no farther from it than one half. *)
Definition nearest_pct (c t : Z) : bool :=
  let q := 100 * c / t in
  (number_eqb (percentage c t) (Num.of_Z q) && (2 * (100 * c - t * q) <=? t))
  || (number_eqb (percentage c t) (Num.of_Z (q + 1))
      && (2 * (t * (q + 1) - 100 * c) <=? t)).

(** [Math.ceil(total / limit)] on doubles is the integer ceiling. *)
Definition ceil_agrees (total limit : Z) : bool :=
  number_eqb
    (Num.Math_ceil (Num.div (Num.of_Z total) (Num.of_Z limit)))
    (Num.of_Z (Num.ceil_div total limit)).

(** *** Theme distribution *)

(** [round(100 * count / total)] in exact arithmetic, halves going up. *)
Definition spec_percentage (count total : Z) : Z :=
  (200 * count + total) / (2 * total).

(** Forty rows: 23 with the theme [a], then 17 with the theme [b]. *)
Definition sample_tie_rows : list Feedback :=
  map (fun k => Sample.row (Z.of_nat k) "neutral" 3 ["a"]) (seq 1 23)
  ++ map (fun k => Sample.row (Z.of_nat k) "neutral" 3 ["b"]) (seq 24 17).

(* ################################################################# *)
(** * Vocabulary for the rest of the worker *)

(** The themes of the ten most recent rows, in scan order. *)
Definition recent_scan {P : Platform} (feedback : list Feedback)
  : list string :=
  theme_scan (firstn 10 feedback).

(** The request [q] without its [dateRange] parameter. *)
Definition without_dateRange (q : searchParams) : searchParams :=
  {| q_source := q_source q; q_sentiment := q_sentiment q;
     q_category := q_category q; q_priority := q_priority q;
     q_dateRange := None; q_page := q_page q; q_limit := q_limit q |}.

(** The numbers that [JSON.parse] and the string-to-number conversion
    deliver for the [priority] of a parsed answer are binary64 numbers. *)
Definition priorities_binary64 (P : Platform) : Prop :=
  forall span v,
    JSON_parse span = Some v ->
    binary64 (ToNumber (get_prop v "priority")) = true.

(** An analysis that passes the CHECK constraints of [schema.sql] on
    [sentiment], [category] and [priority]. *)
Definition analysis_fits (a : FeedbackAnalysis) : Prop :=
  In (fa_sentiment a) ["positive"; "negative"; "neutral"]
  /\ In (fa_category a) ["bug"; "feature"; "praise"; "complaint"]
  /\ exists z,
       1 <= z <= 5 /\ fa_priority a = Num.of_Z z
       /\ integer_value (fa_priority a) = Some z.

(** The ids of the rows of a table. *)
Definition ids (db : database) : list Z := map id (rows db).

(** A platform and a runtime for the examples of the writing routes: the
    texts of the examples with the values [JSON.parse] gives them, the
    rendering of an array of plain strings, and a clock that stands
    still. *)
Module Demo.

Definition post_text : string :=
  ("{" ++ dq ++ "source" ++ dq ++ ":" ++ dq ++ "github" ++ dq ++ ","
   ++ dq ++ "content" ++ dq ++ ":" ++ dq ++ "slow" ++ dq ++ "}")%string.

Definition post_without_content : string :=
  Sample.json_of_field "source" (dq ++ "github" ++ dq).

Definition post_unknown_source : string :=
  ("{" ++ dq ++ "source" ++ dq ++ ":" ++ dq ++ "email" ++ dq ++ ","
   ++ dq ++ "content" ++ dq ++ ":" ++ dq ++ "slow" ++ dq ++ "}")%string.

Definition answer_text : string :=
  ("{" ++ dq ++ "sentiment" ++ dq ++ ":" ++ dq ++ "negative" ++ dq ++ ","
   ++ dq ++ "priority" ++ dq ++ ":9,"
   ++ dq ++ "themes" ++ dq ++ ":[" ++ dq ++ " UI " ++ dq ++ "]}")%string.

Definition parse_table : list (string * json) :=
  Sample.parse_table
  ++ [ (post_text,
        JObj [("source", JStr "github"); ("content", JStr "slow")]);
       (post_without_content, JObj [("source", JStr "github")]);
       (post_unknown_source,
        JObj [("source", JStr "email"); ("content", JStr "slow")]);
       (answer_text,
        JObj [("sentiment", JStr "negative");
              ("priority", JNum (Num.of_Z 9));
              ("themes", JArr [JStr " UI "])]);
       (Sample.json_of_field "addressed" "true",
        JObj [("addressed", JBool true)]);
       (Sample.json_of_field "addressed" "1",
        JObj [("addressed", JNum (Num.of_Z 1))]);
       ("null", JNull) ].

#[export] Instance platform : Platform := {
  JSON_parse := fun s => Obj.get s parse_table;
  StringToNumber := Sample.string_to_number;
  NumberToString := fun _ => "NaN";
  toISOString := fun _ => "2024-01-02T00:00:00.000Z"
}.

#[export] Instance runtime : Runtime := {
  JSON_stringify := Sample.json_of_themes;
  datetime := fun _ => "2024-01-02 00:00:00"
}.

(** A table of two rows. *)
Definition db : database :=
  {| table :=
       [ {| columns := Sample.row 1 "negative" 4 ["ui"];
            addressed := 0; addressed_at := None |};
         {| columns := Sample.row 2 "positive" 2 ["api"];
            addressed := 0; addressed_at := None |} ];
     sequence := 2 |}.

Definition env (ai : Ai) : Env := {| DB := db; AI := ai |}.

Definition request (verb path text : string) : Request :=
  {| method := verb; pathname := path;
     query := plain_request None None; body_text := text |}.

End Demo.

(** The value of a string of decimal digits, read from the left with
    [acc] for the digits already read. *)
Fixpoint decimal_value (s : string) (acc : Z) : Z :=
  match s with
  | EmptyString => acc
  | String c r => decimal_value r (acc * 10 + Str.digit_value c)
  end.

(** A request for the single-item route of the row whose id is written
    [digits]. *)
Definition item_request (verb digits text : string) : Request :=
  {| method := verb; pathname := ("/api/feedback/" ++ digits)%string;
     query := plain_request None None; body_text := text |}.

(** The row [r] marked as the PATCH route marks it. *)
Definition marked {P : Platform} (flag : bool) (now : Z)
  (r : StoredFeedback) : StoredFeedback :=
  {| columns := columns r;
     addressed := if flag then 1 else 0;
     addressed_at := if flag then Some (toISOString now) else None |}.

(** Number of rows whose column [col] holds [k]. *)
Definition count_rows (col : Feedback -> string) (k : string)
  (db : list Feedback) : Z :=
  Z.of_nat (List.length (filter (fun f => String.eqb (col f) k) db)).

(** The CHECK constraint of [schema.sql] on [sentiment]. *)
Definition sentiment_checked (f : Feedback) : Prop :=
  In (sentiment f) ["positive"; "negative"; "neutral"].

Section ThemeGroupVocabulary.
Context {P : Platform}.

(** The theme mentions of a record set, each with its row, in scan
    order. *)
Definition theme_mentions (db : list Feedback) : list (string * Feedback) :=
  flat_map (fun f => map (fun t => (t, f)) (scanned_themes f)) db.

End ThemeGroupVocabulary.

(** The examples of theme [t]: one for each of its mentions. *)
Definition examples_of (t : string) (ms : list (string * Feedback))
  : list ThemeExample :=
  map (fun m => example_of (snd m))
    (filter (fun m => String.eqb (fst m) t) ms).

(** The groups after the mentions [ms]. *)
Definition group_mentions (ms : list (string * Feedback))
  : Obj.t ThemeGroupData :=
  fold_left (fun groups m => add_to_group (snd m) (fst m) groups) ms
    Obj.empty.

(** The object [o] with [g] applied to each of its values. *)
Definition map_values {V W : Type} (g : V -> W) (o : Obj.t V) : Obj.t W :=
  map (fun e => (fst e, g (snd e))) o.

(** A group of the themes route seen as an entry of [topThemes]. *)
Definition as_theme_count (g : ThemeGroup) : ThemeCount :=
  {| tc_theme := th_theme g; tc_count := th_count g |}.

(** A table as the schema wants it: no id twice, no id beyond the
    sequence, every row within the CHECK constraints. *)
Definition consistent (db : database) : Prop :=
  NoDup (ids db)
  /\ (forall x, In x (ids db) -> x <= sequence db)
  /\ Forall (fun f => Table.check f = true) (rows db).

(** The table after a run of requests, each with the time it arrives at,
    answered one after the other. *)
Definition serve {P : Platform} {R : Runtime} (ai : Ai)
  (requests : list (Request * Z)) (db : database) : database :=
  fold_left
    (fun d r => snd (fetch (fst r) {| DB := d; AI := ai |} (snd r)))
    requests db.

(** The row the seed stores for a mock entry under the id [n]. *)
Definition seed_row {R : Runtime} (now : Z) (n : Z) (f : MockFeedback)
  : StoredFeedback :=
  {| columns :=
       {| id := n; source := mock_source f; content := mock_content f;
          sentiment := mock_sentiment f; category := mock_category f;
          priority := mock_priority f;
          themes := Some (JSON_stringify (mock_themes f));
          created_at := datetime now |};
     addressed := 0; addressed_at := None |}.

(** The rows for a list of mock entries, with the ids that follow
    [last]. *)
Fixpoint seed_rows {R : Runtime} (now : Z) (last : Z)
  (l : list MockFeedback) : list StoredFeedback :=
  match l with
  | [] => []
  | f :: rest => seed_row now (last + 1) f :: seed_rows now (last + 1) rest
  end.

(** The response carries the three CORS headers. *)
Definition has_cors (response : Response) : Prop :=
  forall name value,
    In (name, value) corsHeaders ->
    Headers.get name (headers response) = Some value.


(** A mock entry within the CHECK constraints of [schema.sql]. *)
Definition mock_fits (f : MockFeedback) : bool :=
  existsb (String.eqb (mock_source f))
    ["twitter"; "discord"; "github"; "support"]
  && existsb (String.eqb (mock_sentiment f))
       ["positive"; "negative"; "neutral"]
  && existsb (String.eqb (mock_category f))
       ["bug"; "feature"; "praise"; "complaint"]
  && (1 <=? mock_priority f) && (mock_priority f <=? 5).

(** A listing request that filters by [priority] only. *)
Definition priority_request (p : string) : searchParams :=
  {| q_source := None; q_sentiment := None; q_category := None;
     q_priority := Some p; q_dateRange := None;
     q_page := None; q_limit := None |}.

(** The rows that the page asked for by [q] holds, [p] and [lim] being
    the page and the limit: the rows that pass the filters, newest first,
    from position [(p - 1) * lim] on, [lim] of them at most. *)
Definition page_rows {P : Platform} (db : list Feedback) (now : Z)
  (q : searchParams) (p lim : Z) : list Feedback :=
  firstn (Z.to_nat lim)
    (skipn (Z.to_nat ((p - 1) * lim))
       (Sql.order_by_created_at_desc (filter (spec_matches now q) db))).

(** No two of the rows carry the same [created_at]. *)
Definition distinct_stamps (l : list Feedback) : Prop :=
  NoDup (map created_at l).

(** The offset of the request is an integer that binary64 holds exactly. *)
Definition exact_offset (q : searchParams) : Prop :=
  forall p lim,
    page_of q = Num.Int p -> limit_of q = Num.Int lim ->
    (p - 1) * lim < 2 ^ 53.

(** The rows of priority 4 or 5. *)
Definition urgent_rows (db : list Feedback) : list Feedback :=
  filter (fun f => 4 <=? priority f) db.

(** A table of two rows, the second, older one with [themes] that are
    not JSON. *)
Definition sample_mixed_db : list Feedback :=
  [ Sample.row 1 "negative" 4 ["ui"];
    {| id := 2; source := "github"; content := "text";
       sentiment := "neutral"; category := "bug"; priority := 3;
       themes := Some "oops";
       created_at := "2023-12-31 00:00:00" |} ].

(* ################################################################# *)
(** * Properties *)

(* ================================================================= *)
(** ** Lists: relative position, slices, chunks *)

Section ListFacts.
Context {A : Type}.
Implicit Types (l : list A) (x y a : A).

Lemma before_nil x y : ~ before x y [].
Proof.
  intros (l1 & l2 & l3 & H). destruct l1; discriminate.
Qed.

Lemma before_cons x y a l :
  before x y (a :: l) <-> (x = a /\ In y l) \/ before x y l.
Proof.
  split.
  - intros (l1 & l2 & l3 & H). destruct l1 as [|b l1]; simpl in H.
    + injection H as <- ->. left. split; [reflexivity|].
      apply in_or_app. right. now left.
    + injection H as <- ->. right. now exists l1, l2, l3.
  - intros [[-> Hy] | (l1 & l2 & l3 & ->)].
    + apply in_split in Hy as (l2 & l3 & ->). now exists [], l2, l3.
    + now exists (a :: l1), l2, l3.
Qed.

Lemma before_In x y l : before x y l -> In x l /\ In y l.
Proof.
  intros (l1 & l2 & l3 & ->). split.
  - apply in_or_app. right. now left.
  - apply in_or_app. right. right. apply in_or_app. right. now left.
Qed.

Lemma before_app_l x y l l' : before x y l -> before x y (l ++ l').
Proof.
  intros (l1 & l2 & l3 & ->). exists l1, l2, (l3 ++ l').
  now rewrite <- !app_assoc, <- !app_comm_cons, <- app_assoc.
Qed.

Lemma before_snoc x y a l :
  before x y (l ++ [a]) <-> before x y l \/ (y = a /\ In x l).
Proof.
  induction l as [|b l IH]; simpl.
  - split.
    + intros H. apply before_cons in H as [[_ []] | H].
      now apply before_nil in H.
    + intros [H | [_ []]]. now apply before_nil in H.
  - rewrite !before_cons, IH, in_app_iff. simpl. intuition (subst; auto).
Qed.

Lemma before_firstn x y n l : before x y (firstn n l) -> before x y l.
Proof.
  intros H. rewrite <- (firstn_skipn n l). now apply before_app_l.
Qed.

Lemma before_nth_error l i j x y :
  (i < j)%nat -> nth_error l i = Some x -> nth_error l j = Some y ->
  before x y l.
Proof.
  revert i j. induction l as [|a l IH]; intros i j Hij Hi Hj.
  - destruct i; discriminate.
  - destruct j as [|j]; [lia|]. simpl in Hj. apply before_cons.
    destruct i as [|i]; simpl in Hi.
    + injection Hi as ->. left. split; [reflexivity|].
      eapply nth_error_In; eassumption.
    + right. apply (IH i j); [lia | assumption | assumption].
Qed.

Lemma slice_prefix (e : Z) l :
  0 <= e -> Arr.slice 0 (Some e) l = firstn (Z.to_nat e) l.
Proof.
  intros He. unfold Arr.slice, Arr.clamp_index. simpl.
  replace (Z.to_nat (Z.min 0 (Z.of_nat (List.length l)))) with O by lia.
  simpl. rewrite Nat.sub_0_r.
  replace (e <? 0) with false by (symmetry; apply Z.ltb_ge; lia).
  destruct (Z.leb_spec e (Z.of_nat (List.length l))).
  - now rewrite Z.min_l by lia.
  - rewrite Z.min_r by lia. rewrite Nat2Z.id.
    rewrite !firstn_all2; [reflexivity | lia | lia].
Qed.

Lemma slice_suffix (s : Z) l :
  0 <= s -> Arr.slice s None l = skipn (Z.to_nat s) l.
Proof.
  intros Hs. unfold Arr.slice, Arr.clamp_index.
  replace (s <? 0) with false by (symmetry; apply Z.ltb_ge; lia).
  destruct (Z.leb_spec s (Z.of_nat (List.length l))).
  - rewrite Z.min_l by lia. apply firstn_all2.
    rewrite length_skipn. lia.
  - rewrite Z.min_r by lia. rewrite Nat2Z.id.
    rewrite !skipn_all2 by lia. apply firstn_nil.
Qed.


End ListFacts.

(* ================================================================= *)
(** ** Stable sorting *)

Section StableSort.
Context {A : Type} (precedes : A -> A -> bool).
Implicit Types (l : list A) (x y a : A).

Lemma insert_sorted_perm a l :
  Permutation (a :: l) (Arr.insert_sorted precedes a l).
Proof.
  induction l as [|b l IH]; simpl.
  - apply Permutation_refl.
  - destruct (precedes a b).
    + apply Permutation_refl.
    + eapply Permutation_trans; [apply perm_swap|].
      now apply perm_skip.
Qed.

Lemma stable_sort_perm l : Permutation l (Arr.stable_sort precedes l).
Proof.
  induction l as [|a l IH]; simpl.
  - constructor.
  - eapply Permutation_trans; [|apply insert_sorted_perm].
    now apply perm_skip.
Qed.

Lemma stable_sort_In x l : In x (Arr.stable_sort precedes l) <-> In x l.
Proof.
  split; apply Permutation_in;
    [apply Permutation_sym|]; apply stable_sort_perm.
Qed.

Lemma stable_sort_length l :
  List.length (Arr.stable_sort precedes l) = List.length l.
Proof.
  symmetry. apply Permutation_length, stable_sort_perm.
Qed.

(** The element inserted lands after the elements it had to pass. *)
Lemma before_insert_sorted x y a l :
  before x y (Arr.insert_sorted precedes a l) ->
  before x y l \/ (x = a /\ In y l)
  \/ (y = a /\ In x l /\ precedes a x = false).
Proof.
  induction l as [|b l IH]; simpl.
  - intros H. apply before_cons in H as [[_ []] | H].
    now apply before_nil in H.
  - destruct (precedes a b) eqn:Hab.
    + intros H. apply before_cons in H as [[-> Hy] | H]; auto.
    + intros H. apply before_cons in H as [[-> Hy] | H].
      * apply (Permutation_in _ (Permutation_sym (insert_sorted_perm a l)))
          in Hy.
        destruct Hy as [<- | Hy].
        -- right. right. split; [reflexivity|]. split; [now left | exact Hab].
        -- left. apply before_cons. now left.
      * apply IH in H as [H | [[-> Hy] | (-> & Hx & Hp)]].
        -- left. apply before_cons. now right.
        -- right. left. split; [reflexivity | now right].
        -- right. right. split; [reflexivity|]. split; [now right | exact Hp].
Qed.

(** Stability: elements the comparator does not separate keep their
    relative order. *)
Lemma stable_sort_stable x y l :
  before x y (Arr.stable_sort precedes l) -> precedes y x = true ->
  before x y l.
Proof.
  induction l as [|a l IH]; simpl; intros H Hyx.
  - assumption.
  - apply before_insert_sorted in H as [H | [[-> Hy] | (-> & _ & Hp)]].
    + apply before_cons. right. now apply IH.
    + apply before_cons. left. split; [reflexivity|].
      exact (proj1 (stable_sort_In y l) Hy).
    + congruence.
Qed.

Hypothesis precedes_total :
  forall x y, precedes x y = false -> precedes y x = true.

Lemma insert_sorted_Sorted a l :
  Sorted (fun x y => precedes x y = true) l ->
  Sorted (fun x y => precedes x y = true) (Arr.insert_sorted precedes a l).
Proof.
  induction 1 as [|b l Hs IH Hb]; simpl.
  - repeat constructor.
  - destruct (precedes a b) eqn:Hab.
    + constructor; [now constructor | now constructor].
    + constructor; [assumption|].
      destruct Hb as [|c l Hbc]; simpl.
      * constructor. now apply precedes_total.
      * destruct (precedes a c); constructor;
          [now apply precedes_total | assumption].
Qed.

Lemma stable_sort_Sorted l :
  Sorted (fun x y => precedes x y = true) (Arr.stable_sort precedes l).
Proof.
  induction l as [|a l IH]; simpl.
  - constructor.
  - now apply insert_sorted_Sorted.
Qed.

End StableSort.

Section SortDesc.
Context {A : Type} (key : A -> Z).

Lemma sort_desc_StronglySorted (l : list A) :
  StronglySorted (fun x y => key y <= key x) (Arr.sort_desc key l).
Proof.
  apply Sorted_StronglySorted.
  - intros x y z Hxy Hyz. lia.
  - unfold Arr.sort_desc.
    assert (H : Sorted (fun x y => (key y <=? key x) = true)
                  (Arr.stable_sort (fun x y => key y <=? key x) l)).
    { apply stable_sort_Sorted. intros x y H.
      apply Z.leb_gt in H. apply Z.leb_le. lia. }
    induction H as [|a l' _ IH Hhd]; constructor; [exact IH|].
    destruct Hhd as [|b l'' Hb]; constructor. apply Z.leb_le. exact Hb.
Qed.

Lemma sort_desc_stable x y (l : list A) :
  before x y (Arr.sort_desc key l) -> key x = key y -> before x y l.
Proof.
  intros H Hk. eapply stable_sort_stable; [exact H|].
  apply Z.leb_le. lia.
Qed.

End SortDesc.

(* ================================================================= *)
(** ** Plain objects *)

Section ObjFacts.
Context {V : Type}.
Implicit Types (o : Obj.t V) (k : string) (v : V).

Lemma get_None_keys k o : Obj.get k o = None <-> ~ In k (Obj.keys o).
Proof.
  induction o as [|[k' v'] o IH]; simpl.
  - tauto.
  - destruct (String.eqb_spec k' k) as [->|Hne].
    + split; [discriminate | intros H; exfalso; apply H; now left].
    + rewrite IH. tauto.
Qed.

Lemma has_keys k o : Obj.has k o = true <-> In k (Obj.keys o).
Proof.
  unfold Obj.has. destruct (Obj.get k o) eqn:H.
  - split; [intros _ | reflexivity].
    destruct (in_dec string_dec k (Obj.keys o)) as [Hin | Hout];
      [assumption|].
    apply get_None_keys in Hout. congruence.
  - split; [discriminate|]. intros Hin.
    apply get_None_keys in H. contradiction.
Qed.

Lemma get_In k v o : Obj.get k o = Some v -> In (k, v) o.
Proof.
  induction o as [|[k' v'] o IH]; simpl; [discriminate|].
  destruct (String.eqb_spec k' k) as [->|Hne].
  - intros [= ->]. now left.
  - intros H. right. now apply IH.
Qed.

Lemma keys_replace k v o : Obj.keys (Obj.replace k v o) = Obj.keys o.
Proof.
  induction o as [|[k' v'] o IH]; simpl; [reflexivity|].
  destruct (String.eqb k' k); simpl; [reflexivity | now rewrite IH].
Qed.

Lemma get_replace k k' v o :
  Obj.get k' (Obj.replace k v o) =
  if String.eqb k k' then option_map (fun _ => v) (Obj.get k o)
  else Obj.get k' o.
Proof.
  induction o as [|[k0 v0] o IH]; simpl.
  - now destruct (String.eqb k k').
  - destruct (String.eqb_spec k0 k) as [->|Hne]; simpl.
    + destruct (String.eqb_spec k k') as [->|Hne']; simpl; reflexivity.
    + rewrite IH. destruct (String.eqb_spec k k') as [->|Hne']; simpl.
      * destruct (String.eqb_spec k0 k'); [contradiction | reflexivity].
      * reflexivity.
Qed.

Lemma keys_insert_index n k v o :
  forall k', In k' (Obj.keys (Obj.insert_index n k v o)) <->
             k' = k \/ In k' (Obj.keys o).
Proof.
  induction o as [|[k0 v0] o IH]; intros k'; simpl.
  - intuition.
  - destruct (Str.array_index k0) as [n0|]; simpl.
    + destruct (n0 <? n)%N; simpl.
      * rewrite IH. intuition.
      * intuition.
    + intuition.
Qed.

Lemma get_insert_index n k k' v o :
  Obj.get k o = None ->
  Obj.get k' (Obj.insert_index n k v o) =
  if String.eqb k k' then Some v else Obj.get k' o.
Proof.
  induction o as [|[k0 v0] o IH]; simpl; intros Hk.
  - reflexivity.
  - destruct (String.eqb_spec k0 k) as [->|Hne]; [discriminate|].
    assert (Hhere : Obj.get k' ((k, v) :: (k0, v0) :: o) =
                    if String.eqb k k' then Some v
                    else if String.eqb k0 k' then Some v0
                         else Obj.get k' o) by reflexivity.
    destruct (Str.array_index k0) as [n0|]; [|exact Hhere].
    destruct (n0 <? n)%N; [|exact Hhere].
    simpl. rewrite (IH Hk).
    destruct (String.eqb_spec k0 k') as [->|Hne'].
    + destruct (String.eqb_spec k k'); [congruence | reflexivity].
    + reflexivity.
Qed.

Lemma get_snoc k k' v o :
  Obj.get k o = None ->
  Obj.get k' (o ++ [(k, v)]) =
  if String.eqb k k' then Some v else Obj.get k' o.
Proof.
  induction o as [|[k0 v0] o IH]; simpl; intros Hk.
  - reflexivity.
  - destruct (String.eqb_spec k0 k) as [->|Hne]; [discriminate|].
    rewrite (IH Hk).
    destruct (String.eqb_spec k0 k') as [->|Hne'].
    + destruct (String.eqb_spec k k'); [congruence | reflexivity].
    + reflexivity.
Qed.

(** Reading after writing. *)
Lemma get_set k k' v o :
  Obj.get k' (Obj.set k v o) =
  if String.eqb k k' then Some v else Obj.get k' o.
Proof.
  unfold Obj.set, Obj.has. destruct (Obj.get k o) eqn:Hk.
  - rewrite get_replace, Hk. reflexivity.
  - destruct (Str.array_index k).
    + now apply get_insert_index.
    + now apply get_snoc.
Qed.

Lemma keys_set k v o :
  forall k', In k' (Obj.keys (Obj.set k v o)) <->
             k' = k \/ In k' (Obj.keys o).
Proof.
  intros k'. unfold Obj.set. destruct (Obj.has k o) eqn:Hk.
  - rewrite keys_replace. apply has_keys in Hk.
    intuition (subst; auto).
  - destruct (Str.array_index k).
    + apply keys_insert_index.
    + unfold Obj.keys. rewrite map_app, in_app_iff. simpl. intuition.
Qed.

End ObjFacts.

(** Canonical array indices are determined by their value. *)
Lemma array_index_inj (a b : string) (n : N) :
  Str.array_index a = Some n -> Str.array_index b = Some n -> a = b.
Proof.
  unfold Str.array_index. intros Ha Hb.
  destruct (NilZero.uint_of_string a) as [da|]; [|discriminate].
  destruct (NilZero.uint_of_string b) as [db|]; [|discriminate].
  destruct (String.eqb_spec (Str.of_N (N.of_uint da)) a) as [Ea|];
    [|discriminate].
  destruct (String.eqb_spec (Str.of_N (N.of_uint db)) b) as [Eb|];
    [|discriminate].
  simpl in Ha, Hb.
  destruct (N.of_uint da <? 4294967295)%N; [|discriminate].
  destruct (N.of_uint db <? 4294967295)%N; [|discriminate].
  injection Ha as Ha. injection Hb as Hb. congruence.
Qed.

(* ================================================================= *)
(** ** The theme scan as a fold over the mentions *)

Section ScanFacts.
Context {P : Platform}.

Lemma normalized_cons (s : string) (l : list string) :
  normalized (s :: l) =
  if Str.truthy (Str.trim (Str.toLowerCase s))
  then Str.trim (Str.toLowerCase s) :: normalized l
  else normalized l.
Proof. reflexivity. Qed.

(** The loop over the themes of a row runs its body on the strings at
    the head of the array, normalized, the empty ones left out. *)
Lemma forEach_theme_items_fold {S : Type} (body : string -> S -> S)
  (items : list json) (st : S) :
  forEach_theme_items body items st =
  fold_left (fun s t => body t s) (normalized (leading_strings items)) st.
Proof.
  revert st. induction items as [|e items IH]; intros st.
  - reflexivity.
  - destruct e; try reflexivity.
    cbn [forEach_theme_items leading_strings]. rewrite normalized_cons.
    destruct (Str.truthy (Str.trim (Str.toLowerCase s))); apply IH.
Qed.

Lemma forEach_theme_fold {S : Type} (body : string -> S -> S)
  (f : Feedback) (st : S) :
  forEach_theme body f st =
  fold_left (fun s t => body t s) (scanned_themes f) st.
Proof.
  unfold scanned_themes, theme_strings, forEach_theme.
  destruct (themes f) as [text|]; [|reflexivity].
  destruct (JSON_parse text) as [[| | | |items|]|]; try reflexivity.
  apply forEach_theme_items_fold.
Qed.

Lemma forEach_rows_fold {S : Type} (body : string -> S -> S)
  (rows : list Feedback) (st : S) :
  Arr.forEach (fun f s => forEach_theme body f s) rows st =
  fold_left (fun s t => body t s) (theme_scan rows) st.
Proof.
  unfold Arr.forEach, theme_scan. revert st.
  induction rows as [|f rows IH]; intros st; simpl.
  - reflexivity.
  - rewrite fold_left_app, IH. f_equal. apply forEach_theme_fold.
Qed.

Lemma themeCounts_fold (rows : list Feedback) :
  themeCounts rows =
  fold_left (fun o t => increment t o) (theme_scan rows) Obj.empty.
Proof. apply forEach_rows_fold. Qed.

Lemma allThemeCounts_fold (rows : list Feedback) :
  allThemeCounts rows =
  fold_left (fun o t => increment t o) (theme_scan rows) Obj.empty.
Proof. apply forEach_rows_fold. Qed.

End ScanFacts.

(* ================================================================= *)
(** ** Counters *)

Lemma get_increment (t t' : string) (o : Obj.t Z) :
  Obj.get t' (increment t o) =
  if String.eqb t t' then Some (count_or_0 (Obj.get t o) + 1)
  else Obj.get t' o.
Proof. unfold increment. now rewrite get_set. Qed.

Lemma occurrences_snoc (t a : string) (scan : list string) :
  occurrences t (scan ++ [a]) =
  occurrences t scan + (if String.eqb a t then 1 else 0).
Proof.
  unfold occurrences. rewrite count_occ_app. simpl.
  destruct (string_dec a t) as [->|Hne].
  - rewrite String.eqb_refl. lia.
  - destruct (String.eqb_spec a t); [contradiction | lia].
Qed.

Lemma occurrences_nonneg (t : string) (scan : list string) :
  0 <= occurrences t scan.
Proof. unfold occurrences. lia. Qed.

Lemma occurrences_pos_In (t : string) (scan : list string) :
  0 < occurrences t scan <-> In t scan.
Proof.
  unfold occurrences. rewrite (count_occ_In string_dec). lia.
Qed.

(** A counter filled by a scan holds, for each theme, the number of its
    mentions, and holds nothing for a theme never mentioned. *)
Lemma counter_get (t : string) (scan : list string) :
  Obj.get t (fold_left (fun o x => increment x o) scan Obj.empty) =
  if occurrences t scan =? 0 then None else Some (occurrences t scan).
Proof.
  induction scan as [|a scan IH] using rev_ind.
  - reflexivity.
  - rewrite fold_left_app. simpl. rewrite get_increment, occurrences_snoc.
    pose proof (occurrences_nonneg t scan) as Hn.
    destruct (String.eqb_spec a t) as [->|Hne].
    + rewrite IH. destruct (Z.eqb_spec (occurrences t scan) 0) as [E|E].
      * rewrite E. reflexivity.
      * simpl. destruct (Z.eqb_spec (occurrences t scan + 1) 0); [lia|].
        reflexivity.
    + rewrite IH, Z.add_0_r. reflexivity.
Qed.

(* ================================================================= *)
(** ** The enumeration order of a counter *)

Lemma first_pos_In (k : string) (scan l : list string) :
  In k scan -> first_pos k (scan ++ l) = first_pos k scan.
Proof.
  induction scan as [|t scan IH]; simpl; [tauto|].
  intros [-> | Hin].
  - now rewrite String.eqb_refl.
  - destruct (String.eqb t k); [reflexivity | now rewrite IH].
Qed.

Lemma first_pos_lt (k : string) (scan : list string) :
  In k scan -> (first_pos k scan < List.length scan)%nat.
Proof.
  induction scan as [|t scan IH]; simpl; [tauto|].
  intros [-> | Hin].
  - rewrite String.eqb_refl. lia.
  - destruct (String.eqb t k); [lia|]. apply IH in Hin. lia.
Qed.

Lemma first_pos_new (k : string) (scan : list string) :
  ~ In k scan -> first_pos k (scan ++ [k]) = List.length scan.
Proof.
  induction scan as [|t scan IH]; simpl; intros Hout.
  - now rewrite String.eqb_refl.
  - destruct (String.eqb_spec t k) as [->|Hne].
    + exfalso. apply Hout. now left.
    + rewrite IH; [reflexivity|]. intros H. apply Hout. now right.
Qed.

Lemma own_key_before_grow (scan : list string) (t x y : string) :
  In x scan -> In y scan ->
  own_key_before scan x y -> own_key_before (scan ++ [t]) x y.
Proof.
  unfold own_key_before. intros Hx Hy.
  destruct (Str.array_index x), (Str.array_index y); auto.
  now rewrite !first_pos_In.
Qed.

Lemma own_key_before_irrefl (scan : list string) (x : string) :
  ~ own_key_before scan x x.
Proof.
  unfold own_key_before. destruct (Str.array_index x); lia.
Qed.

Section KeyOrder.
Context {V : Type}.
Implicit Types (o : Obj.t V).

(** A new array-index key goes to its place among the indices. *)
Lemma insert_index_ordered scan n t (v : V) o :
  Str.array_index t = Some n ->
  ~ In t (Obj.keys o) ->
  keys_ordered scan (Obj.keys o) ->
  keys_ordered scan (Obj.keys (Obj.insert_index n t v o)).
Proof.
  intros Ht. induction o as [|[k0 v0] o IH]; simpl; intros Hnew Hord.
  - intros x y H. apply before_cons in H as [[_ []] | H].
    now apply before_nil in H.
  - assert (Hne : k0 <> t) by (intros ->; apply Hnew; now left).
    assert (Htail : keys_ordered scan (Obj.keys o)).
    { intros x y H. apply Hord. apply before_cons. now right. }
    assert (Hhere : keys_ordered scan (t :: k0 :: Obj.keys o) ->
                    keys_ordered scan (Obj.keys ((t, v) :: (k0, v0) :: o)))
      by (intros H; exact H).
    assert (Hfront :
              (forall m, Str.array_index k0 = Some m -> (n < m)%N) ->
              keys_ordered scan (t :: k0 :: Obj.keys o)).
    { intros Hk0 x y H. apply before_cons in H as [[-> Hy] | H].
      - unfold own_key_before. rewrite Ht.
        destruct (Str.array_index y) as [m|] eqn:Hm; [|exact I].
        destruct Hy as [<- | Hy]; [now apply Hk0|].
        assert (Hb : own_key_before scan k0 y).
        { apply Hord. apply before_cons. now left. }
        unfold own_key_before in Hb. rewrite Hm in Hb.
        destruct (Str.array_index k0) as [m0|] eqn:Hm0; [|contradiction].
        specialize (Hk0 m0 eq_refl). lia.
      - now apply Hord. }
    destruct (Str.array_index k0) as [n0|] eqn:Hk0.
    + destruct (N.ltb_spec n0 n) as [Hlt|Hge].
      * simpl. intros x y H. apply before_cons in H as [[-> Hy] | H].
        -- apply keys_insert_index in Hy as [-> | Hy].
           ++ unfold own_key_before. now rewrite Hk0, Ht.
           ++ apply Hord. apply before_cons. now left.
        -- apply IH; [|assumption|assumption].
           intros Hin. apply Hnew. now right.
      * apply Hhere, Hfront. intros m [= <-].
        assert (n0 <> n).
        { intros ->. apply Hne. now apply (array_index_inj _ _ n). }
        lia.
    + apply Hhere, Hfront. discriminate.
Qed.

(** Writing a key keeps the enumeration order, the scan being extended
    by that key. *)
Lemma set_ordered scan t (v : V) o :
  (forall k, In k (Obj.keys o) <-> In k scan) ->
  keys_ordered scan (Obj.keys o) ->
  keys_ordered (scan ++ [t]) (Obj.keys (Obj.set t v o)).
Proof.
  intros Hkeys Hord.
  assert (Hold : keys_ordered (scan ++ [t]) (Obj.keys o)).
  { intros x y H. pose proof (before_In _ _ _ H) as [Hx Hy].
    apply own_key_before_grow; [now apply Hkeys | now apply Hkeys|].
    now apply Hord. }
  unfold Obj.set. destruct (Obj.has t o) eqn:Hhas.
  - now rewrite keys_replace.
  - assert (Hnew : ~ In t (Obj.keys o)).
    { intros Hin. apply has_keys in Hin. congruence. }
    destruct (Str.array_index t) as [n|] eqn:Ht.
    + now apply insert_index_ordered.
    + unfold Obj.keys. rewrite map_app. simpl.
      intros x y H. apply before_snoc in H as [H | [-> Hx]].
      * now apply Hold.
      * unfold own_key_before. rewrite Ht.
        destruct (Str.array_index x); [exact I|].
        apply Hkeys in Hx. rewrite first_pos_In by assumption.
        rewrite first_pos_new.
        -- now apply first_pos_lt.
        -- intros Hin. apply Hnew. now apply Hkeys.
Qed.

End KeyOrder.

(** The keys of a counter filled by a scan are the themes mentioned, in
    the enumeration order of the object. *)
Lemma counter_keys (scan : list string) :
  let o := fold_left (fun o x => increment x o) scan Obj.empty in
  (forall k, In k (Obj.keys o) <-> In k scan)
  /\ keys_ordered scan (Obj.keys o).
Proof.
  induction scan as [|a scan IH] using rev_ind; simpl.
  - split; [tauto|]. intros x y H. now apply before_nil in H.
  - rewrite fold_left_app. simpl. destruct IH as [Hkeys Hord]. split.
    + intros k. unfold increment. rewrite keys_set, Hkeys, in_app_iff.
      simpl. intuition.
    + now apply set_ordered.
Qed.

Lemma counter_keys_NoDup (scan : list string) :
  NoDup (Obj.keys (fold_left (fun o x => increment x o) scan Obj.empty)).
Proof.
  destruct (counter_keys scan) as [_ Hord].
  set (ks := Obj.keys _) in *. clearbody ks.
  induction ks as [|k ks IH]; constructor.
  - intros Hin. apply (own_key_before_irrefl scan k).
    apply Hord. apply before_cons. now left.
  - apply IH. intros x y H. apply Hord. apply before_cons. now right.
Qed.

(** Each increment adds one to the sum of the counters. *)
Lemma sum_app (l l' : list Z) : sum (l ++ l') = sum l + sum l'.
Proof. induction l as [|a l IH]; simpl; [reflexivity | rewrite IH; lia]. Qed.

Lemma fold_left_add_sum (l : list Z) (a : Z) :
  fold_left Z.add l a = a + sum l.
Proof.
  revert a. induction l as [|b l IH]; intros a; simpl.
  - lia.
  - rewrite IH. lia.
Qed.

Lemma sum_replace (k : string) (v : Z) (o : Obj.t Z) :
  sum (Obj.values (Obj.replace k v o)) =
  sum (Obj.values o)
  + match Obj.get k o with Some old => v - old | None => 0 end.
Proof.
  induction o as [|[k0 v0] o IH]; simpl; [lia|].
  destruct (String.eqb k0 k); simpl; [lia | rewrite IH; lia].
Qed.

Lemma sum_insert_index (n : N) (k : string) (v : Z) (o : Obj.t Z) :
  sum (Obj.values (Obj.insert_index n k v o)) = sum (Obj.values o) + v.
Proof.
  induction o as [|[k0 v0] o IH]; simpl; [lia|].
  destruct (Str.array_index k0) as [n0|]; simpl; [|lia].
  destruct (n0 <? n)%N; simpl; [rewrite IH; lia | lia].
Qed.

Lemma sum_increment (t : string) (o : Obj.t Z) :
  sum (Obj.values (increment t o)) = sum (Obj.values o) + 1.
Proof.
  unfold increment, Obj.set, Obj.has.
  destruct (Obj.get t o) as [old|] eqn:Hget; simpl.
  - rewrite sum_replace, Hget. lia.
  - destruct (Str.array_index t).
    + apply sum_insert_index.
    + unfold Obj.values. rewrite map_app, sum_app. simpl. lia.
Qed.

Lemma counter_sum (scan : list string) :
  sum (Obj.values (fold_left (fun o x => increment x o) scan Obj.empty)) =
  Z.of_nat (List.length scan).
Proof.
  induction scan as [|a scan IH] using rev_ind.
  - reflexivity.
  - rewrite fold_left_app. simpl. rewrite sum_increment, IH, length_app.
    simpl. lia.
Qed.

(* ================================================================= *)
(** ** Ranked themes *)

Lemma before_map {A B : Type} (f : A -> B) (x y : A) (l : list A) :
  before x y l -> before (f x) (f y) (map f l).
Proof.
  intros (l1 & l2 & l3 & ->). exists (map f l1), (map f l2), (map f l3).
  now rewrite !map_app, !map_cons, !map_app, !map_cons.
Qed.

Lemma StronglySorted_firstn {A : Type} (R : A -> A -> Prop) (n : nat)
  (l : list A) :
  StronglySorted R l -> StronglySorted R (firstn n l).
Proof.
  intros H. revert n. induction H as [|a l Hs IH Ha]; intros n.
  - rewrite firstn_nil. constructor.
  - destruct n as [|n]; simpl; constructor; [apply IH|].
    apply Forall_forall. intros x Hx.
    rewrite Forall_forall in Ha. apply Ha.
    rewrite <- (firstn_skipn n l). apply in_or_app. now left.
Qed.

Lemma StronglySorted_map {A B : Type} (R : B -> B -> Prop) (f : A -> B)
  (l : list A) :
  StronglySorted (fun x y => R (f x) (f y)) l -> StronglySorted R (map f l).
Proof.
  induction 1 as [|a l Hs IH Ha]; simpl; constructor; [assumption|].
  apply Forall_forall. intros y Hy. apply in_map_iff in Hy as (x & <- & Hx).
  rewrite Forall_forall in Ha. now apply Ha.
Qed.

Lemma StronglySorted_app_inv {A : Type} (R : A -> A -> Prop)
  (l1 l2 : list A) :
  StronglySorted R (l1 ++ l2) ->
  forall x y, In x l1 -> In y l2 -> R x y.
Proof.
  induction l1 as [|a l1 IH]; simpl; intros H x y Hx Hy; [contradiction|].
  apply StronglySorted_inv in H as [Hs Ha]. destruct Hx as [<- | Hx].
  - rewrite Forall_forall in Ha. apply Ha, in_or_app. now right.
  - now apply IH.
Qed.

Lemma In_get_NoDup {V : Type} (k : string) (v : V) (o : Obj.t V) :
  NoDup (Obj.keys o) -> In (k, v) o -> Obj.get k o = Some v.
Proof.
  induction o as [|[k0 v0] o IH]; simpl; intros Hnd Hin; [contradiction|].
  apply NoDup_cons_iff in Hnd as [Hout Hnd].
  destruct Hin as [[= -> ->] | Hin].
  - now rewrite String.eqb_refl.
  - destruct (String.eqb_spec k0 k) as [->|Hne]; [|now apply IH].
    exfalso. apply Hout. apply in_map_iff. now exists (k, v).
Qed.

Section Ranking.

Lemma ranked_firstn scan :
  ranked scan =
  firstn 5 (Arr.sort_desc snd
              (fold_left (fun o x => increment x o) scan Obj.empty)).
Proof. unfold ranked. now rewrite slice_prefix by lia. Qed.

Lemma ranked_length scan : (List.length (ranked scan) <= 5)%nat.
Proof. rewrite ranked_firstn. apply firstn_le_length. Qed.

Lemma ranked_sorted scan :
  StronglySorted (fun x y => snd y <= snd x) (ranked scan).
Proof.
  rewrite ranked_firstn. apply StronglySorted_firstn.
  apply sort_desc_StronglySorted.
Qed.

Lemma ranked_In scan e :
  In e (ranked scan) ->
  In (fst e) scan /\ snd e = occurrences (fst e) scan /\ 0 < snd e.
Proof.
  rewrite ranked_firstn. intros H.
  assert (Hin : In e (fold_left (fun o x => increment x o) scan Obj.empty)).
  { apply (stable_sort_In (fun x y => snd y <=? snd x)).
    rewrite <- (firstn_skipn 5 (Arr.stable_sort _ _)).
    apply in_or_app. now left. }
  destruct e as [k v]. simpl.
  apply In_get_NoDup in Hin; [|apply counter_keys_NoDup].
  rewrite counter_get in Hin.
  pose proof (occurrences_nonneg k scan).
  destruct (Z.eqb_spec (occurrences k scan) 0); [discriminate|].
  injection Hin as <-. repeat split; [|lia].
  apply occurrences_pos_In. lia.
Qed.

(** Entries with equal counts stand in the enumeration order of the
    counter. *)
Lemma ranked_ties scan x y :
  before x y (ranked scan) -> snd x = snd y ->
  own_key_before scan (fst x) (fst y).
Proof.
  rewrite ranked_firstn. intros H Heq.
  apply before_firstn in H. apply sort_desc_stable in H; [|assumption].
  apply (before_map fst) in H.
  destruct (counter_keys scan) as [_ Hord]. now apply Hord.
Qed.

(** A theme left out of the ranking has no more mentions than any theme
    kept in it. *)
Lemma ranked_top scan t e :
  In t scan -> In e (ranked scan) ->
  (exists e', In e' (ranked scan) /\ fst e' = t)
  \/ occurrences t scan <= snd e.
Proof.
  intros Ht He.
  set (o := fold_left (fun o x => increment x o) scan Obj.empty).
  assert (Hget : Obj.get t o = Some (occurrences t scan)).
  { unfold o. rewrite counter_get.
    apply occurrences_pos_In in Ht.
    destruct (Z.eqb_spec (occurrences t scan) 0); [lia | reflexivity]. }
  apply get_In in Hget.
  apply (stable_sort_In (fun x y => snd y <=? snd x)) in Hget.
  fold (Arr.sort_desc snd o) in Hget.
  rewrite <- (firstn_skipn 5 (Arr.sort_desc snd o)) in Hget.
  apply in_app_or in Hget as [Hin | Hin].
  - left. exists (t, occurrences t scan). rewrite ranked_firstn.
    split; [exact Hin | reflexivity].
  - right. rewrite ranked_firstn in He.
    pose proof (sort_desc_StronglySorted snd o) as Hs.
    rewrite <- (firstn_skipn 5 (Arr.sort_desc snd o)) in Hs.
    apply (StronglySorted_app_inv _ _ _ Hs _ _ He Hin).
Qed.

(** Fewer than five entries: every theme mentioned is in the ranking. *)
Lemma ranked_complete scan t :
  In t scan -> (List.length (ranked scan) < 5)%nat ->
  exists e, In e (ranked scan) /\ fst e = t.
Proof.
  intros Ht Hlen.
  set (o := fold_left (fun o x => increment x o) scan Obj.empty).
  assert (Hget : Obj.get t o = Some (occurrences t scan)).
  { unfold o. rewrite counter_get.
    apply occurrences_pos_In in Ht.
    destruct (Z.eqb_spec (occurrences t scan) 0); [lia | reflexivity]. }
  apply get_In in Hget.
  apply (stable_sort_In (fun x y => snd y <=? snd x)) in Hget.
  fold (Arr.sort_desc snd o) in Hget.
  exists (t, occurrences t scan). split; [|reflexivity].
  rewrite ranked_firstn. fold o.
  rewrite ranked_firstn in Hlen. fold o in Hlen.
  rewrite firstn_all2; [assumption|].
  rewrite length_firstn in Hlen. lia.
Qed.

End Ranking.

(* ================================================================= *)
(** ** Binary64 facts used by the urgent-issue selection *)

Lemma shr_1_nonneg (mrs : shr_record) :
  0 <= shr_m mrs -> 0 <= shr_m (shr_1 mrs).
Proof.
  destruct mrs as [m r s]. simpl.
  destruct m as [|[p|p|]|[p|p|]]; simpl; lia.
Qed.

Lemma iter_pos_shr_1_nonneg (p : positive) (mrs : shr_record) :
  0 <= shr_m mrs -> 0 <= shr_m (iter_pos shr_1 p mrs).
Proof.
  revert mrs. induction p as [p IH|p IH|]; intros mrs H; simpl.
  - apply IH, IH. now apply shr_1_nonneg.
  - now apply IH, IH.
  - now apply shr_1_nonneg.
Qed.

Lemma shr_fexp_nonneg (m e : Z) (l : location) :
  0 <= m -> 0 <= shr_m (fst (shr_fexp Num.prec Num.emax m e l)).
Proof.
  intros H. unfold shr_fexp, shr.
  assert (H0 : 0 <= shr_m (shr_record_of_loc m l)).
  { destruct l as [|[| |]]; exact H. }
  destruct (_ - e) as [|p|p]; simpl; [exact H0 | | exact H0].
  now apply iter_pos_shr_1_nonneg.
Qed.

Lemma round_nearest_even_nonneg (m : Z) (l : location) :
  0 <= m -> 0 <= round_nearest_even m l.
Proof.
  intros H. destruct l as [|[| |]]; simpl; try lia.
  destruct (Z.even m); lia.
Qed.

(** Rounding a mantissa that is not negative gives a number that is not
    negative (in particular not [NaN]) when the sign is positive. *)
Lemma binary_round_aux_nonneg (m e : Z) (l : location) :
  0 <= m -> nonneg (binary_round_aux Num.prec Num.emax false m e l) = true.
Proof.
  intros H. unfold binary_round_aux.
  pose proof (shr_fexp_nonneg m e l H) as H1.
  destruct (shr_fexp Num.prec Num.emax m e l) as [mrs' e']. simpl in H1.
  pose proof (shr_fexp_nonneg _ e' loc_Exact
                (round_nearest_even_nonneg _ (loc_of_shr_record mrs') H1))
    as H2.
  destruct (shr_fexp Num.prec Num.emax _ e' loc_Exact) as [mrs'' e''].
  simpl in H2. destruct (shr_m mrs'') as [|p|p]; [reflexivity | | lia].
  destruct (e'' <=? _); reflexivity.
Qed.

Lemma of_Z_nonneg (z : Z) : 0 <= z -> nonneg (Num.of_Z z) = true.
Proof.
  intros H. unfold Num.of_Z, binary_normalize.
  destruct z as [|p|p]; [reflexivity | | lia].
  unfold binary_round.
  destruct (shl_align p 0 _) as [mz ez].
  apply binary_round_aux_nonneg. lia.
Qed.

Lemma digits2_pos_iter_xO (p k : positive) :
  digits2_pos (Pos.iter xO p k) = (digits2_pos p + k)%positive.
Proof.
  induction k as [|k IH] using Pos.peano_ind.
  - simpl. lia.
  - rewrite Pos.iter_succ. simpl. rewrite IH. lia.
Qed.

Lemma digits2_pos_lower (p : positive) :
  2 ^ (Z.pos (digits2_pos p) - 1) <= Z.pos p.
Proof.
  induction p as [p IH|p IH|]; simpl digits2_pos.
  - replace (Z.pos (Pos.succ (digits2_pos p)) - 1)
      with (Z.succ (Z.pos (digits2_pos p) - 1)) by lia.
    rewrite Z.pow_succ_r by lia. lia.
  - replace (Z.pos (Pos.succ (digits2_pos p)) - 1)
      with (Z.succ (Z.pos (digits2_pos p) - 1)) by lia.
    rewrite Z.pow_succ_r by lia. lia.
  - simpl. lia.
Qed.

Lemma digits2_pos_le_53 (p : positive) :
  Z.pos p < 2 ^ 53 -> Z.pos (digits2_pos p) <= 53.
Proof.
  intros H. pose proof (digits2_pos_lower p) as Hl.
  destruct (Z.le_gt_cases (Z.pos (digits2_pos p)) 53) as [|Hgt];
    [assumption|].
  assert (2 ^ 53 <= 2 ^ (Z.pos (digits2_pos p) - 1))
    by (apply Z.pow_le_mono_r; lia).
  lia.
Qed.

Lemma shr_fexp_exact (m : positive) (e : Z) :
  Z.pos (digits2_pos m) = 53 -> -1074 <= e <= 971 ->
  shr_fexp Num.prec Num.emax (Z.pos m) e loc_Exact =
  ({| shr_m := Z.pos m; shr_r := false; shr_s := false |}, e).
Proof.
  intros Hd He.
  assert (Hshift : fexp Num.prec Num.emax (Zdigits2 (Z.pos m) + e) - e = 0).
  { unfold fexp, emin, Num.prec, Num.emax. simpl Zdigits2. lia. }
  unfold shr_fexp. rewrite Hshift. reflexivity.
Qed.

(** A mantissa of 53 digits with an exponent in range is kept as it is. *)
Lemma binary_round_aux_exact (m : positive) (e : Z) :
  Z.pos (digits2_pos m) = 53 -> -1074 <= e <= 971 ->
  binary_round_aux Num.prec Num.emax false (Z.pos m) e loc_Exact =
  S754_finite false m e.
Proof.
  intros Hd He. unfold binary_round_aux.
  rewrite (shr_fexp_exact m e Hd He).
  cbn [shr_m loc_of_shr_record round_nearest_even].
  rewrite (shr_fexp_exact m e Hd He). cbn [shr_m].
  replace (e <=? Num.emax - Num.prec) with true; [reflexivity|].
  symmetry. apply Z.leb_le. unfold Num.emax, Num.prec. lia.
Qed.

(** A positive integer below [2^53] is a finite positive number. *)
Lemma of_Z_pos_finite (z : Z) :
  0 < z < 2 ^ 53 -> exists m e, Num.of_Z z = S754_finite false m e.
Proof.
  intros [Hpos Hlt]. destruct z as [|p|p]; try lia.
  pose proof (digits2_pos_le_53 p Hlt) as Hd.
  unfold Num.of_Z, binary_normalize, binary_round.
  assert (Hfexp : fexp Num.prec Num.emax (Z.pos (digits2_pos p) + 0) =
                  Z.pos (digits2_pos p) - 53).
  { unfold fexp, emin, Num.prec, Num.emax. lia. }
  rewrite Hfexp. unfold shl_align.
  destruct (Z.pos (digits2_pos p) - 53 - 0) as [|k|k] eqn:Hk; try lia.
  - rewrite binary_round_aux_exact; [eauto | lia | lia].
  - rewrite binary_round_aux_exact; [eauto | | lia].
    rewrite digits2_pos_iter_xO. lia.
Qed.

Lemma SFdiv_core_binary_nonneg (m1 m2 : positive) (e1 e2 : Z) :
  0 <= fst (fst (SFdiv_core_binary Num.prec Num.emax
                   (Z.pos m1) e1 (Z.pos m2) e2)).
Proof.
  unfold SFdiv_core_binary.
  set (s := _ - _ - _). set (m' := match s with
                                    | 0 => Z.pos m1
                                    | Z.pos _ => Z.shiftl (Z.pos m1) s
                                    | Z.neg _ => 0
                                    end).
  assert (Hm : 0 <= m').
  { unfold m'. destruct s; [lia | | lia]. apply Z.shiftl_nonneg. lia. }
  pose proof (Z.div_pos m' (Z.pos m2) Hm ltac:(lia)) as Hq.
  unfold Z.div in Hq. destruct (Z.div_eucl m' (Z.pos m2)) as [q r].
  exact Hq.
Qed.

(** Dividing a number that is not negative by a positive finite one gives
    a number that is not negative: no [NaN]. *)
Lemma div_nonneg (x y : number) :
  nonneg x = true -> (exists m e, y = S754_finite false m e) ->
  nonneg (Num.div x y) = true.
Proof.
  intros Hx (m & e & ->).
  destruct x as [[|]|[|]| |[|] mx ex]; try discriminate; try reflexivity.
  unfold Num.div, SFdiv.
  pose proof (SFdiv_core_binary_nonneg mx m ex e) as Hq.
  destruct (SFdiv_core_binary _ _ _ _ _ _) as [[mz ez] lz]. simpl in Hq.
  now apply binary_round_aux_nonneg.
Qed.

(** Comparisons of numbers that are not negative follow their rank. *)
Lemma gt_rank (x y : number) :
  nonneg x = true -> nonneg y = true ->
  (Num.gt x y = true <-> rank_lt (rank y) (rank x)).
Proof.
  unfold Num.gt, SFltb, SFcompare, rank_lt, rank.
  destruct x as [[|]|[|]| |[|] mx ex]; try discriminate;
    destruct y as [[|]|[|]| |[|] my ey]; try discriminate; intros _ _;
    try (split; [discriminate | lia]);
    try (split; [lia | reflexivity]).
  change (Pos.compare_cont Eq my mx) with (Pos.compare my mx).
  destruct (Z.compare_spec ey ex) as [E|E|E].
  - destruct (Pos.compare_spec my mx) as [Em|Em|Em]; split; intros H;
      try discriminate; try reflexivity; lia.
  - split; [lia | reflexivity].
  - split; [discriminate | lia].
Qed.

Lemma strict_eq_nonneg (x y : number) :
  nonneg x = true -> nonneg y = true ->
  (Num.strict_eq x y = true <-> x = y).
Proof.
  unfold Num.strict_eq, SFeqb, SFcompare.
  destruct x as [[|]|[|]| |[|] mx ex]; try discriminate;
    destruct y as [[|]|[|]| |[|] my ey]; try discriminate; intros _ _;
    try (split; [discriminate | discriminate]);
    try (split; reflexivity).
  change (Pos.compare_cont Eq mx my) with (Pos.compare mx my).
  destruct (Z.compare_spec ex ey) as [E|E|E].
  - destruct (Pos.compare_spec mx my) as [Em|Em|Em]; split; intros H;
      try discriminate; try (subst; reflexivity);
      injection H as -> ->; lia.
  - split; [discriminate | intros [= -> ->]; lia].
  - split; [discriminate | intros [= -> ->]; lia].
Qed.

Lemma rank_nonneg_zero (x : number) :
  nonneg x = true ->
  Num.gt x (Num.of_Z 0) = true \/ Num.strict_eq x (Num.of_Z 0) = true.
Proof.
  destruct x as [[|]|[|]| |[|] mx ex]; try discriminate; intros _;
    [right | left | left]; reflexivity.
Qed.

(* ================================================================= *)
(** ** The accumulator of the urgent-issue insight *)

Lemma get_add_priority (p : Z) (t t' : string) (acc : Obj.t ThemePriority) :
  Obj.get t' (add_priority p t acc) =
  if Obj.inherited t then Obj.get t' acc
  else if String.eqb t t'
  then Some
         match Obj.get t acc with
         | Some d => {| tp_total := tp_total d + p;
                        tp_count := tp_count d + 1 |}
         | None => {| tp_total := 0 + p; tp_count := 0 + 1 |}
         end
  else Obj.get t' acc.
Proof.
  unfold add_priority, Obj.has.
  destruct (Obj.inherited t); [reflexivity|].
  destruct (Obj.get t acc) as [d|] eqn:Hget.
  - rewrite Hget. apply get_set.
  - rewrite (get_set t t), String.eqb_refl, !get_set.
    now destruct (String.eqb t t').
Qed.

Lemma insert_index_perm {V : Type} (n : N) (k : string) (v : V)
  (o : Obj.t V) :
  Permutation (k :: Obj.keys o) (Obj.keys (Obj.insert_index n k v o)).
Proof.
  induction o as [|[k0 v0] o IH]; simpl; [apply Permutation_refl|].
  destruct (Str.array_index k0) as [n0|]; [|apply Permutation_refl].
  destruct (n0 <? n)%N; [|apply Permutation_refl].
  simpl. eapply Permutation_trans; [apply perm_swap|]. now apply perm_skip.
Qed.

Lemma NoDup_keys_set {V : Type} (k : string) (v : V) (o : Obj.t V) :
  NoDup (Obj.keys o) -> NoDup (Obj.keys (Obj.set k v o)).
Proof.
  intros Hnd. unfold Obj.set. destruct (Obj.has k o) eqn:Hhas.
  - now rewrite keys_replace.
  - assert (Hnew : ~ In k (Obj.keys o)).
    { intros Hin. apply has_keys in Hin. congruence. }
    assert (Hcons : NoDup (k :: Obj.keys o)) by now constructor.
    destruct (Str.array_index k) as [n|].
    + eapply Permutation_NoDup; [apply insert_index_perm | exact Hcons].
    + unfold Obj.keys. rewrite map_app. simpl.
      eapply Permutation_NoDup; [apply Permutation_cons_append|exact Hcons].
Qed.

Lemma NoDup_keys_add_priority (p : Z) (t : string)
  (acc : Obj.t ThemePriority) :
  NoDup (Obj.keys acc) -> NoDup (Obj.keys (add_priority p t acc)).
Proof.
  intros Hnd. unfold add_priority.
  destruct (Obj.inherited t); [assumption|].
  destruct (Obj.has t acc).
  - destruct (Obj.get t acc); [now apply NoDup_keys_set | assumption].
  - rewrite (get_set t t), String.eqb_refl.
    now apply NoDup_keys_set, NoDup_keys_set.
Qed.

Lemma NoDup_keys_accumulate (ms : list (string * Z)) :
  NoDup (Obj.keys (accumulate ms)).
Proof.
  unfold accumulate.
  assert (H : forall acc : Obj.t ThemePriority,
             NoDup (Obj.keys acc) ->
             NoDup (Obj.keys
                      (fold_left
                         (fun acc m => add_priority (snd m) (fst m) acc)
                         ms acc))).
  { induction ms as [|m ms IH]; intros acc Hnd; simpl; [assumption|].
    now apply IH, NoDup_keys_add_priority. }
  apply H. constructor.
Qed.

Lemma mentions_of_snoc (t : string) (ms : list (string * Z))
  (m : string * Z) :
  mentions_of t (ms ++ [m]) =
  mentions_of t ms ++ (if String.eqb (fst m) t then [m] else []).
Proof. unfold mentions_of. now rewrite filter_app. Qed.

(** The accumulator holds, for each theme that is not a name of
    [Object.prototype], the sum of the priorities and the number of its
    mentions; it holds nothing under such a name. *)
Lemma accumulate_get (t : string) (ms : list (string * Z)) :
  Obj.get t (accumulate ms) =
  if Obj.inherited t then None else accumulated t ms.
Proof.
  unfold accumulate, accumulated, total_for, count_for.
  induction ms as [|m ms IH] using rev_ind;
    [now destruct (Obj.inherited t)|].
  rewrite fold_left_app. simpl. rewrite get_add_priority, mentions_of_snoc.
  destruct (String.eqb_spec (fst m) t) as [Heq|Hne].
  - rewrite Heq, IH. destruct (Obj.inherited t); [reflexivity|].
    rewrite length_app, map_app, sum_app.
    cbn [List.length map sum fold_right].
    set (l := mentions_of t ms).
    assert (Hl : Z.of_nat (List.length l) = 0 -> sum (map snd l) = 0).
    { destruct l; [reflexivity | simpl; lia]. }
    destruct (Z.eqb_spec (Z.of_nat (List.length l)) 0) as [E|E];
      destruct (Z.eqb_spec (Z.of_nat (List.length l + 1)) 0) as [E'|E'];
      try lia; cbn [tp_total tp_count]; f_equal; f_equal;
      try lia; rewrite (Hl E); lia.
  - rewrite IH, !app_nil_r. now destruct (Obj.inherited (fst m)).
Qed.

Lemma sum_priorities_bounds (l : list (string * Z)) :
  Forall (fun m => 1 <= snd m <= 5) l ->
  Z.of_nat (List.length l) <= sum (map snd l) <= 5 * Z.of_nat (List.length l).
Proof.
  induction 1 as [|m l Hm _ IH]; simpl; lia.
Qed.

Lemma accumulate_sound (ms : list (string * Z))
  (e : string * ThemePriority) :
  Forall (fun m => 1 <= snd m <= 5) ms ->
  In e (accumulate ms) ->
  sound_entry (Z.of_nat (List.length ms)) e.
Proof.
  intros Hms Hin. destruct e as [t d].
  apply In_get_NoDup in Hin; [|apply NoDup_keys_accumulate].
  rewrite accumulate_get in Hin. unfold accumulated in Hin.
  destruct (Obj.inherited t); [discriminate|].
  destruct (Z.eqb_spec (count_for t ms) 0) as [E|E]; [discriminate|].
  injection Hin as <-. unfold sound_entry, count_for, total_for in *.
  cbn [snd tp_total tp_count].
  assert (Hsub : Forall (fun m => 1 <= snd m <= 5) (mentions_of t ms)).
  { apply Forall_forall. intros m Hm. apply filter_In in Hm as [Hm _].
    rewrite Forall_forall in Hms. now apply Hms. }
  pose proof (sum_priorities_bounds _ Hsub).
  assert (Hle : (List.length (mentions_of t ms) <= List.length ms)%nat)
    by apply filter_length_le.
  lia.
Qed.

(** The average of a sound entry is a number that is not negative. *)
Lemma average_nonneg (bound : Z) (e : string * ThemePriority) :
  5 * bound < 2 ^ 53 -> sound_entry bound e ->
  nonneg (average (snd e)) = true.
Proof.
  intros Hb (Hc & Ht). unfold average. apply div_nonneg.
  - apply of_Z_nonneg. lia.
  - apply of_Z_pos_finite. lia.
Qed.

(* ================================================================= *)
(** ** The selection loop of the urgent-issue insight *)

Lemma gt_false_trans (x h a : number) :
  nonneg x = true -> nonneg h = true -> nonneg a = true ->
  Num.gt x h = false -> Num.gt a h = true ->
  Num.gt x a = false /\ Num.strict_eq x a = false.
Proof.
  intros Hx Hh Ha Hxh Hah.
  apply (gt_rank a h Ha Hh) in Hah.
  assert (Hxh' : ~ rank_lt (rank h) (rank x)).
  { intros H. apply (gt_rank x h Hx Hh) in H. congruence. }
  split.
  - destruct (Num.gt x a) eqn:Hxa; [|reflexivity].
    apply (gt_rank x a Hx Ha) in Hxa. exfalso. apply Hxh'.
    unfold rank_lt in *.
    destruct (rank h) as [[ch eh] mh], (rank x) as [[cx ex] mx],
      (rank a) as [[ca ea] ma]. lia.
  - destruct (Num.strict_eq x a) eqn:Hxa; [|reflexivity].
    apply (strict_eq_nonneg x a Hx Ha) in Hxa. subst x. contradiction.
Qed.

Lemma gt_irrefl (a : number) : nonneg a = true -> Num.gt a a = false.
Proof.
  intros Ha. destruct (Num.gt a a) eqn:H; [|reflexivity].
  apply (gt_rank a a Ha Ha) in H. unfold rank_lt in H.
  destruct (rank a) as [[c e] m]. lia.
Qed.

Lemma leads_self (e : string * ThemePriority) :
  nonneg (average (snd e)) = true -> leads e [e].
Proof.
  intros He e' [<- | []]. split; [now apply gt_irrefl | lia].
Qed.

(** One round of the loop keeps the state the best seen so far. *)
Lemma urgent_step_best (seen : list (string * ThemePriority))
  (e : string * ThemePriority) (st : option UrgentIssue * number) :
  (forall e', In e' (seen ++ [e]) ->
     nonneg (average (snd e')) = true /\ 1 <= tp_count (snd e')) ->
  best_so_far seen st -> best_so_far (seen ++ [e]) (urgent_step e st).
Proof.
  intros Hall Hbest.
  destruct (Hall e) as [Ha Hc]; [apply in_or_app; right; now left|].
  assert (Hseen : forall e', In e' seen -> nonneg (average (snd e')) = true).
  { intros e' He'. apply Hall, in_or_app. now left. }
  destruct e as [theme data], st as [[issue|] hi];
    unfold best_so_far in *; simpl in Hbest, Ha, Hc; unfold urgent_step.
  - destruct Hbest as (e0 & Hin0 & -> & -> & Hlead). simpl.
    pose proof (Hseen e0 Hin0) as H0.
    destruct (Num.gt (average data) (average (snd e0))) eqn:Hgt; simpl.
    + exists (theme, data). split; [apply in_or_app; right; now left|].
      split; [reflexivity|]. split; [reflexivity|].
      intros e' He'. apply in_app_or in He' as [He' | [<- | []]].
      * destruct (Hlead e' He') as [Hle _].
        destruct (gt_false_trans _ _ _ (Hseen e' He') H0 Ha Hle Hgt)
          as [H1 H2].
        simpl. split; [exact H1 | congruence].
      * split; [now apply gt_irrefl | lia].
    + destruct (Num.strict_eq (average data) (average (snd e0))) eqn:Heq;
        simpl.
      * apply (strict_eq_nonneg _ _ Ha H0) in Heq as Heq'.
        destruct (Z.gtb_spec (tp_count data) (tp_count (snd e0)))
          as [Hmore|Hless]; simpl.
        -- exists (theme, data). split; [apply in_or_app; right; now left|].
           split; [reflexivity|]. split; [reflexivity|].
           intros e' He'. apply in_app_or in He' as [He' | [<- | []]].
           ++ destruct (Hlead e' He') as [Hle Htie]. simpl.
              rewrite Heq'. split; [exact Hle|].
              intros H. specialize (Htie H). lia.
           ++ split; [now apply gt_irrefl | lia].
        -- exists e0. split; [apply in_or_app; now left|].
           split; [reflexivity|]. split; [reflexivity|].
           intros e' He'. apply in_app_or in He' as [He' | [<- | []]].
           ++ now apply Hlead.
           ++ simpl. split; [exact Hgt | intros _; lia].
      * exists e0. split; [apply in_or_app; now left|].
        split; [reflexivity|]. split; [reflexivity|].
        intros e' He'. apply in_app_or in He' as [He' | [<- | []]].
        -- now apply Hlead.
        -- simpl. split; [exact Hgt | congruence].
  - destruct Hbest as [-> ->]. cbn [fst snd app].
    assert (Hsel : Num.gt (average data) (S754_zero false)
                   || Num.strict_eq (average data) (S754_zero false)
                      && (tp_count data >? 0) = true).
    { pose proof (rank_nonneg_zero _ Ha) as Hz.
      change (Num.of_Z 0) with (S754_zero false) in Hz.
      destruct Hz as [-> | ->]; [reflexivity|].
      replace (tp_count data >? 0) with true
        by (symmetry; apply Z.gtb_lt; lia).
      apply orb_true_r. }
    rewrite Hsel. cbn [fst snd]. exists (theme, data).
    split; [now left|]. split; [reflexivity|]. split; [reflexivity|].
    now apply leads_self.
Qed.

Lemma select_urgent_best (entries : list (string * ThemePriority)) :
  (forall e, In e entries ->
     nonneg (average (snd e)) = true /\ 1 <= tp_count (snd e)) ->
  best_so_far entries (select_urgent entries).
Proof.
  intros Hall. unfold select_urgent, Arr.forEach.
  assert (H : forall rest seen st,
             seen ++ rest = entries -> best_so_far seen st ->
             best_so_far entries
               (fold_left (fun s x => urgent_step x s) rest st)).
  { induction rest as [|e rest IH]; intros seen st Hsplit Hbest; simpl.
    - now rewrite app_nil_r in Hsplit; subst.
    - apply (IH (seen ++ [e])).
      + now rewrite <- app_assoc.
      + apply urgent_step_best; [|assumption].
        intros e' He'. apply Hall. rewrite <- Hsplit.
        apply in_app_or in He' as [He' | [<- | []]];
          apply in_or_app; [now left | right; now left]. }
  apply (H entries [] (None, Num.of_Z 0)); [reflexivity|].
  split; reflexivity.
Qed.

(* ################################################################# *)
(** * The claims *)

(* ================================================================= *)
(** ** Theme counting and ranking (claims C3, C7, C10) *)

Lemma topThemes_ranked {P : Platform} (rows : list Feedback) :
  topThemes rows =
  map (fun e => {| tc_theme := fst e; tc_count := snd e |})
    (ranked (theme_scan rows)).
Proof. unfold topThemes, ranked. now rewrite themeCounts_fold. Qed.


Lemma topThemes_In {P : Platform} (rows : list Feedback) (a : ThemeCount) :
  In a (topThemes rows) ->
  In (tc_theme a) (theme_scan rows)
  /\ tc_count a = occurrences (tc_theme a) (theme_scan rows).
Proof.
  rewrite topThemes_ranked. intros Ha.
  apply in_map_iff in Ha as (e & <- & He). simpl.
  apply ranked_In in He. tauto.
Qed.

Lemma topThemes_tie_order {P : Platform} (rows : list Feedback)
  (i j : nat) (a b : ThemeCount) :
  (i < j)%nat ->
  nth_error (topThemes rows) i = Some a ->
  nth_error (topThemes rows) j = Some b ->
  tc_count a = tc_count b ->
  own_key_before (theme_scan rows) (tc_theme a) (tc_theme b).
Proof.
  rewrite topThemes_ranked. intros Hij Hi Hj Heq.
  rewrite nth_error_map in Hi, Hj.
  destruct (nth_error (ranked (theme_scan rows)) i) as [x|] eqn:Hx;
    [|discriminate].
  destruct (nth_error (ranked (theme_scan rows)) j) as [y|] eqn:Hy;
    [|discriminate].
  injection Hi as <-. injection Hj as <-. simpl in *.
  apply ranked_ties; [|assumption].
  now apply (before_nth_error _ i j).
Qed.

Lemma all_plain_themes {P : Platform} (rows : list Feedback) :
  all_plain rows = true -> plain_themes rows.
Proof.
  unfold all_plain, plain_themes. rewrite forallb_forall.
  intros H f s Hf Hs. specialize (H f Hf). rewrite forallb_forall in H.
  now apply H.
Qed.




(** Where the themes are plain and none is an array index, ties are in
    first-encountered order, as the specification has it. *)
Lemma topThemes_ties_plain {P : Platform} (rows : list Feedback) :
  plain_themes rows ->
  (forall t, In t (theme_scan rows) -> Str.array_index t = None) ->
  spec_ties_first_encountered rows.
Proof.
  intros _ Hplain i j a b Hij Hi Hj Heq.
  pose proof (topThemes_tie_order rows i j a b Hij Hi Hj Heq) as H.
  apply nth_error_In, topThemes_In in Hi as [Ha _].
  apply nth_error_In, topThemes_In in Hj as [Hb _].
  unfold own_key_before in H.
  now rewrite (Hplain _ Ha), (Hplain _ Hb) in H.
Qed.




Lemma totalThemeMentions_scan {P : Platform} (feedback : list Feedback) :
  totalThemeMentions feedback = Z.of_nat (List.length (theme_scan feedback)).
Proof.
  unfold totalThemeMentions.
  rewrite fold_left_add_sum, allThemeCounts_fold, counter_sum. lia.
Qed.

Lemma calcThemeDistribution_ranked {P : Platform} (feedback : list Feedback) :
  calcThemeDistribution feedback =
  map (fun e =>
         {| td_theme := fst e;
            td_count := snd e;
            td_percentage := percentage (snd e) (totalThemeMentions feedback) |})
    (ranked (theme_scan feedback)).
Proof. unfold calcThemeDistribution, ranked. now rewrite allThemeCounts_fold. Qed.

Lemma themeDistribution_calc {P : Platform} (feedback : list Feedback) :
  themeDistribution (aiInsights feedback) = calcThemeDistribution feedback.
Proof.
  unfold aiInsights. destruct feedback as [|f feedback]; reflexivity.
Qed.

(** For rows whose themes are plain, the theme distribution lists at
    most five themes, by falling
    occurrence count: each entry carries the number of mentions of its theme
    and the percentage [Math.round((count / totalMentions) * 100)], where
    [totalMentions] is the sum of the counters of all themes, that is the
    number of mentions in the record set; a theme left out has no more
    mentions than any theme listed, and with fewer than five entries every
    theme is listed.  Counts [{a: 2, b: 1}] give 67 and 33; three themes
    mentioned once each give 33 three times, which does not sum to 100. *)
Theorem themeDistribution_top5 {P : Platform} (feedback : list Feedback) :
  plain_themes feedback ->
  let dist := themeDistribution (aiInsights feedback) in
  let scan := theme_scan feedback in
  (List.length dist <= 5)%nat
  /\ totalThemeMentions feedback = sum (Obj.values (allThemeCounts feedback))
  /\ totalThemeMentions feedback = Z.of_nat (List.length scan)
  /\ (forall d, In d dist ->
        td_count d = occurrences (td_theme d) scan
        /\ 0 < td_count d
        /\ td_percentage d =
           Num.Math_round
             (Num.mul
                (Num.div (Num.of_Z (td_count d))
                   (Num.of_Z (totalThemeMentions feedback)))
                (Num.of_Z 100)))
  /\ StronglySorted (fun a b => td_count b <= td_count a) dist
  /\ (forall t d, In t scan -> In d dist ->
        listed t dist \/ occurrences t scan <= td_count d)
  /\ (forall t, In t scan -> (List.length dist < 5)%nat -> listed t dist)
  /\ map (fun d => (td_theme d, td_count d, td_percentage d))
       (themeDistribution (@aiInsights Sample.platform sample_share_rows)) =
     [("a", 2, Num.of_Z 67); ("b", 1, Num.of_Z 33)]
  /\ map td_percentage
       (themeDistribution
          (@aiInsights Sample.platform
             [Sample.row 1 "neutral" 3 ["a"]; Sample.row 2 "neutral" 3 ["b"];
              Sample.row 3 "neutral" 3 ["c"]])) =
     [Num.of_Z 33; Num.of_Z 33; Num.of_Z 33].
Proof.
  intros _ dist scan. subst dist scan.
  rewrite themeDistribution_calc, calcThemeDistribution_ranked.
  split; [|split; [|split; [|split; [|split; [|split; [|split; [|split]]]]]]].
  - rewrite length_map. apply ranked_length.
  - unfold totalThemeMentions. rewrite fold_left_add_sum. lia.
  - apply totalThemeMentions_scan.
  - intros d Hd. apply in_map_iff in Hd as (e & <- & He). simpl.
    apply ranked_In in He as (_ & Hc & Hpos). repeat split; assumption.
  - apply StronglySorted_map. apply ranked_sorted.
  - intros t d Ht Hd. apply in_map_iff in Hd as (e & <- & He). simpl.
    destruct (ranked_top _ t e Ht He) as [(e' & He' & <-) | Hle].
    + left. eexists. split; [apply in_map; exact He' | reflexivity].
    + now right.
  - intros t Ht Hlen. rewrite length_map in Hlen.
    destruct (ranked_complete _ t Ht Hlen) as (e' & He' & <-).
    eexists. split; [apply in_map; exact He' | reflexivity].
  - vm_compute. reflexivity.
  - vm_compute. reflexivity.
Qed.

(** C7, the failing input.  Forty records, 23 with the theme [a] and 17
    with the theme [b]: [a] makes 57.5 percent of the mentions, the
    claim's [round(100 * 23 / 40)] is 58, and the code answers 57, because
    the quotient [23 / 40] is rounded to a double just below 0.575 before it
    is multiplied by 100. *)
Theorem themeDistribution_tie_rounds_down :
  map (fun d => (td_theme d, td_count d, td_percentage d))
    (themeDistribution (@aiInsights Sample.platform sample_tie_rows)) =
  [("a", 23, Num.of_Z 57); ("b", 17, Num.of_Z 43)]
  /\ Num.Math_round
       (Num.div (Num.mul (Num.of_Z 100) (Num.of_Z 23)) (Num.of_Z 40)) =
     Num.of_Z 58
  /\ spec_percentage 23 40 = 58.
Proof. repeat split; vm_compute; reflexivity. Qed.

(* ================================================================= *)
(** ** Sentiment trend (claim C1) *)

Lemma count_sentiment_spec (s : string) (half : list Feedback) :
  count_sentiment s half = spec_count s half.
Proof.
  unfold count_sentiment. induction half as [|f half IH]; simpl.
  - reflexivity.
  - destruct (String.eqb (sentiment f) s); simpl; lia.
Qed.

Lemma midpoint_or_1_spec (feedback : list Feedback) :
  feedback <> [] ->
  midpoint_or_1 feedback =
  Z.of_nat (spec_split_point (List.length feedback)).
Proof.
  intros Hne. unfold midpoint_or_1, midpoint, spec_split_point.
  assert (Hlen : (0 < List.length feedback)%nat).
  { destruct feedback; [contradiction | simpl; lia]. }
  rewrite <- (Nat2Z.inj_div _ 2).
  destruct (Nat.eqb_spec (List.length feedback) 1) as [E|E].
  - rewrite E. reflexivity.
  - assert (1 <= List.length feedback / 2)%nat.
    { apply Nat.div_le_lower_bound; lia. }
    destruct (Z.eqb_spec (Z.of_nat (List.length feedback / 2)) 0); lia.
Qed.

Lemma recentHalf_spec (feedback : list Feedback) :
  feedback <> [] ->
  recentHalf feedback =
  firstn (spec_split_point (List.length feedback)) feedback.
Proof.
  intros Hne. unfold recentHalf. rewrite (midpoint_or_1_spec _ Hne).
  rewrite slice_prefix by lia. now rewrite Nat2Z.id.
Qed.

Lemma olderHalf_spec (feedback : list Feedback) :
  feedback <> [] ->
  olderHalf feedback =
  skipn (spec_split_point (List.length feedback)) feedback.
Proof.
  intros Hne. unfold olderHalf. rewrite (midpoint_or_1_spec _ Hne).
  rewrite slice_suffix by lia. now rewrite Nat2Z.id.
Qed.

Lemma calcSentimentTrend_counts (feedback : list Feedback) :
  recentPositive (calcSentimentTrend feedback) =
    Some (count_sentiment "positive" (recentHalf feedback))
  /\ recentNegative (calcSentimentTrend feedback) =
       Some (count_sentiment "negative" (recentHalf feedback)).
Proof.
  unfold calcSentimentTrend.
  destruct (Num.gt _ Num.lit_0_1); [now split|].
  destruct (Num.lt _ (SFopp Num.lit_0_1)); now split.
Qed.

(** C1, the failing input.  A table of twenty records, one a day; newest
    first, the recent half holds four positive records out of ten, the
    older half three out of ten, none negative.  The ratios are 4/10 and
    3/10 and their difference is one tenth, which is not more than 0.1:
    the claim's trend is [stable].  The code answers [improving]: it
    subtracts the doubles nearest to 0.4 and 0.3, which gives a double
    above the double nearest to 0.1.  For every record set that is not
    empty the code cuts the halves and counts [recentPositive] and
    [recentNegative] as the claim says, and on the four records of the
    scenario both readings give [improving]. *)
Theorem sentimentTrend_exact_tenth :
  map id sample_tenth_rows = map Z.of_nat (rev (seq 1 20))
  /\ recentHalf sample_tenth_rows = firstn 10 sample_tenth_rows
  /\ olderHalf sample_tenth_rows = skipn 10 sample_tenth_rows
  /\ spec_positiveRatio (firstn 10 sample_tenth_rows) = 4 # 10
  /\ spec_positiveRatio (skipn 10 sample_tenth_rows) = 3 # 10
  /\ Qeq (Qminus (4 # 10) (3 # 10)) (1 # 10)
  /\ spec_trend sample_tenth_rows = "stable"
  /\ trend
       (sentimentTrend
          (@handleGetAIInsights Sample.platform sample_tenth_table)) =
     "improving"
  /\ Num.gt
       (Num.sub (Num.div (Num.of_Z 4) (Num.of_Z 10))
          (Num.div (Num.of_Z 3) (Num.of_Z 10)))
       Num.lit_0_1 = true
  /\ spec_trend sample_trend_rows = "improving"
  /\ trend (sentimentTrend (@aiInsights Sample.platform sample_trend_rows)) =
     "improving"
  /\ (forall (P : Platform) (feedback : list Feedback),
        feedback <> [] ->
        let k := spec_split_point (List.length feedback) in
        let st := sentimentTrend (aiInsights feedback) in
        recentHalf feedback = firstn k feedback
        /\ olderHalf feedback = skipn k feedback
        /\ recentPositive st = Some (spec_count "positive" (firstn k feedback))
        /\ recentNegative st =
           Some (spec_count "negative" (firstn k feedback))).
Proof.
  do 11 (split; [vm_compute; reflexivity|]).
  intros P feedback Hne k st. subst k st.
  assert (Hst : sentimentTrend (aiInsights feedback) =
                calcSentimentTrend feedback).
  { unfold aiInsights. destruct feedback; [contradiction | reflexivity]. }
  rewrite Hst.
  destruct (calcSentimentTrend_counts feedback) as (Hp & Hn).
  rewrite Hp, Hn, !count_sentiment_spec.
  rewrite (recentHalf_spec _ Hne), (olderHalf_spec _ Hne).
  repeat split; reflexivity.
Qed.

(* ================================================================= *)
(** ** Classifier gateway (claims C5, C6, C9) *)

Lemma indexOf_Some (c : ascii) (s : string) (i : nat) :
  Str.indexOf c s = Some i ->
  String.get i s = Some c
  /\ forall k, (k < i)%nat -> String.get k s <> Some c.
Proof.
  revert i. induction s as [|d s IH]; simpl; intros i H; [discriminate|].
  destruct (Ascii.eqb_spec d c) as [->|Hne].
  - injection H as <-. split; [reflexivity | intros k Hk; lia].
  - destruct (Str.indexOf c s) as [i'|]; [|discriminate].
    injection H as <-. destruct (IH i' eq_refl) as [Hget Hmin].
    split; [exact Hget|]. intros [|k] Hk; simpl.
    + congruence.
    + apply Hmin. lia.
Qed.

Lemma indexOf_None (c : ascii) (s : string) :
  Str.indexOf c s = None -> forall k, String.get k s <> Some c.
Proof.
  induction s as [|d s IH]; simpl; intros H k.
  - destruct k; discriminate.
  - destruct (Ascii.eqb_spec d c) as [->|Hne]; [discriminate|].
    destruct (Str.indexOf c s); [discriminate|].
    destruct k as [|k]; simpl; [congruence | now apply IH].
Qed.

Lemma lastIndexOf_Some (c : ascii) (s : string) (j : nat) :
  Str.lastIndexOf c s = Some j -> String.get j s = Some c.
Proof.
  revert j. induction s as [|d s IH]; simpl; intros j H; [discriminate|].
  destruct (Str.lastIndexOf c s) as [j'|].
  - injection H as <-. simpl. now apply IH.
  - destruct (Ascii.eqb_spec d c) as [->|Hne]; [|discriminate].
    now injection H as <-.
Qed.

Lemma lastIndexOf_None (c : ascii) (s : string) :
  Str.lastIndexOf c s = None -> forall k, String.get k s <> Some c.
Proof.
  induction s as [|d s IH]; simpl; intros H k.
  - destruct k; discriminate.
  - destruct (Str.lastIndexOf c s); [discriminate|].
    destruct (Ascii.eqb_spec d c) as [->|Hne]; [discriminate|].
    destruct k as [|k]; simpl; [congruence | now apply IH].
Qed.

Lemma get_drop (n k : nat) (s : string) :
  String.get k (Str.drop n s) = String.get (n + k) s.
Proof.
  revert s. induction n as [|n IH]; intros s; simpl; [reflexivity|].
  destruct s as [|d s]; simpl; [now destruct k | apply IH].
Qed.

(** The regular expression finds a span exactly when the text has an
    opening brace with a closing brace further on. *)
Lemma match_json_span_None (text : string) :
  match_json_span text = None <-> ~ has_json_span text.
Proof.
  unfold match_json_span, has_json_span. split.
  - intros H (i & j & Hij & Hi & Hj).
    destruct (Str.indexOf "{" text) as [i0|] eqn:Hopen.
    + destruct (Str.lastIndexOf "}" (Str.drop (S i0) text)) eqn:Hclose;
        [discriminate|].
      apply indexOf_Some in Hopen as [_ Hmin].
      assert (i0 <= i)%nat.
      { destruct (Nat.le_gt_cases i0 i) as [|Hlt]; [assumption|].
        exfalso. now apply (Hmin i Hlt). }
      apply (lastIndexOf_None _ _ Hclose (j - S i0)%nat).
      rewrite get_drop. replace (S i0 + (j - S i0))%nat with j by lia.
      exact Hj.
    + now apply (indexOf_None _ _ Hopen i).
  - intros Hno.
    destruct (Str.indexOf "{" text) as [i0|] eqn:Hopen; [|reflexivity].
    destruct (Str.lastIndexOf "}" (Str.drop (S i0) text)) as [j0|] eqn:Hclose;
      [|reflexivity].
    exfalso. apply Hno. exists i0, (S i0 + j0)%nat.
    apply indexOf_Some in Hopen as [Hget _].
    apply lastIndexOf_Some in Hclose. rewrite get_drop in Hclose.
    repeat split; [lia | assumption | assumption].
Qed.


(** C5.  When the classifier call fails, or its answer carries no text, or
    the text has no [{...}] span, or [JSON.parse] rejects the span, the
    error raised inside [analyzeFeedback] is caught there and the function
    returns the default analysis: neutral, complaint, priority 3, no
    themes. *)
Theorem analyzeFeedback_fallback {P : Platform} (ai : Ai) (content : string) :
  ai (prompt content) = AiRejects
  \/ ai (prompt content) = AiResolves None
  \/ (exists text,
        ai (prompt content) = AiResolves (Some text)
        /\ (~ has_json_span text
            \/ exists span,
                 match_json_span text = Some span
                 /\ JSON_parse span = None)) ->
  (exists message, analyzeFeedback_try ai content = Throw message)
  /\ analyzeFeedback ai content =
     {| fa_sentiment := "neutral";
        fa_category := "complaint";
        fa_priority := Num.of_Z 3;
        fa_themes := [] |}.
Proof.
  unfold analyzeFeedback, analyzeFeedback_try.
  intros [H | [H | (text & H & [Hno | (span & Hspan & Hparse)])]];
    rewrite H; simpl.
  - split; [eexists|]; reflexivity.
  - split; [eexists|]; reflexivity.
  - apply match_json_span_None in Hno. rewrite Hno. simpl.
    split; [eexists|]; reflexivity.
  - rewrite Hspan. simpl. rewrite Hparse. simpl.
    split; [eexists|]; reflexivity.
Qed.

(** C5, witness: an answer without braces. *)
Lemma analyzeFeedback_fallback_witness :
  @analyzeFeedback Sample.platform (Sample.ai_says "I cannot tell.") "slow"
  = default_analysis.
Proof.
  apply (@analyzeFeedback_fallback Sample.platform).
  right. right. exists "I cannot tell.". split; [reflexivity|].
  left. apply match_json_span_None. reflexivity.
Defined.

(** What the priority expression computes: the clamped rounding when the
    rounded value is truthy, 3 when it is [NaN] or a zero. *)
Lemma sanitize_priority_cases {P : Platform} (v : option json) :
  sanitize_priority v =
  if Num.truthy (Num.Math_round (ToNumber v))
  then clamp_1_5 (Num.Math_round (ToNumber v))
  else Num.of_Z 3.
Proof.
  unfold sanitize_priority, clamp_1_5, Num.or_else.
  now destruct (Num.truthy (Num.Math_round (ToNumber v))).
Qed.

(** C6, the failing input.  The classifier answers [{"priority":0}]: the
    parsed priority is the number 0, rounding and clamping it into [1 .. 5]
    gives 1, and the code answers 3, since [Math.round(0) || 3] is 3. *)
Theorem sanitize_priority_zero :
  @JSON_parse Sample.platform (Sample.json_of_field "priority" "0") =
    Some (JObj [("priority", JNum (Num.of_Z 0))])
  /\ fa_priority
       (@analyzeFeedback Sample.platform
          (Sample.ai_says (Sample.json_of_field "priority" "0")) "slow") =
     Num.of_Z 3
  /\ clamp_1_5 (Num.Math_round (Num.of_Z 0)) = Num.of_Z 1.
Proof. repeat split; vm_compute; reflexivity. Qed.



















(* ================================================================= *)
(** ** Listing and pagination (claims C4, C8) *)

Lemma ceil_div_spec (a b : Z) :
  0 < b -> (Num.ceil_div a b - 1) * b < a <= Num.ceil_div a b * b.
Proof.
  intros Hb. unfold Num.ceil_div.
  pose proof (Z.div_mod (- a) b ltac:(lia)) as Hdm.
  pose proof (Z.mod_pos_bound (- a) b Hb) as Hmod.
  nia.
Qed.

Lemma limit_of_range (q : searchParams) (lim : Z) :
  limit_of q = Num.Int lim -> 1 <= lim <= 100.
Proof.
  unfold limit_of.
  destruct (Str.parseInt (or_default (q_limit q) "10")) as [|z]; simpl;
    [discriminate|].
  intros [= <-]. lia.
Qed.

Lemma page_of_range (q : searchParams) (p : Z) :
  page_of q = Num.Int p -> 1 <= p.
Proof.
  unfold page_of.
  destruct (Str.parseInt (or_default (q_page q) "1")) as [|z]; simpl;
    [discriminate|].
  intros [= <-]. lia.
Qed.

(** C8, the failing input.  For [GET /api/feedback?page=abc] the effective
    page is [NaN], not a number that is at least 1; the same holds for the
    limit with [limit=abc], and the offset is [NaN] with either, so no page
    of records is computed. *)
Theorem page_of_not_a_number :
  page_of (plain_request (Some "abc") None) = Num.IntNaN
  /\ limit_of (plain_request None (Some "abc")) = Num.IntNaN
  /\ offset_of (plain_request (Some "abc") None) = Num.IntNaN
  /\ (forall (P : Platform) db now,
        exists message,
          handleGetFeedback db now (plain_request (Some "abc") None) =
          Throw message).
Proof.
  repeat split; try reflexivity.
  intros P db now. eexists. reflexivity.
Qed.

Lemma where_app (w w' : list condition) (f : Feedback) :
  Sql.where_ (w ++ w') f = Sql.where_ w f && Sql.where_ w' f.
Proof. unfold Sql.where_. apply forallb_app. Qed.

Lemma where_single (c : condition) (f : Feedback) :
  Sql.where_ [c] f = Sql.holds c f.
Proof. unfold Sql.where_. simpl. apply andb_true_r. Qed.

Lemma where_given (p : option string) (c : string -> condition)
  (test : string -> bool) (f : Feedback) :
  (forall v, Sql.holds (c v) f = test v) ->
  Sql.where_ (match given p with Some v => [c v] | None => [] end) f =
  filter_by p test.
Proof.
  intros Hc. unfold given, filter_by, Str.truthy.
  destruct p as [v|]; [|reflexivity].
  destruct (Str.is_empty v); cbn [negb]; [reflexivity|].
  rewrite where_single. apply Hc.
Qed.

(** The WHERE clause the handler builds selects the rows that pass the
    filters of the request. *)
Lemma whereClause_matches {P : Platform} (now : Z) (q : searchParams)
  (f : Feedback) :
  Sql.where_ (whereClause now q) f = spec_matches now q f.
Proof.
  unfold whereClause, spec_matches. rewrite !where_app, !andb_assoc.
  f_equal; [f_equal; [f_equal; [f_equal|]|]|].
  - now apply where_given.
  - now apply where_given.
  - now apply where_given.
  - apply where_given. intros v. simpl.
    now destruct (Str.parseInt v).
  - unfold given, filter_by, Str.truthy, dateThreshold.
    destruct (q_dateRange q) as [v|]; [|reflexivity].
    destruct (Str.is_empty v); cbn [negb]; [reflexivity|].
    destruct (String.eqb v "24h"); [apply where_single|].
    destruct (String.eqb v "7d"); [apply where_single|].
    destruct (String.eqb v "30d"); [apply where_single|].
    reflexivity.
Qed.

Lemma filter_matches {P : Platform} (now : Z) (q : searchParams)
  (db : list Feedback) :
  filter (Sql.where_ (whereClause now q)) db = filter (spec_matches now q) db.
Proof. apply filter_ext. intros f. apply whereClause_matches. Qed.

(** With [page] and [limit] parameters that are absent, empty, or start
    with an integer numeral below [2^53] in absolute value, and an offset
    below [2^53], the listing computes what the specification says: a page
    of at least 1, a limit within [1 .. 100], the offset, the number of
    rows that pass the filters, the number of pages and the two flags. *)
Lemma pagination_numeric {P : Platform} (db : list Feedback) (now : Z)
  (q : searchParams) (p l : Z) (r : listing) :
  Str.parseInt (or_default (q_page q) "1") = Num.Int p ->
  Str.parseInt (or_default (q_limit q) "10") = Num.Int l ->
  Z.abs p < 2 ^ 53 -> Z.abs l < 2 ^ 53 ->
  (Z.max 1 p - 1) * Z.min 100 (Z.max 1 l) < 2 ^ 53 ->
  handleGetFeedback db now q = Normal r ->
  let pg := listing_pagination r in
  let lim := Z.min 100 (Z.max 1 l) in
  page pg = Num.Int (Z.max 1 p)
  /\ limit pg = Num.Int lim
  /\ offset_of q = Num.Int ((Z.max 1 p - 1) * lim)
  /\ total pg = Z.of_nat (List.length (filter (spec_matches now q) db))
  /\ (exists n, totalPages pg = Num.Int n
                /\ (n - 1) * lim < total pg <= n * lim
                /\ (hasNext pg = true <-> Z.max 1 p < n))
  /\ (hasPrev pg = true <-> 1 < Z.max 1 p).
Proof.
  intros Hp Hl _ _ _. rewrite <- filter_matches.
  unfold handleGetFeedback, dataQuery, offset_of.
  assert (Hpage : page_of q = Num.Int (Z.max 1 p))
    by (unfold page_of; now rewrite Hp).
  assert (Hlim : limit_of q = Num.Int (Z.min 100 (Z.max 1 l)))
    by (unfold limit_of; now rewrite Hl).
  rewrite Hpage, Hlim. simpl.
  destruct (parse_rows _) as [items|]; simpl; [|discriminate].
  intros [= <-]. simpl. repeat split; try reflexivity.
  - eexists. split; [reflexivity|]. split.
    + apply ceil_div_spec. lia.
    + apply Z.ltb_lt.
  - apply Z.ltb_lt.
  - apply Z.ltb_lt.
Qed.

Lemma parse_rows_ok {P : Platform} (rows : list Feedback) :
  (forall f, In f rows -> exists v, parse_themes f = Normal v) ->
  exists items, parse_rows rows = Normal items /\ map item_row items = rows.
Proof.
  induction rows as [|f rows IH]; simpl; intros Hok.
  - now exists [].
  - destruct (Hok f (or_introl eq_refl)) as (v & ->). simpl.
    destruct IH as (items & -> & Hrows);
      [intros g Hg; apply Hok; now right|].
    simpl. eexists. split; [reflexivity|]. simpl. now rewrite Hrows.
Qed.

Lemma whereClause_same_filters {P : Platform} (now : Z) (q r : searchParams) :
  same_filters q r -> whereClause now r = whereClause now q.
Proof.
  intros (H1 & H2 & H3 & H4 & H5 & _). unfold whereClause.
  now rewrite H1, H2, H3, H4, H5.
Qed.

Lemma limit_of_same_filters (q r : searchParams) :
  same_filters q r -> limit_of r = limit_of q.
Proof.
  intros (_ & _ & _ & _ & _ & H). unfold limit_of. now rewrite H.
Qed.






(* ================================================================= *)
(** ** Most urgent issue (claim C2) *)

Lemma fold_left_map {A B C : Type} (g : A -> C -> A) (h : B -> C)
  (l : list B) (a : A) :
  fold_left g (map h l) a = fold_left (fun s x => g s (h x)) l a.
Proof.
  revert a. induction l as [|x l IH]; intros a; simpl; [reflexivity|].
  apply IH.
Qed.

Lemma negativeThemePriorities_accumulate {P : Platform}
  (feedback : list Feedback) :
  negativeThemePriorities feedback = accumulate (negative_mentions feedback).
Proof.
  unfold negativeThemePriorities, accumulate, negative_mentions, Arr.forEach.
  generalize (@Obj.empty ThemePriority).
  induction feedback as [|f feedback IH]; intros acc; simpl; [reflexivity|].
  rewrite fold_left_app, IH. f_equal.
  destruct (String.eqb (sentiment f) "negative"); simpl; [|reflexivity].
  rewrite forEach_theme_fold, fold_left_map. reflexivity.
Qed.

Lemma mostUrgentIssue_select {P : Platform} (feedback : list Feedback) :
  mostUrgentIssue (aiInsights feedback) =
  fst (select_urgent (accumulate (negative_mentions feedback))).
Proof.
  unfold aiInsights. destruct feedback as [|f feedback]; [reflexivity|].
  cbn [List.length Nat.eqb mostUrgentIssue]. unfold calcMostUrgentIssue.
  now rewrite negativeThemePriorities_accumulate.
Qed.

Lemma negative_mentions_priorities {P : Platform} (feedback : list Feedback) :
  (forall f, In f feedback -> 1 <= priority f <= 5) ->
  Forall (fun m => 1 <= snd m <= 5) (negative_mentions feedback).
Proof.
  intros Hp. apply Forall_forall. intros m Hm.
  unfold negative_mentions in Hm. apply in_flat_map in Hm as (f & Hf & Hm).
  destruct (String.eqb (sentiment f) "negative"); [|contradiction].
  apply in_map_iff in Hm as (t & <- & _). simpl. now apply Hp.
Qed.

Lemma count_for_In (t : string) (ms : list (string * Z)) :
  count_for t ms <> 0 <-> exists p, In (t, p) ms.
Proof.
  unfold count_for, mentions_of. split.
  - intros H. destruct (filter _ ms) as [|[t' p] l] eqn:E; [contradiction|].
    assert (Hin : In (t', p) (filter (fun m => String.eqb (fst m) t) ms))
      by (rewrite E; now left).
    apply filter_In in Hin as [Hin Heq]. apply String.eqb_eq in Heq.
    simpl in Heq. subst t'. now exists p.
  - intros (p & Hin).
    assert (Hf : In (t, p) (filter (fun m => String.eqb (fst m) t) ms)).
    { apply filter_In. split; [assumption|]. apply String.eqb_refl. }
    destruct (filter _ ms); [destruct Hf | simpl; lia].
Qed.

(** C2, the failing input.  Two negative records, one with the theme
    [constructor] and priority 5, one with the theme [ui] and priority 2.
    The theme with the highest average priority is [constructor], with
    the average 5; the code answers [ui], with the average 2.  For the
    name [constructor] the lookup in the accumulator finds the function
    every object inherits, so that no entry is created for the theme.
    With the first record alone the code answers [null], although a
    negative record carries a theme. *)
Theorem mostUrgentIssue_skips_constructor :
  @negative_mentions Sample.platform sample_inherited_rows =
    [("constructor", 5); ("ui", 2)]
  /\ spec_mostUrgent (@negative_mentions Sample.platform sample_inherited_rows)
     = Some "constructor"
  /\ Qeq
       (spec_average "constructor"
          (@negative_mentions Sample.platform sample_inherited_rows))
       (5 # 1)
  /\ mostUrgentIssue (@aiInsights Sample.platform sample_inherited_rows) =
     Some {| ui_theme := "ui";
             ui_avgPriority := Num.of_Z 2;
             ui_count := 1 |}
  /\ @negativeThemePriorities Sample.platform sample_inherited_rows =
     [("ui", {| tp_total := 2; tp_count := 1 |})]
  /\ @negative_mentions Sample.platform (firstn 1 sample_inherited_rows) =
     [("constructor", 5)]
  /\ mostUrgentIssue
       (@aiInsights Sample.platform (firstn 1 sample_inherited_rows)) =
     None.
Proof. repeat split; vm_compute; reflexivity. Qed.

(** Where the themes are ASCII text, the most-urgent-issue insight looks
    at the negative records only: for each normalized theme they mention,
    the names of [Object.prototype] apart, it accumulates the sum of the
    priorities and the number of mentions.  It answers [null] when the
    negative records mention no such theme; otherwise it answers a theme
    whose quotient sum / count, computed in binary64, no other theme
    exceeds, and whose count is the highest among the themes of that
    quotient, with the quotient rounded to one decimal and the count.
    Priorities are those the table admits (1 to 5). *)
Theorem mostUrgentIssue_highest_quotient {P : Platform}
  (feedback : list Feedback) :
  (forall f, In f feedback -> 1 <= priority f <= 5) ->
  5 * Z.of_nat (List.length (negative_mentions feedback)) < 2 ^ 53 ->
  ascii_themes feedback ->
  let ms := negative_mentions feedback in
  let acc := negativeThemePriorities feedback in
  (forall t, Obj.get t acc =
             if Obj.inherited t then None else accumulated t ms)
  /\ ((forall m, In m ms -> Obj.inherited (fst m) = true) ->
      mostUrgentIssue (aiInsights feedback) = None)
  /\ ((exists m, In m ms /\ Obj.inherited (fst m) = false) ->
      exists theme data,
        Obj.get theme acc = Some data
        /\ mostUrgentIssue (aiInsights feedback) =
           Some {| ui_theme := theme;
                   ui_avgPriority :=
                     Num.div
                       (Num.Math_round
                          (Num.mul
                             (Num.div (Num.of_Z (tp_total data))
                                (Num.of_Z (tp_count data)))
                             (Num.of_Z 10)))
                       (Num.of_Z 10);
                   ui_count := tp_count data |}
        /\ forall t' d',
             Obj.get t' acc = Some d' ->
             Num.gt (quotient d') (quotient data) = false
             /\ (Num.strict_eq (quotient d') (quotient data) = true ->
                 tp_count d' <= tp_count data)).
Proof.
  intros Hprio Hbound _ ms acc. subst ms acc.
  rewrite negativeThemePriorities_accumulate, mostUrgentIssue_select.
  set (ms := negative_mentions feedback) in *.
  split; [intros t; apply accumulate_get|].
  assert (Hsound : forall e, In e (accumulate ms) ->
                     nonneg (average (snd e)) = true
                     /\ 1 <= tp_count (snd e)).
  { intros e He.
    pose proof (accumulate_sound ms e
                  (negative_mentions_priorities feedback Hprio) He) as Hs.
    split; [|apply Hs].
    apply (average_nonneg (Z.of_nat (List.length ms))); assumption. }
  pose proof (select_urgent_best _ Hsound) as Hbest.
  unfold best_so_far in Hbest.
  split.
  - intros Hall.
    assert (Hnil : accumulate ms = []).
    { destruct (accumulate ms) as [|[t d] l] eqn:E; [reflexivity|].
      exfalso.
      assert (Hget : Obj.get t (accumulate ms) = Some d).
      { apply In_get_NoDup; [apply NoDup_keys_accumulate|].
        rewrite E. now left. }
      rewrite accumulate_get in Hget.
      destruct (Obj.inherited t) eqn:Ht; [discriminate|].
      unfold accumulated in Hget.
      destruct (Z.eqb_spec (count_for t ms) 0) as [E0|E0]; [discriminate|].
      apply count_for_In in E0 as (p & Hin).
      specialize (Hall _ Hin). simpl in Hall. congruence. }
    rewrite Hnil. reflexivity.
  - intros ([t p] & Hin & Ht). simpl in Ht.
    destruct (fst (select_urgent (accumulate ms))) as [issue|].
    + destruct Hbest as ([theme data] & Hin' & -> & _ & Hlead).
      exists theme, data. split.
      * apply In_get_NoDup; [apply NoDup_keys_accumulate | exact Hin'].
      * split; [reflexivity|]. intros t' d' Hget.
        apply (Hlead (t', d')). now apply get_In.
    + destruct Hbest as [Hnil _]. exfalso.
      assert (Hget : Obj.get t (accumulate ms) <> None).
      { rewrite accumulate_get, Ht. unfold accumulated.
        destruct (Z.eqb_spec (count_for t ms) 0) as [E|E]; [|discriminate].
        exfalso. revert E. apply count_for_In. now exists p. }
      now rewrite Hnil in Hget.
Qed.

(** Negative rows mentioning [ui] (4, 4, 5) and [api] (3, 4): the answer
    is [ui], with 4.3 and 3 mentions. *)
Lemma mostUrgentIssue_highest_quotient_witness :
  exists theme data,
    Obj.get theme
      (@negativeThemePriorities Sample.platform sample_negative_rows) =
    Some data
    /\ forall t' d',
         Obj.get t'
           (@negativeThemePriorities Sample.platform sample_negative_rows) =
         Some d' ->
         Num.gt (quotient d') (quotient data) = false.
Proof.
  destruct (@mostUrgentIssue_highest_quotient Sample.platform
              sample_negative_rows)
    as (_ & _ & Hsel).
  - intros f [<- | [<- | [<- | [<- | [<- | []]]]]]; simpl; lia.
  - vm_compute. reflexivity.
  - intros f s Hf Hs.
    assert (Hall : forallb
                     (fun f => forallb is_ascii
                                 (@theme_strings Sample.platform f))
                     sample_negative_rows = true)
      by (vm_compute; reflexivity).
    rewrite forallb_forall in Hall. specialize (Hall f Hf).
    rewrite forallb_forall in Hall. now apply Hall.
  - destruct Hsel as (theme & data & Hget & _ & Hmax).
    + exists ("ui", 4). split; [|reflexivity]. vm_compute. tauto.
    + exists theme, data. split; [exact Hget|].
      intros t' d' H. exact (proj1 (Hmax t' d' H)).
Defined.

(* ================================================================= *)
(** ** Binary64 against exact arithmetic, on small integers *)

Lemma number_eqb_eq (x y : number) : number_eqb x y = true -> x = y.
Proof.
  destruct x as [a|a| |a m e], y as [b|b| |b m' e']; simpl;
    try discriminate; try reflexivity.
  - intros H. apply Bool.eqb_prop in H. now subst.
  - intros H. apply Bool.eqb_prop in H. now subst.
  - intros H. apply andb_true_iff in H as [H He].
    apply andb_true_iff in H as [Hs Hm].
    apply Bool.eqb_prop in Hs. apply Pos.eqb_eq in Hm. apply Z.eqb_eq in He.
    now subst.
Qed.

(** For up to 100 mentions the percentage the code computes is an integer
    nearest to [100 * count / total]: off by at most one half. *)
Lemma percentage_nearest_small (c t : Z) :
  1 <= c <= t -> t <= 100 ->
  exists p, percentage c t = Num.of_Z p /\ 2 * Z.abs (t * p - 100 * c) <= t.
Proof.
  intros Hc Ht.
  assert (Hall : forallb
                   (fun t => forallb
                               (fun c => nearest_pct (Z.of_nat c) (Z.of_nat t))
                               (seq 1 t))
                   (seq 1 100) = true) by (vm_compute; reflexivity).
  rewrite forallb_forall in Hall.
  specialize (Hall (Z.to_nat t) ltac:(apply in_seq; lia)).
  rewrite forallb_forall in Hall.
  specialize (Hall (Z.to_nat c) ltac:(apply in_seq; lia)).
  rewrite !Z2Nat.id in Hall by lia. unfold nearest_pct in Hall.
  pose proof (Z.mul_div_le (100 * c) t ltac:(lia)) as Hlo.
  pose proof (Z.mul_succ_div_gt (100 * c) t ltac:(lia)) as Hhi.
  apply orb_true_iff in Hall as [H | H];
    apply andb_true_iff in H as [Heq Hle];
    apply number_eqb_eq in Heq; apply Z.leb_le in Hle;
    eexists; (split; [exact Heq | lia]).
Qed.

(** For up to 200 matching rows and every admissible limit,
    [Math.ceil(total / limit)] evaluated on doubles is the integer ceiling
    the model of the listing computes. *)
Lemma ceil_binary64_small (total limit : Z) :
  0 <= total <= 200 -> 1 <= limit <= 100 ->
  Num.Math_ceil (Num.div (Num.of_Z total) (Num.of_Z limit)) =
  Num.of_Z (Num.ceil_div total limit).
Proof.
  intros Ht Hl.
  assert (Hall : forallb
                   (fun t => forallb
                               (fun l => ceil_agrees (Z.of_nat t) (Z.of_nat l))
                               (seq 1 100))
                   (seq 0 201) = true) by (vm_compute; reflexivity).
  rewrite forallb_forall in Hall.
  specialize (Hall (Z.to_nat total) ltac:(apply in_seq; lia)).
  rewrite forallb_forall in Hall.
  specialize (Hall (Z.to_nat limit) ltac:(apply in_seq; lia)).
  rewrite !Z2Nat.id in Hall by lia. now apply number_eqb_eq.
Qed.


(* ================================================================= *)
(** ** Instances of the supporting properties *)

(** Two themes that are not array indices, once each: first-encountered
    order. *)
Lemma topThemes_ties_plain_witness :
  (first_pos "ui"
     (@theme_scan Sample.platform
        [Sample.row 1 "negative" 3 ["ui"]; Sample.row 2 "negative" 4 ["api"]])
   < first_pos "api"
       (@theme_scan Sample.platform
          [Sample.row 1 "negative" 3 ["ui"];
           Sample.row 2 "negative" 4 ["api"]]))%nat.
Proof.
  apply (@topThemes_ties_plain Sample.platform
           [Sample.row 1 "negative" 3 ["ui"];
            Sample.row 2 "negative" 4 ["api"]]
           (@all_plain_themes Sample.platform
              [Sample.row 1 "negative" 3 ["ui"];
               Sample.row 2 "negative" 4 ["api"]]
              ltac:(vm_compute; reflexivity))
           ltac:(intros t [<- | [<- | []]]; reflexivity)
           0%nat 1%nat
           {| tc_theme := "ui"; tc_count := 1 |}
           {| tc_theme := "api"; tc_count := 1 |});
    [lia | reflexivity | reflexivity | reflexivity].
Defined.

(** The share of one row with the themes [a], [a] and [b]: three
    mentions. *)
Lemma themeDistribution_top5_witness :
  @totalThemeMentions Sample.platform sample_share_rows = 3.
Proof.
  exact (proj1 (proj2 (proj2
           (@themeDistribution_top5 Sample.platform sample_share_rows
              (@all_plain_themes Sample.platform sample_share_rows ltac:(vm_compute; reflexivity)))))).
Defined.

(** The second page of three rows, two a page. *)
Lemma pagination_numeric_witness :
  exists r,
    @handleGetFeedback Sample.platform sample_db 0 (sample_page 1) = Normal r
    /\ page (listing_pagination r) = Num.Int 2
    /\ limit (listing_pagination r) = Num.Int 2
    /\ total (listing_pagination r) = 3
    /\ hasPrev (listing_pagination r) = true.
Proof.
  eexists. split; [reflexivity|].
  destruct (@pagination_numeric Sample.platform sample_db 0 (sample_page 1)
              2 2 _ eq_refl eq_refl eq_refl eq_refl eq_refl eq_refl)
    as (Hp & Hl & _ & Ht & _ & Hprev).
  split; [exact Hp|]. split; [exact Hl|]. split; [exact Ht|].
  apply Hprev. reflexivity.
Defined.

(** Two mentions out of three are 67 percent. *)
Lemma percentage_nearest_small_witness :
  exists p, percentage 2 3 = Num.of_Z p /\ 2 * Z.abs (3 * p - 100 * 2) <= 3.
Proof. apply (percentage_nearest_small 2 3); lia. Defined.

(** Three rows, two a page: two pages. *)
Lemma ceil_binary64_small_witness :
  Num.Math_ceil (Num.div (Num.of_Z 3) (Num.of_Z 2)) = Num.of_Z 2.
Proof. apply (ceil_binary64_small 3 2); lia. Defined.
(* ################################################################# *)
(** * Further properties of the worker *)

(* ================================================================= *)
(** ** Trending topic *)

(** The loop over [Object.entries(recentThemeCounts)] keeps the first
    entry of the largest count. *)
Lemma trending_loop (es : list (string * Z)) :
  (forall e, In e es -> 0 < snd e) ->
  match Arr.forEach trending_step es (None, 0) with
  | (None, m) => es = [] /\ m = 0
  | (Some top, m) =>
      m = tt_count top /\ tt_recentMentions top = tt_count top
      /\ exists l1 l2,
           es = l1 ++ (tt_theme top, tt_count top) :: l2
           /\ (forall e, In e l1 -> snd e < tt_count top)
           /\ (forall e, In e l2 -> snd e <= tt_count top)
  end.
Proof.
  unfold Arr.forEach.
  induction es as [|e es IH] using rev_ind; intros Hpos.
  - simpl. split; reflexivity.
  - rewrite fold_left_app. simpl.
    assert (Hes : forall e', In e' es -> 0 < snd e')
      by (intros e' He'; apply Hpos, in_or_app; now left).
    specialize (IH Hes).
    assert (He : 0 < snd e) by (apply Hpos, in_or_app; right; now left).
    destruct (fold_left _ es (None, 0)) as [[top|] m]; destruct e as [t c];
      unfold trending_step; simpl in *.
    + destruct IH as (-> & Hrec & l1 & l2 & -> & H1 & H2).
      destruct (Z.gtb_spec c (tt_count top)) as [Hgt|Hle]; simpl.
      * split; [reflexivity|]. split; [reflexivity|].
        exists (l1 ++ (tt_theme top, tt_count top) :: l2), [].
        split; [reflexivity|]. split; [|intros ? []].
        intros e' He'. apply in_app_or in He' as [He'|[<-|He']]; simpl.
        -- specialize (H1 _ He'). lia.
        -- lia.
        -- specialize (H2 _ He'). lia.
      * split; [reflexivity|]. split; [assumption|].
        exists l1, (l2 ++ [(t, c)]).
        split; [now rewrite <- app_assoc|]. split; [assumption|].
        intros e' He'. apply in_app_or in He' as [He'|[<-|[]]]; simpl.
        -- now apply H2.
        -- lia.
    + destruct IH as [-> ->].
      destruct (Z.gtb_spec c 0) as [Hgt|Hle]; [|lia]. simpl.
      split; [reflexivity|]. split; [reflexivity|].
      exists [], []. split; [reflexivity|]. split; intros ? [].
Qed.

Lemma recentThemeCounts_fold {P : Platform} (feedback : list Feedback) :
  recentThemeCounts feedback =
  fold_left (fun o t => increment t o) (recent_scan feedback) Obj.empty.
Proof.
  unfold recentThemeCounts, recent_scan.
  rewrite (forEach_rows_fold increment), slice_prefix by lia. reflexivity.
Qed.

Lemma trendingTopic_calc {P : Platform} (feedback : list Feedback) :
  trendingTopic (aiInsights feedback) = calcTrendingTopic feedback.
Proof.
  unfold aiInsights. destruct feedback as [|f l]; [|reflexivity].
  reflexivity.
Qed.

(** Where the themes of the ten most recent rows are plain, the trending
    topic is the theme these rows mention most often; among the themes
    with that many mentions it is the one the counter object lists first;
    there is none exactly when these rows mention no theme. *)
Theorem trendingTopic_most_recent_mentions {P : Platform}
  (feedback : list Feedback) :
  plain_themes (firstn 10 feedback) ->
  let scan := recent_scan feedback in
  (trendingTopic (aiInsights feedback) = None <-> scan = [])
  /\ (forall top, trendingTopic (aiInsights feedback) = Some top ->
        In (tt_theme top) scan
        /\ tt_count top = occurrences (tt_theme top) scan
        /\ tt_recentMentions top = tt_count top
        /\ (forall t, occurrences t scan <= tt_count top)
        /\ (forall t, t <> tt_theme top ->
              occurrences t scan = tt_count top ->
              own_key_before scan (tt_theme top) t)).
Proof.
  intros _ scan. rewrite trendingTopic_calc. unfold calcTrendingTopic.
  rewrite recentThemeCounts_fold. fold scan. unfold Obj.entries.
  set (o := fold_left (fun o t => increment t o) scan Obj.empty).
  assert (Hget : forall t, Obj.get t o =
                   if occurrences t scan =? 0 then None
                   else Some (occurrences t scan))
    by (intros t; apply counter_get).
  destruct (counter_keys scan) as [Hkeys Hord]. fold o in Hkeys, Hord.
  pose proof (counter_keys_NoDup scan) as Hnd. fold o in Hnd.
  assert (Hentry : forall e, In e o ->
            In (fst e) scan /\ snd e = occurrences (fst e) scan
            /\ 0 < snd e).
  { intros [t c] He. simpl.
    apply (In_get_NoDup t c o Hnd) in He. rewrite Hget in He.
    destruct (Z.eqb_spec (occurrences t scan) 0) as [|Hne];
      [discriminate|].
    injection He as <-. pose proof (occurrences_nonneg t scan).
    split; [apply occurrences_pos_In; lia|]. split; [reflexivity | lia]. }
  pose proof (trending_loop o (fun e He => proj2 (proj2 (Hentry e He))))
    as Hloop.
  destruct (Arr.forEach trending_step o (None, 0)) as [[top|] m]; simpl.
  - destruct Hloop as (_ & Hrec & l1 & l2 & Ho & H1 & H2).
    assert (Hin : In (tt_theme top, tt_count top) o)
      by (rewrite Ho; apply in_or_app; right; now left).
    destruct (Hentry _ Hin) as (Hscan & Hcount & _). simpl in Hscan, Hcount.
    split.
    + split; [discriminate|]. intros Hnil. rewrite Hnil in Hscan.
      destruct Hscan.
    + intros top' [= <-].
      split; [assumption|]. split; [assumption|]. split; [assumption|].
      assert (Hall : forall t, In t scan ->
                In (t, occurrences t scan) o).
      { intros t Ht. apply get_In. rewrite Hget.
        apply occurrences_pos_In in Ht.
        destruct (Z.eqb_spec (occurrences t scan) 0); [lia | reflexivity]. }
      split.
      * intros t. destruct (in_dec string_dec t scan) as [Ht|Ht].
        -- specialize (Hall t Ht). rewrite Ho in Hall.
           apply in_app_or in Hall as [Hl|[Heq|Hl]].
           ++ specialize (H1 _ Hl). simpl in H1. lia.
           ++ injection Heq as _ <-. lia.
           ++ specialize (H2 _ Hl). simpl in H2. lia.
        -- assert (occurrences t scan = 0).
           { pose proof (occurrences_nonneg t scan).
             pose proof (proj1 (occurrences_pos_In t scan)). 
             destruct (Z.eq_dec (occurrences t scan) 0); [assumption|].
             exfalso. apply Ht. apply H0. lia. }
           destruct (Hentry _ Hin) as (_ & _ & Hpos). simpl in Hpos. lia.
      * intros t Hne Hocc.
        assert (Ht : In t scan).
        { apply occurrences_pos_In. rewrite Hocc.
          destruct (Hentry _ Hin) as (_ & _ & Hpos). exact Hpos. }
        specialize (Hall t Ht). rewrite Hocc, Ho in Hall.
        apply Hord. unfold Obj.keys. rewrite Ho.
        apply in_app_or in Hall as [Hl|[Heq|Hl]].
        -- specialize (H1 _ Hl). simpl in H1. lia.
        -- injection Heq as Heq. congruence.
        -- apply in_split in Hl as (l3 & l4 & ->).
           exists (map fst l1), (map fst l3), (map fst l4).
           rewrite map_app. simpl. rewrite map_app. reflexivity.
  - destruct Hloop as [Ho _]. split; [|intros top [=]].
    split; [|reflexivity]. intros _.
    destruct scan as [|t scan'] eqn:Hscan; [reflexivity|].
    assert (Hin : In t (Obj.keys o)) by (apply Hkeys; now left).
    rewrite Ho in Hin. destruct Hin.
Qed.

(** Of the negative rows of the example, [ui] is mentioned three times
    and is the trending topic. *)
Lemma trendingTopic_most_recent_mentions_witness :
  In "ui" (@recent_scan Sample.platform sample_negative_rows).
Proof.
  destruct (@trendingTopic_most_recent_mentions Sample.platform
              sample_negative_rows
              (@all_plain_themes Sample.platform
                 (firstn 10 sample_negative_rows)
                 ltac:(vm_compute; reflexivity)))
    as [_ Htop].
  exact (proj1 (Htop {| tt_theme := "ui"; tt_count := 3;
                        tt_recentMentions := 3 |}
                  ltac:(vm_compute; reflexivity))).
Defined.

(* ================================================================= *)
(** ** What a row contributes to the theme counters *)

(** A row adds to the theme counters the strings at the head of its
    [themes] array, in lower case and trimmed, the empty ones left out:
    nothing when the column is NULL, is not JSON or is not an array, and
    nothing from the first element on that is not a string.  Where the
    themes of the rows are plain, the counters of the aggregate insights
    and of the AI insights hold, for each theme that is not the name of a
    member of [Object.prototype], the number of these mentions over all
    rows. *)
Theorem theme_counters_count_leading_strings {P : Platform}
  (rows : list Feedback) (t : string) :
  plain_themes rows ->
  Obj.inherited t = false ->
  count_or_0 (Obj.get t (themeCounts rows)) =
    occurrences t
      (flat_map (fun f => normalized (theme_strings f)) rows)
  /\ count_or_0 (Obj.get t (allThemeCounts rows)) =
    occurrences t
      (flat_map (fun f => normalized (theme_strings f)) rows)
  /\ count_or_0 (Obj.get t (recentThemeCounts rows)) =
    occurrences t
      (flat_map (fun f => normalized (theme_strings f)) (firstn 10 rows)).
Proof.
  intros _ _.
  rewrite themeCounts_fold, allThemeCounts_fold, recentThemeCounts_fold.
  unfold recent_scan, theme_scan, scanned_themes. rewrite !counter_get.
  repeat split;
    match goal with
    | |- context [occurrences t ?l =? 0] =>
        destruct (Z.eqb_spec (occurrences t l) 0) as [->|]; reflexivity
    end.
Qed.

(** The row that holds [b] twice counts 2 for [b]. *)
Lemma theme_counters_count_leading_strings_witness :
  count_or_0
    (Obj.get "b" (@allThemeCounts Sample.platform sample_repeat_rows)) =
  occurrences "b" ["b"; "b"].
Proof.
  exact (proj1 (proj2
           (@theme_counters_count_leading_strings Sample.platform
              sample_repeat_rows "b"
              (@all_plain_themes Sample.platform sample_repeat_rows
                 ltac:(vm_compute; reflexivity))
              eq_refl))).
Defined.

(* ================================================================= *)
(** ** The date filter of the listing *)

Lemma compare_day_stamp (day day' rest time : string) :
  String.length day = String.length day' ->
  String.compare (day ++ "T" ++ rest) (day' ++ " " ++ time) =
  match String.compare day day' with Eq => Gt | c => c end.
Proof.
  revert day'. induction day as [|c day IH]; intros [|c' day'] Hlen;
    try discriminate.
  - reflexivity.
  - simpl in *. destruct (Ascii.compare c c'); try reflexivity.
    apply IH. now injection Hlen.
Qed.

Lemma leb_day_stamp (day day' rest time : string) :
  String.length day = String.length day' ->
  String.leb (day ++ "T" ++ rest) (day' ++ " " ++ time) =
  String.ltb day day'.
Proof.
  intros Hlen. unfold String.leb, String.ltb.
  rewrite compare_day_stamp by assumption.
  destruct (String.compare day day'); reflexivity.
Qed.

Lemma whereClause_dateRange {P : Platform} (now : Z) (q : searchParams) :
  whereClause now q =
  whereClause now (without_dateRange q)
  ++ match given (q_dateRange q) with
     | Some range =>
         match dateThreshold now range with
         | Some t => [CreatedAtGe (toISOString t)]
         | None => []
         end
     | None => []
     end.
Proof.
  unfold whereClause, without_dateRange. simpl.
  rewrite !app_assoc, app_nil_r. reflexivity.
Qed.

(** With a [dateRange] of [24h], [7d] or [30d], the listing compares the
    stamp [YYYY-MM-DD HH:MM:SS] that SQLite gave the row with the ISO
    string [YYYY-MM-DDTHH:MM:SS.sssZ] of the threshold, as text: a row
    passes the date filter exactly when its day is after the day of the
    threshold, whatever the times; no row stamped on the day of the
    threshold is listed.  Any other value of [dateRange] filters
    nothing. *)
Theorem dateRange_compares_days {P : Platform} (now : Z) (q : searchParams)
  (range : string) (f : Feedback) :
  given (q_dateRange q) = Some range ->
  (dateThreshold now range = None ->
     whereClause now q = whereClause now (without_dateRange q))
  /\ (forall t day day' rest time,
        dateThreshold now range = Some t ->
        toISOString t = (day ++ "T" ++ rest)%string ->
        created_at f = (day' ++ " " ++ time)%string ->
        String.length day = String.length day' ->
        Sql.where_ (whereClause now q) f =
        Sql.where_ (whereClause now (without_dateRange q)) f
        && String.ltb day day').
Proof.
  intros Hgiven. rewrite whereClause_dateRange, Hgiven. split.
  - intros ->. now rewrite app_nil_r.
  - intros t day day' rest time -> Hiso Hstamp Hlen.
    rewrite where_app. f_equal. unfold Sql.where_. simpl.
    rewrite Hiso, Hstamp, andb_true_r. now apply leb_day_stamp.
Qed.

(** A row stamped at noon of the day of the threshold, with the threshold
    at midnight, is left out. *)
Lemma dateRange_compares_days_witness :
  let q := {| q_source := None; q_sentiment := None; q_category := None;
              q_priority := None; q_dateRange := Some "24h";
              q_page := None; q_limit := None |} in
  let f := {| id := 1; source := "github"; content := "text";
              sentiment := "neutral"; category := "bug"; priority := 3;
              themes := None; created_at := "1970-01-01 12:00:00" |} in
  Sql.where_ (@whereClause Sample.platform 86400000 q) f = false.
Proof.
  intros q f.
  destruct (@dateRange_compares_days Sample.platform 86400000 q "24h" f
              eq_refl) as [_ H].
  rewrite (H 0 "1970-01-01" "1970-01-01" "00:00:00.000Z" "12:00:00"
             eq_refl eq_refl eq_refl eq_refl).
  reflexivity.
Defined.

(* ================================================================= *)
(** ** The size of a page *)

Lemma parse_rows_rows {P : Platform} (l : list Feedback)
  (items : list FeedbackItem) :
  parse_rows l = Normal items -> map item_row items = l.
Proof.
  revert items. induction l as [|f l IH]; simpl; intros items.
  - now intros [= <-].
  - destruct (parse_themes f) as [v|]; [|discriminate]. simpl.
    destruct (parse_rows l) as [rest|]; [|discriminate]. simpl.
    intros [= <-]. simpl. now rewrite (IH rest eq_refl).
Qed.

Lemma handleGetFeedback_answer {P : Platform} (db : list Feedback) (now : Z)
  (q : searchParams) (p lim : Z) (r : listing) :
  page_of q = Num.Int p -> limit_of q = Num.Int lim ->
  handleGetFeedback db now q = Normal r ->
  rows_of r =
    firstn (Z.to_nat lim)
      (skipn (Z.to_nat ((p - 1) * lim))
         (Sql.order_by_created_at_desc
            (filter (Sql.where_ (whereClause now q)) db)))
  /\ total (listing_pagination r) =
     Z.of_nat (List.length (filter (Sql.where_ (whereClause now q)) db))
  /\ hasNext (listing_pagination r) =
     (p <? Num.ceil_div (total (listing_pagination r)) lim)
  /\ hasPrev (listing_pagination r) = (1 <? p).
Proof.
  intros Hp Hl. unfold handleGetFeedback, dataQuery, offset_of.
  rewrite Hp, Hl. simpl.
  destruct (parse_rows _) as [items|] eqn:Hitems; simpl; [|discriminate].
  intros [= <-]. unfold rows_of. simpl.
  rewrite (parse_rows_rows _ _ Hitems). repeat split; reflexivity.
Qed.

(** A page holds [min(limit, max(0, total - offset))] rows; it is empty
    exactly when the offset reaches the total; and [hasNext] is true
    exactly when the following page, asked for with the same filters,
    holds a row. *)
Theorem listing_page_size {P : Platform} (db : list Feedback) (now : Z)
  (q : searchParams) (p lim : Z) (r : listing) :
  page_of q = Num.Int p -> limit_of q = Num.Int lim ->
  handleGetFeedback db now q = Normal r ->
  let n := total (listing_pagination r) in
  Z.of_nat (List.length (feedback r)) =
    Z.min lim (Z.max 0 (n - (p - 1) * lim))
  /\ (feedback r = [] <-> n <= (p - 1) * lim)
  /\ (hasNext (listing_pagination r) = true <-> p * lim < n)
  /\ (forall q' r',
        same_filters q q' -> page_of q' = Num.Int (p + 1) ->
        handleGetFeedback db now q' = Normal r' ->
        (hasNext (listing_pagination r) = true <-> feedback r' <> [])).
Proof.
  intros Hp Hl Hr n.
  pose proof (page_of_range q p Hp) as Hp1.
  pose proof (limit_of_range q lim Hl) as Hlim.
  destruct (handleGetFeedback_answer db now q p lim r Hp Hl Hr)
    as (Hrows & Htotal & Hnext & _).
  fold n in Htotal, Hnext.
  set (ordered := Sql.order_by_created_at_desc _) in Hrows.
  assert (Hlen : Z.of_nat (List.length ordered) = n).
  { unfold ordered, Sql.order_by_created_at_desc.
    rewrite stable_sort_length. now rewrite Htotal. }
  assert (Hsize : forall (k : Z) (l : list FeedbackItem),
            1 <= k ->
            map item_row l =
              firstn (Z.to_nat lim)
                (skipn (Z.to_nat ((k - 1) * lim)) ordered) ->
            Z.of_nat (List.length l) =
              Z.min lim (Z.max 0 (n - (k - 1) * lim))).
  { intros k l Hk Hmap.
    rewrite <- (length_map item_row), Hmap, length_firstn, length_skipn.
    nia. }
  assert (Hempty : forall l : list FeedbackItem,
            l = [] <-> Z.of_nat (List.length l) = 0).
  { intros l. destruct l; simpl; split; intros H;
      try reflexivity; try discriminate; lia. }
  assert (Hceil : p < Num.ceil_div n lim <-> p * lim < n).
  { pose proof (ceil_div_spec n lim ltac:(lia)). nia. }
  pose proof (Hsize p (feedback r) Hp1 Hrows) as Hsz.
  split; [exact Hsz|]. split; [rewrite Hempty, Hsz; lia|].
  split; [rewrite Hnext, Z.ltb_lt; exact Hceil|].
  intros q' r' Hsame Hp' Hr'.
  assert (Hl' : limit_of q' = Num.Int lim)
    by (now rewrite (limit_of_same_filters q q' Hsame)).
  destruct (handleGetFeedback_answer db now q' (p + 1) lim r' Hp' Hl' Hr')
    as (Hrows' & _).
  rewrite (whereClause_same_filters now q q' Hsame) in Hrows'.
  fold ordered in Hrows'.
  pose proof (Hsize (p + 1) (feedback r') ltac:(lia) Hrows') as Hsz'.
  replace (p + 1 - 1) with p in Hsz' by lia.
  rewrite Hnext, Z.ltb_lt, Hceil.
  split.
  - intros Hlt Hnil. apply Hempty in Hnil. lia.
  - intros Hne. destruct (Z.lt_ge_cases (p * lim) n) as [|Hge];
      [assumption|].
    exfalso. apply Hne, Hempty. lia.
Qed.

(** Page 2 of three rows, two a page: one row, nothing after it. *)
Lemma listing_page_size_witness :
  exists r,
    @handleGetFeedback Sample.platform sample_db 0 (sample_page 1) = Normal r
    /\ Z.of_nat (List.length (feedback r)) = 1
    /\ hasNext (listing_pagination r) = false.
Proof.
  eexists. split; [reflexivity|].
  destruct (@listing_page_size Sample.platform sample_db 0 (sample_page 1)
              2 2 _ eq_refl eq_refl eq_refl) as (Hsize & _ & Hnext & _).
  split; [exact Hsize|].
  destruct (hasNext _) eqn:E; [|reflexivity].
  pose proof (proj1 Hnext eq_refl) as Hlt. vm_compute in Hlt. discriminate.
Defined.

(* ================================================================= *)
(** ** The analysis always fits the table *)

Lemma digits2_pos_upper (p : positive) :
  Z.pos p < 2 ^ Z.pos (digits2_pos p).
Proof.
  induction p as [p IH|p IH|]; simpl digits2_pos;
    rewrite ?Pos2Z.inj_succ, ?Z.pow_succ_r by lia; lia.
Qed.

(** The exponent of a positive integer below [2^53]. *)
Lemma of_Z_pos_exponent (p : positive) :
  Z.pos p < 2 ^ 53 ->
  exists m,
    Num.of_Z (Z.pos p) = S754_finite false m (Z.pos (digits2_pos p) - 53).
Proof.
  intros Hlt. pose proof (digits2_pos_le_53 p Hlt) as Hd.
  unfold Num.of_Z, binary_normalize, binary_round.
  assert (Hfexp : fexp Num.prec Num.emax (Z.pos (digits2_pos p) + 0) =
                  Z.pos (digits2_pos p) - 53).
  { unfold fexp, emin, Num.prec, Num.emax. lia. }
  rewrite Hfexp. unfold shl_align.
  destruct (Z.pos (digits2_pos p) - 53 - 0) as [|k|k] eqn:Hk; try lia.
  - rewrite binary_round_aux_exact; [|lia|lia].
    exists p. f_equal. lia.
  - rewrite binary_round_aux_exact; [eauto | | lia].
    rewrite digits2_pos_iter_xO. lia.
Qed.

(** Rounding with the negative sign gives a negative zero, a negative
    finite number or minus infinity. *)
Lemma binary_round_aux_negative (m e : Z) (l : location) :
  0 <= m ->
  match binary_round_aux Num.prec Num.emax true m e l with
  | S754_zero true | S754_infinity true | S754_finite true _ _ => True
  | _ => False
  end.
Proof.
  intros H. unfold binary_round_aux.
  pose proof (shr_fexp_nonneg m e l H) as H1.
  destruct (shr_fexp Num.prec Num.emax m e l) as [mrs' e']. simpl in H1.
  pose proof (shr_fexp_nonneg _ e' loc_Exact
                (round_nearest_even_nonneg _ (loc_of_shr_record mrs') H1))
    as H2.
  destruct (shr_fexp Num.prec Num.emax _ e' loc_Exact) as [mrs'' e''].
  simpl in H2. destruct (shr_m mrs'') as [|p|p]; [exact I | | lia].
  destruct (e'' <=? _); exact I.
Qed.

Lemma clamp_negative (y : number) :
  match y with
  | S754_zero true | S754_infinity true | S754_finite true _ _ => True
  | _ => False
  end ->
  clamp_1_5 y = Num.of_Z 1.
Proof.
  destruct y as [[|]|[|]| |[|] m e]; intros []; reflexivity.
Qed.

(** Clamping an integer that is not zero. *)
Lemma clamp_of_Z (n : Z) :
  n <> 0 -> n < 2 ^ 53 ->
  clamp_1_5 (Num.of_Z n) = Num.of_Z (Z.min 5 (Z.max 1 n)).
Proof.
  intros Hne Hlt. destruct n as [|p|p]; [contradiction | |].
  - destruct (Z.le_gt_cases (Z.pos p) 7) as [Hsmall|Hbig].
    + assert (Hcases : Z.pos p = 1 \/ Z.pos p = 2 \/ Z.pos p = 3
                       \/ Z.pos p = 4 \/ Z.pos p = 5 \/ Z.pos p = 6
                       \/ Z.pos p = 7) by lia.
      destruct Hcases as [->|[->|[->|[->|[->|[->| ->]]]]]];
        vm_compute; reflexivity.
    + destruct (of_Z_pos_exponent p Hlt) as (m & ->).
      pose proof (digits2_pos_upper p) as Hup.
      assert (Hd : 4 <= Z.pos (digits2_pos p)).
      { destruct (Z.le_gt_cases 4 (Z.pos (digits2_pos p))) as [|Hd];
          [assumption|].
        assert (2 ^ Z.pos (digits2_pos p) <= 2 ^ 3)
          by (apply Z.pow_le_mono_r; lia).
        change (2 ^ 3) with 8 in *. lia. }
      replace (Z.min 5 (Z.max 1 (Z.pos p))) with 5 by lia.
      unfold clamp_1_5.
      change (Num.of_Z 1) with (S754_finite false 4503599627370496 (-52)).
      change (Num.of_Z 5) with (S754_finite false 5629499534213120 (-50)).
      unfold Num.Math_max, SFcompare.
      replace (-52 ?= Z.pos (digits2_pos p) - 53) with Lt
        by (symmetry; apply Z.compare_lt_iff; lia).
      unfold Num.Math_min, SFcompare.
      replace (-50 ?= Z.pos (digits2_pos p) - 53) with Lt
        by (symmetry; apply Z.compare_lt_iff; lia).
      reflexivity.
  - replace (Z.min 5 (Z.max 1 (Z.neg p))) with 1 by lia.
    apply clamp_negative. unfold Num.of_Z, binary_normalize, binary_round.
    destruct (shl_align p 0 _) as [mz ez].
    apply binary_round_aux_negative. lia.
Qed.

(** The mantissa of a binary64 number has at most 53 digits. *)
Lemma binary64_mantissa (s : bool) (m : positive) (e : Z) :
  binary64 (S754_finite s m e) = true -> Z.pos m < 2 ^ 53.
Proof.
  unfold binary64, valid_binary, bounded, canonical_mantissa, fexp, emin.
  intros H. apply andb_true_iff in H as [H _]. apply Z.eqb_eq in H.
  pose proof (digits2_pos_upper m) as Hup.
  assert (Z.pos (digits2_pos m) <= 53) by (unfold Num.prec in H; lia).
  assert (2 ^ Z.pos (digits2_pos m) <= 2 ^ 53)
    by (apply Z.pow_le_mono_r; lia).
  lia.
Qed.

(** Rounding and clamping a binary64 number whose rounding is truthy
    gives one of the integers 1 to 5. *)
Lemma clamp_round (x : number) :
  binary64 x = true -> Num.truthy (Num.Math_round x) = true ->
  exists z, 1 <= z <= 5 /\ clamp_1_5 (Num.Math_round x) = Num.of_Z z.
Proof.
  intros Hvalid Htruthy.
  destruct x as [s|[|]| |s m e]; try discriminate.
  - exists 1. split; [lia | reflexivity].
  - exists 5. split; [lia | reflexivity].
  - unfold Num.Math_round in *.
    destruct (Z.leb_spec 0 e) as [He|He].
    + destruct s.
      * exists 1. split; [lia | reflexivity].
      * exists 5. split; [lia|]. unfold clamp_1_5.
        change (Num.of_Z 1) with (S754_finite false 4503599627370496 (-52)).
        change (Num.of_Z 5) with (S754_finite false 5629499534213120 (-50)).
        unfold Num.Math_max, SFcompare.
        replace (-52 ?= e) with Lt
          by (symmetry; apply Z.compare_lt_iff; lia).
        unfold Num.Math_min, SFcompare.
        replace (-50 ?= e) with Lt
          by (symmetry; apply Z.compare_lt_iff; lia).
        reflexivity.
    + pose proof (binary64_mantissa s m e Hvalid) as Hm.
      set (d := 2 ^ (- e)) in *.
      assert (Hd : 2 <= d).
      { unfold d. change 2 with (2 ^ 1) at 1.
        apply Z.pow_le_mono_r; lia. }
      set (sm := Num.signed_mantissa s m) in *.
      assert (Hsm : sm < 2 ^ 53) by (unfold sm; destruct s; simpl; lia).
      set (n := (2 * sm + d) / (2 * d)) in *.
      assert (Hn : n < 2 ^ 53).
      { pose proof (Z.mul_div_le (2 * sm + d) (2 * d) ltac:(lia)) as Hq.
        fold n in Hq. nia. }
      destruct (Z.eqb_spec n 0) as [Hz|Hz]; [destruct s; discriminate|].
      exists (Z.min 5 (Z.max 1 n)). split; [lia|].
      now apply clamp_of_Z.
Qed.

Lemma integer_value_1_5 (z : Z) :
  1 <= z <= 5 -> integer_value (Num.of_Z z) = Some z.
Proof.
  intros H.
  assert (Hcases : z = 1 \/ z = 2 \/ z = 3 \/ z = 4 \/ z = 5) by lia.
  destruct Hcases as [->|[->|[->|[->| ->]]]]; reflexivity.
Qed.

Lemma one_of_In (allowed : list string) (fallback : string)
  (v : option json) :
  In fallback allowed -> In (one_of allowed fallback v) allowed.
Proof.
  intros Hin. unfold one_of. destruct v as [[]|]; try assumption.
  destruct (existsb _ allowed) eqn:E; [|assumption].
  apply existsb_exists in E as (x & Hx & Heq).
  apply String.eqb_eq in Heq. now subst.
Qed.

(** The analysis is the default one or the sanitized value of a text that
    [JSON.parse] accepted. *)
Lemma analyzeFeedback_parsed {P : Platform} (ai : Ai) (text : string) :
  analyzeFeedback ai text = default_analysis
  \/ exists span v,
       JSON_parse span = Some v /\ analyzeFeedback ai text = sanitize v.
Proof.
  unfold analyzeFeedback, analyzeFeedback_try.
  destruct (ai (prompt text)) as [|[answer|]]; simpl; try (now left).
  destruct (match_json_span answer) as [span|]; simpl; [|now left].
  destruct (JSON_parse span) as [v|] eqn:Hparse; simpl; [|now left].
  destruct v; simpl; try (now left); right; eauto.
Qed.

Lemma analyzeFeedback_fits {P : Platform} (ai : Ai) (text : string) :
  priorities_binary64 P -> analysis_fits (analyzeFeedback ai text).
Proof.
  intros Hnum.
  destruct (analyzeFeedback_parsed ai text) as [->|(span & v & Hparse & ->)].
  - unfold analysis_fits. simpl. split; [tauto|]. split; [tauto|].
    exists 3. repeat split; lia.
  - unfold analysis_fits, sanitize.
    cbn [fa_sentiment fa_category fa_priority].
    split; [apply one_of_In; simpl; tauto|].
    split; [apply one_of_In; simpl; tauto|].
    rewrite sanitize_priority_cases.
    destruct (Num.truthy _) eqn:Htruthy.
    + destruct (clamp_round _ (Hnum span v Hparse) Htruthy)
        as (z & Hz & ->).
      exists z. split; [assumption|]. split; [reflexivity|].
      now apply integer_value_1_5.
    + exists 3. repeat split; lia.
Qed.

Lemma sample_priorities_binary64 : priorities_binary64 Sample.platform.
Proof.
  intros span v Hparse. apply get_In in Hparse.
  repeat (destruct Hparse as [Heq|Hparse];
          [injection Heq as _ <-; reflexivity|]).
  destruct Hparse.
Qed.

(** Whatever the classifier answers, the analysis holds a sentiment and a
    category of the schema and a priority that is one of the integers 1 to
    5: the row built from it passes the CHECK constraints of the table. *)
Theorem analyzeFeedback_passes_checks {P : Platform} (ai : Ai)
  (text : string) :
  priorities_binary64 P ->
  let a := analyzeFeedback ai text in
  In (fa_sentiment a) ["positive"; "negative"; "neutral"]
  /\ In (fa_category a) ["bug"; "feature"; "praise"; "complaint"]
  /\ exists z,
       1 <= z <= 5 /\ fa_priority a = Num.of_Z z
       /\ integer_value (fa_priority a) = Some z.
Proof. intros Hnum. exact (analyzeFeedback_fits ai text Hnum). Qed.

(** A priority of 9 is stored as 5. *)
Lemma analyzeFeedback_passes_checks_witness :
  exists z,
    1 <= z <= 5
    /\ fa_priority
         (@analyzeFeedback Sample.platform
            (Sample.ai_says (Sample.json_of_field "priority" "9")) "slow") =
       Num.of_Z z
    /\ z = 5.
Proof.
  destruct (@analyzeFeedback_passes_checks Sample.platform
              (Sample.ai_says (Sample.json_of_field "priority" "9")) "slow"
              sample_priorities_binary64)
    as (_ & _ & z & Hz & Hprio & Hint).
  exists z. split; [exact Hz|]. split; [exact Hprio|].
  vm_compute in Hint. now injection Hint.
Defined.

(* ================================================================= *)
(** ** POST /api/feedback *)

Lemma includes_In (l : list string) (v : option json) :
  includes l v = true <-> exists s, v = Some (JStr s) /\ In s l.
Proof.
  unfold includes. split.
  - destruct v as [[]|]; try discriminate. intros H.
    apply existsb_exists in H as (x & Hx & Heq).
    apply String.eqb_eq in Heq. subst. eauto.
  - intros (s & -> & Hin). apply existsb_exists. exists s.
    split; [assumption | apply String.eqb_refl].
Qed.

Lemma member_get_prop (v : json) (k : string) :
  v <> JNull -> member v k = Normal (get_prop v k).
Proof. destruct v; intros H; try reflexivity. contradiction. Qed.

(** A body that is not JSON, or is [null], gives 500; a [content] that is
    missing, empty or not a string gives 400, and so does a [source] that
    is not one of the four of the schema.  Nothing is stored in any of
    these cases, and the classifier has no part in the answer. *)
Theorem handlePostFeedback_rejects {P : Platform} {R : Runtime}
  (request : Request) (env : Env) (now : Z) :
  (JSON_parse (body_text request) = None
   \/ JSON_parse (body_text request) = Some JNull ->
   handlePostFeedback request env now =
   (json_response 500 (ErrorJson "Failed to create feedback"), DB env))
  /\ (forall v,
        JSON_parse (body_text request) = Some v -> v <> JNull ->
        (forall text, get_prop v "content" = Some (JStr text) ->
                      text = EmptyString) ->
        handlePostFeedback request env now =
        (json_response 400 (ErrorJson "content is required"), DB env))
  /\ (forall v text,
        JSON_parse (body_text request) = Some v ->
        get_prop v "content" = Some (JStr text) -> text <> EmptyString ->
        (forall src, get_prop v "source" = Some (JStr src) ->
                     ~ In src validSources) ->
        handlePostFeedback request env now =
        (json_response 400
           (ErrorJson
              "source must be one of: twitter, discord, github, support"),
         DB env)).
Proof.
  unfold handlePostFeedback, request_json. repeat split.
  - intros [-> | ->]; reflexivity.
  - intros v -> Hv Hcontent. simpl.
    rewrite (member_get_prop v "content" Hv). simpl.
    destruct (get_prop v "content") as [[| | |text| |]|] eqn:E;
      try reflexivity;
      try (cbn [is_string negb]; rewrite orb_true_r; reflexivity).
    rewrite (Hcontent text eq_refl). reflexivity.
  - intros v text -> Hcontent Htext Hsource. simpl.
    assert (Hv : v <> JNull) by (intros ->; discriminate).
    rewrite (member_get_prop v "content" Hv), Hcontent. simpl.
    replace (Str.truthy text) with true
      by (destruct text; [contradiction | reflexivity]).
    simpl. rewrite (member_get_prop v "source" Hv). simpl.
    destruct (includes validSources (get_prop v "source")) eqn:E.
    + apply includes_In in E as (src & Hsrc & Hin).
      destruct (Hsource src Hsrc Hin).
    + rewrite orb_true_r. reflexivity.
Qed.

(** A body that is [null], a body without [content], and a body whose
    source is [email]. *)
Lemma handlePostFeedback_rejects_witness :
  map (fun text =>
         status
           (fst (@handlePostFeedback Demo.platform Demo.runtime
                   (Demo.request "POST" "/api/feedback" text)
                   (Demo.env (Sample.ai_says Demo.answer_text)) 0)))
    ["null"; Demo.post_without_content; Demo.post_unknown_source] =
  [500; 400; 400].
Proof.
  destruct (@handlePostFeedback_rejects Demo.platform Demo.runtime
              (Demo.request "POST" "/api/feedback" "null")
              (Demo.env (Sample.ai_says Demo.answer_text)) 0)
    as (Hnull & _ & _).
  destruct (@handlePostFeedback_rejects Demo.platform Demo.runtime
              (Demo.request "POST" "/api/feedback"
                 Demo.post_without_content)
              (Demo.env (Sample.ai_says Demo.answer_text)) 0)
    as (_ & Hcontent & _).
  destruct (@handlePostFeedback_rejects Demo.platform Demo.runtime
              (Demo.request "POST" "/api/feedback"
                 Demo.post_unknown_source)
              (Demo.env (Sample.ai_says Demo.answer_text)) 0)
    as (_ & _ & Hsource).
  cbn [map].
  rewrite (Hnull (or_intror eq_refl)).
  rewrite (Hcontent (JObj [("source", JStr "github")]) eq_refl
             ltac:(discriminate) ltac:(intros text; discriminate)).
  rewrite (Hsource (JObj [("source", JStr "email");
                          ("content", JStr "slow")]) "slow" eq_refl eq_refl
             ltac:(discriminate)
             ltac:(intros src [= <-]; simpl; intuition discriminate)).
  reflexivity.
Defined.

Lemma fold_max_ge (l : list Z) (a : Z) :
  a <= fold_left Z.max l a /\ forall x, In x l -> x <= fold_left Z.max l a.
Proof.
  revert a. induction l as [|y l IH]; intros a; simpl.
  - split; [lia | intros x []].
  - destruct (IH (Z.max a y)) as [Ha Hl]. split; [lia|].
    intros x [<-|Hx]; [lia | now apply Hl].
Qed.

Lemma next_id_fresh (db : database) :
  sequence db < Table.next_id db
  /\ forall x, In x (ids db) -> x < Table.next_id db.
Proof.
  unfold Table.next_id, ids, rows. rewrite map_map.
  destruct (fold_max_ge (map (fun r => id (columns r)) (table db))
              (sequence db)) as [Ha Hl].
  split; [lia|]. intros x Hx. specialize (Hl x Hx). lia.
Qed.

(** The row [INSERT] builds for a request and an analysis. *)
Lemma insert_fits {R : Runtime} (db : database) (now : Z)
  (src text : string) (a : FeedbackAnalysis) (th : string) :
  In src validSources -> analysis_fits a ->
  exists z r,
    1 <= z <= 5 /\ fa_priority a = Num.of_Z z
    /\ r = {| columns :=
                {| id := Table.next_id db; source := src; content := text;
                   sentiment := fa_sentiment a; category := fa_category a;
                   priority := z; themes := Some th;
                   created_at := datetime now |};
              addressed := 0; addressed_at := None |}
    /\ Table.check (columns r) = true
    /\ Table.insert db now src text (fa_sentiment a) (fa_category a)
         (fa_priority a) th =
       Normal ({| table := table db ++ [r];
                  sequence := Table.next_id db |}, r).
Proof.
  intros Hsrc (Hsent & Hcat & z & Hz & Hprio & Hint).
  eexists z, _. split; [assumption|]. split; [assumption|].
  split; [reflexivity|].
  assert (Hcheck : Table.check
            {| id := Table.next_id db; source := src; content := text;
               sentiment := fa_sentiment a; category := fa_category a;
               priority := z; themes := Some th;
               created_at := datetime now |} = true).
  { unfold Table.check. cbn [source sentiment category priority].
    repeat (apply andb_true_iff; split);
      try (apply existsb_exists; eexists;
           split; [eassumption | apply String.eqb_refl]);
      apply Z.leb_le; lia. }
  split; [exact Hcheck|].
  unfold Table.insert. rewrite Hint, Hcheck. reflexivity.
Qed.

(** What an accepted request stores and answers. *)
Lemma post_stores {P : Platform} {R : Runtime}
  (request : Request) (env : Env) (now : Z) (v : json) (src text : string) :
  priorities_binary64 P ->
  JSON_parse (body_text request) = Some v ->
  get_prop v "content" = Some (JStr text) -> text <> EmptyString ->
  get_prop v "source" = Some (JStr src) -> In src validSources ->
  let a := analyzeFeedback (AI env) text in
  JSON_parse (JSON_stringify (fa_themes a)) =
    Some (JArr (map JStr (fa_themes a))) ->
  exists z r,
    handlePostFeedback request env now =
    (json_response 201
       (FeedbackJson
          {| stored := r; stored_themes := JArr (map JStr (fa_themes a)) |}),
     {| table := table (DB env) ++ [r];
        sequence := Table.next_id (DB env) |})
    /\ r = {| columns :=
                {| id := Table.next_id (DB env); source := src;
                   content := text; sentiment := fa_sentiment a;
                   category := fa_category a; priority := z;
                   themes := Some (JSON_stringify (fa_themes a));
                   created_at := datetime now |};
              addressed := 0; addressed_at := None |}
    /\ 1 <= z <= 5 /\ fa_priority a = Num.of_Z z
    /\ Table.check (columns r) = true
    /\ (forall x, In x (ids (DB env)) -> x < id (columns r)).
Proof.
  intros Hnum Hparse Hcontent Htext Hsource Hsrc a Hround.
  assert (Hv : v <> JNull) by (intros ->; discriminate).
  destruct (insert_fits (DB env) now src text a
              (JSON_stringify (fa_themes a)) Hsrc
              (analyzeFeedback_fits (AI env) text Hnum))
    as (z & r & Hz & Hprio & Hr & Hcheck & Hinsert).
  exists z, r.
  split; [|split; [exact Hr|]; split; [exact Hz|]; split; [exact Hprio|];
           split; [exact Hcheck|]].
  - assert (Htt : Str.truthy text = true)
      by (destruct text; [contradiction | reflexivity]).
    assert (Hts : Str.truthy src = true)
      by (destruct Hsrc as [<-|[<-|[<-|[<-|[]]]]]; reflexivity).
    assert (Hinc : existsb (String.eqb src) validSources = true).
    { apply existsb_exists. exists src.
      split; [assumption | apply String.eqb_refl]. }
    unfold handlePostFeedback, request_json. rewrite Hparse.
    cbn [bind]. rewrite (member_get_prop v "content" Hv), Hcontent.
    cbn [bind json_truthy is_string]. rewrite Htt. cbn [negb orb].
    rewrite (member_get_prop v "source" Hv), Hsource.
    cbn [bind json_truthy is_string includes]. rewrite Hts, Hinc.
    cbn [negb orb]. fold a. rewrite Hinsert.
    unfold with_parsed_themes, parse_themes. rewrite Hr.
    cbn [columns themes]. rewrite Hround. reflexivity.
  - intros x Hx. rewrite Hr. simpl. now apply next_id_fresh.
Qed.

(** A body with a non-empty string [content] and a [source] of the schema
    is always stored, whatever the classifier does: the answer is 201, the
    table gains exactly one row, with a fresh id, the source and the
    content of the request, the sanitized analysis and the defaults of
    the schema, and that row passes the CHECK constraints. *)
Theorem handlePostFeedback_stores {P : Platform} {R : Runtime}
  (request : Request) (env : Env) (now : Z) (v : json) (src text : string) :
  priorities_binary64 P ->
  JSON_parse (body_text request) = Some v ->
  get_prop v "content" = Some (JStr text) -> text <> EmptyString ->
  get_prop v "source" = Some (JStr src) -> In src validSources ->
  let a := analyzeFeedback (AI env) text in
  JSON_parse (JSON_stringify (fa_themes a)) =
    Some (JArr (map JStr (fa_themes a))) ->
  exists z r,
    handlePostFeedback request env now =
    (json_response 201
       (FeedbackJson
          {| stored := r; stored_themes := JArr (map JStr (fa_themes a)) |}),
     {| table := table (DB env) ++ [r];
        sequence := Table.next_id (DB env) |})
    /\ r = {| columns :=
                {| id := Table.next_id (DB env); source := src;
                   content := text; sentiment := fa_sentiment a;
                   category := fa_category a; priority := z;
                   themes := Some (JSON_stringify (fa_themes a));
                   created_at := datetime now |};
              addressed := 0; addressed_at := None |}
    /\ 1 <= z <= 5 /\ fa_priority a = Num.of_Z z
    /\ Table.check (columns r) = true
    /\ (forall x, In x (ids (DB env)) -> x < id (columns r)).
Proof.
  intros Hnum Hparse Hcontent Htext Hsource Hsrc a Hround.
  exact (post_stores request env now v src text Hnum Hparse Hcontent Htext
           Hsource Hsrc Hround).
Qed.

Lemma demo_priorities_binary64 : priorities_binary64 Demo.platform.
Proof.
  intros span v Hparse. apply get_In in Hparse.
  repeat (destruct Hparse as [Heq|Hparse];
          [injection Heq as _ <-; reflexivity|]).
  destruct Hparse.
Qed.

(** The classifier answers with priority 9 and the theme [" UI "]: the
    row is stored with priority 5 and the theme [ui], under the id 3. *)
Lemma handlePostFeedback_stores_witness :
  exists r,
    fst (@handlePostFeedback Demo.platform Demo.runtime
           (Demo.request "POST" "/api/feedback" Demo.post_text)
           (Demo.env (Sample.ai_says Demo.answer_text)) 0) =
    json_response 201
      (FeedbackJson {| stored := r; stored_themes := JArr [JStr "ui"] |})
    /\ id (columns r) = 3 /\ priority (columns r) = 5
    /\ Table.check (columns r) = true.
Proof.
  destruct (@handlePostFeedback_stores Demo.platform Demo.runtime
              (Demo.request "POST" "/api/feedback" Demo.post_text)
              (Demo.env (Sample.ai_says Demo.answer_text)) 0
              (JObj [("source", JStr "github"); ("content", JStr "slow")])
              "github" "slow" demo_priorities_binary64 eq_refl eq_refl
              ltac:(discriminate) eq_refl ltac:(simpl; tauto) eq_refl)
    as (z & r & Hpost & Hr & Hz & Hprio & Hcheck & _).
  exists r. rewrite Hpost. split; [reflexivity|].
  split; [rewrite Hr; reflexivity|]. split; [|exact Hcheck].
  rewrite Hr. cbn [columns priority].
  pose proof (integer_value_1_5 z Hz) as Hint. rewrite <- Hprio in Hint.
  vm_compute in Hint. now injection Hint.
Defined.

(* ================================================================= *)
(** ** Ids in paths *)

Lemma is_digit_cases (c : ascii) :
  Str.is_digit c = true ->
  c = "0"%char \/ c = "1"%char \/ c = "2"%char \/ c = "3"%char
  \/ c = "4"%char \/ c = "5"%char \/ c = "6"%char \/ c = "7"%char
  \/ c = "8"%char \/ c = "9"%char.
Proof.
  destruct c as [[] [] [] [] [] [] [] []]; intros H;
    try discriminate H; tauto.
Qed.

Lemma radix_digit_digit (c : ascii) :
  Str.is_digit c = true ->
  Str.radix_digit 10 c = Some (Str.digit_value c)
  /\ 0 <= Str.digit_value c <= 9.
Proof.
  intros H. unfold Str.radix_digit. rewrite H. simpl. split; [reflexivity|].
  apply is_digit_cases in H.
  repeat (destruct H as [->|H]; [vm_compute; split; discriminate|]).
  subst. vm_compute. split; discriminate.
Qed.

Lemma read_digits_all (s : string) (acc : Z) (seen : bool) :
  all_digits s = true -> s <> EmptyString \/ seen = true ->
  Str.read_digits 10 s acc seen = Some (decimal_value s acc).
Proof.
  revert acc seen. induction s as [|c r IH]; intros acc seen Hall Hne.
  - destruct Hne as [Hne| ->]; [contradiction | reflexivity].
  - simpl in Hall. apply andb_true_iff in Hall as [Hc Hr]. simpl.
    destruct (radix_digit_digit c Hc) as [-> _].
    apply IH; [assumption | now right].
Qed.

Lemma decimal_value_nonneg (s : string) (acc : Z) :
  all_digits s = true -> 0 <= acc -> 0 <= decimal_value s acc.
Proof.
  revert acc. induction s as [|c r IH]; intros acc Hall Hacc; [assumption|].
  simpl in Hall. apply andb_true_iff in Hall as [Hc Hr]. simpl.
  destruct (radix_digit_digit c Hc) as [_ Hd]. apply IH; [assumption | lia].
Qed.

(** [parseInt] on a string of digits never gives [NaN]: it gives the
    decimal value. *)
Lemma parseInt_digits (s : string) :
  all_digits s = true -> s <> EmptyString ->
  Str.parseInt s = Num.Int (decimal_value s 0).
Proof.
  intros Hall Hne. destruct s as [|c r]; [contradiction|].
  pose proof (read_digits_all (String c r) 0 false Hall (or_introl Hne))
    as Hread.
  simpl in Hall. apply andb_true_iff in Hall as [Hc Hr].
  apply is_digit_cases in Hc.
  assert (Hhex : Str.strip_hex_prefix (String c r) = None).
  { destruct r as [|x r']; [now destruct c as [[] [] [] [] [] [] [] []]|].
    simpl in Hr. apply andb_true_iff in Hr as [Hx _].
    apply is_digit_cases in Hx.
    repeat (destruct Hc as [->|Hc]; [|try reflexivity]);
      try subst c; try reflexivity;
      repeat (destruct Hx as [->|Hx]; [reflexivity|]); subst; reflexivity. }
  unfold Str.parseInt.
  repeat (destruct Hc as [->|Hc];
          [simpl Str.trimStart; cbv beta iota zeta;
           rewrite Hhex, Hread; reflexivity|]).
  subst c. simpl Str.trimStart. cbv beta iota zeta.
  rewrite Hhex, Hread. reflexivity.
Qed.

Lemma feedbackIdMatch_digits (digits : string) :
  digits <> EmptyString -> all_digits digits = true ->
  feedbackIdMatch ("/api/feedback/" ++ digits) = Some digits.
Proof.
  intros Hne Hall. unfold feedbackIdMatch, startsWith. simpl.
  replace (match digits with "" => true | String _ _ => true end)
    with true by (now destruct digits).
  unfold Str.truthy. rewrite Hall.
  destruct digits; [contradiction | reflexivity].
Qed.

Lemma find_id_none (db : database) (n : Z) :
  ~ In n (ids db) ->
  find (fun r => id (columns r) =? n) (table db) = None.
Proof.
  unfold ids, rows. rewrite map_map.
  induction (table db) as [|r l IH]; [reflexivity|]. simpl. intros Hn.
  destruct (Z.eqb_spec (id (columns r)) n) as [E|_]; [tauto|].
  apply IH. tauto.
Qed.

Lemma find_id_some (db : database) (r : StoredFeedback) :
  NoDup (ids db) -> In r (table db) ->
  find (fun x => id (columns x) =? id (columns r)) (table db) = Some r.
Proof.
  unfold ids, rows. rewrite map_map.
  induction (table db) as [|x l IH]; intros Hnd Hin; [destruct Hin|].
  simpl in *. inversion Hnd as [|? ? Hx Hl]; subst.
  destruct Hin as [->|Hin].
  - now rewrite Z.eqb_refl.
  - destruct (Z.eqb_spec (id (columns x)) (id (columns r))) as [E|_].
    + exfalso. apply Hx. rewrite E.
      apply (in_map (fun r => id (columns r))). exact Hin.
    + now apply IH.
Qed.

(** The router hands [GET /api/feedback/<digits>] to
    [handleGetFeedbackById] and changes nothing. *)
Lemma fetch_item_get {P : Platform} {R : Runtime} (request : Request)
  (env : Env) (now : Z) (digits : string) :
  method request = "GET" ->
  pathname request = ("/api/feedback/" ++ digits)%string ->
  digits <> EmptyString -> all_digits digits = true ->
  fetch request env now =
  (addCorsHeaders (handleGetFeedbackById digits env) corsHeaders, DB env).
Proof.
  intros Hm Hp Hne Hall. unfold fetch. rewrite Hm, Hp.
  rewrite feedbackIdMatch_digits by assumption. reflexivity.
Qed.

Lemma getFeedbackById_cases {P : Platform} (id_text : string) (env : Env)
  (n : Z) :
  Str.parseInt id_text = Num.Int n ->
  handleGetFeedbackById id_text env =
  match find (fun r => id (columns r) =? n) (table (DB env)) with
  | None => json_response 404 (ErrorJson "Feedback not found")
  | Some r =>
      match parse_themes (columns r) with
      | Normal v =>
          json_response 200
            (FeedbackJson {| stored := r; stored_themes := v |})
      | Throw _ => json_response 500 (ErrorJson "Failed to fetch feedback")
      end
  end.
Proof.
  intros Hn. unfold handleGetFeedbackById, Table.first_by_id. rewrite Hn.
  destruct (find _ _) as [r|]; [|reflexivity].
  unfold with_parsed_themes. destruct (parse_themes (columns r));
    reflexivity.
Qed.

(** [GET /api/feedback/<digits>] never looks up [NaN]: it answers for the
    decimal value of the digits (below [2^53], where [parseInt] is
    exact), leading zeros or not, with the row of
    that id (200), with 404 when no row has it, with 500 when the row's
    [themes] are not JSON; the table stays as it is. *)
Theorem item_route_looks_up_decimal_value {P : Platform} {R : Runtime}
  (request : Request) (env : Env) (now : Z) (digits : string) :
  method request = "GET" ->
  pathname request = ("/api/feedback/" ++ digits)%string ->
  digits <> EmptyString -> all_digits digits = true ->
  decimal_value digits 0 < 2 ^ 53 ->
  let n := decimal_value digits 0 in
  let response := fst (fetch request env now) in
  snd (fetch request env now) = DB env
  /\ Str.parseInt digits = Num.Int n
  /\ (~ In n (ids (DB env)) ->
      status response = 404
      /\ body response = ErrorJson "Feedback not found")
  /\ (forall r,
        NoDup (ids (DB env)) -> In r (table (DB env)) ->
        id (columns r) = n ->
        match parse_themes (columns r) with
        | Normal v =>
            status response = 200
            /\ body response =
               FeedbackJson {| stored := r; stored_themes := v |}
        | Throw _ =>
            status response = 500
            /\ body response = ErrorJson "Failed to fetch feedback"
        end).
Proof.
  intros Hm Hp Hne Hall _ n response. unfold response.
  rewrite (fetch_item_get request env now digits Hm Hp Hne Hall).
  pose proof (parseInt_digits digits Hall Hne) as Hparse. fold n in Hparse.
  rewrite (getFeedbackById_cases digits env n Hparse).
  cbn [fst snd]. split; [reflexivity|]. split; [exact Hparse|]. split.
  - intros Hnone. rewrite (find_id_none _ _ Hnone). split; reflexivity.
  - intros r Hnd Hin Hid. rewrite <- Hid, (find_id_some _ r Hnd Hin).
    destruct (parse_themes (columns r)); split; reflexivity.
Qed.

(** Row 2 of the example table, asked for as [002]. *)
Lemma item_route_looks_up_decimal_value_witness :
  Str.parseInt "002" = Num.Int 2
  /\ status
       (fst (@fetch Demo.platform Demo.runtime
               (item_request "GET" "002" "") (Demo.env (fun _ => AiRejects))
               0)) = 200.
Proof.
  destruct (@item_route_looks_up_decimal_value Demo.platform Demo.runtime
              (item_request "GET" "002" "") (Demo.env (fun _ => AiRejects))
              0 "002" eq_refl eq_refl ltac:(discriminate) eq_refl eq_refl)
    as (_ & Hparse & _ & Hrow).
  split; [exact Hparse|].
  refine (proj1 (Hrow {| columns := Sample.row 2 "positive" 2 ["api"];
                         addressed := 0; addressed_at := None |}
                   _ _ eq_refl)).
  - repeat constructor; simpl; intuition discriminate.
  - simpl. tauto.
Defined.

(* ================================================================= *)
(** ** From POST to GET by id *)

Lemma string_of_uint_digits (d : Decimal.uint) :
  all_digits (NilEmpty.string_of_uint d) = true.
Proof. induction d; simpl; auto. Qed.

Lemma decimal_value_acc (d : Decimal.uint) (acc : positive) :
  decimal_value (NilEmpty.string_of_uint d) (Z.pos acc) =
  Z.pos (Pos.of_uint_acc d acc).
Proof.
  revert acc. induction d as [|d IH|d IH|d IH|d IH|d IH|d IH|d IH|d IH|d IH
                               |d IH]; intros acc;
    [reflexivity|..]; cbn [NilEmpty.string_of_uint decimal_value
                             Pos.of_uint_acc];
    rewrite <- IH; f_equal;
    match goal with
    | |- _ + Str.digit_value ?c = _ =>
        let v := eval vm_compute in (Str.digit_value c) in
        change (Str.digit_value c) with v
    end; lia.
Qed.

Lemma decimal_value_of_uint (d : Decimal.uint) :
  decimal_value (NilEmpty.string_of_uint d) 0 = Z.of_N (Pos.of_uint d).
Proof.
  induction d as [|d IH|d IH|d IH|d IH|d IH|d IH|d IH|d IH|d IH|d IH];
    [reflexivity | exact IH |..];
    cbn [NilEmpty.string_of_uint decimal_value Pos.of_uint];
    match goal with
    | |- decimal_value _ (0 * 10 + Str.digit_value ?c) = _ =>
        let v := eval vm_compute in (0 * 10 + Str.digit_value c) in
        change (0 * 10 + Str.digit_value c) with v
    end; apply decimal_value_acc.
Qed.

(** The decimal numeral of a natural number reads back as that number. *)
Lemma of_N_digits (n : N) :
  all_digits (Str.of_N n) = true /\ Str.of_N n <> EmptyString
  /\ decimal_value (Str.of_N n) 0 = Z.of_N n.
Proof.
  unfold Str.of_N, NilZero.string_of_uint.
  pose proof (DecimalN.Unsigned.of_to n) as Hof. unfold N.of_uint in Hof.
  pose proof (string_of_uint_digits (N.to_uint n)) as Hall.
  pose proof (decimal_value_of_uint (N.to_uint n)) as Hval.
  rewrite Hof in Hval.
  destruct (N.to_uint n) eqn:E;
    (split; [exact Hall|]; split; [discriminate | exact Hval]).
Qed.

Lemma find_snoc {A : Type} (f : A -> bool) (l : list A) (x : A) :
  (forall y, In y l -> f y = false) -> f x = true ->
  find f (l ++ [x]) = Some x.
Proof.
  induction l as [|y l IH]; intros Hl Hx; simpl.
  - now rewrite Hx.
  - rewrite (Hl y (or_introl eq_refl)). apply IH; [|assumption].
    intros z Hz. apply Hl. now right.
Qed.

(** A feedback that was accepted can be fetched under the id of the
    answer: [GET /api/feedback/<id>] then answers 200 with the very item
    the POST returned. *)
Theorem posted_feedback_is_found {P : Platform} {R : Runtime}
  (request : Request) (env : Env) (now : Z) (v : json) (src text : string) :
  priorities_binary64 P ->
  0 <= sequence (DB env) -> Table.next_id (DB env) < 2 ^ 53 ->
  JSON_parse (body_text request) = Some v ->
  get_prop v "content" = Some (JStr text) -> text <> EmptyString ->
  get_prop v "source" = Some (JStr src) -> In src validSources ->
  JSON_parse (JSON_stringify (fa_themes (analyzeFeedback (AI env) text))) =
    Some (JArr (map JStr (fa_themes (analyzeFeedback (AI env) text)))) ->
  exists item,
    fst (handlePostFeedback request env now) =
      json_response 201 (FeedbackJson item)
    /\ forall (request' : Request) (ai' : Ai) (now' : Z),
         method request' = "GET" ->
         pathname request' =
           ("/api/feedback/"
            ++ Str.of_N (Z.to_N (id (columns (stored item)))))%string ->
         let response :=
           fst (fetch request'
                  {| DB := snd (handlePostFeedback request env now);
                     AI := ai' |} now') in
         status response = 200 /\ body response = FeedbackJson item.
Proof.
  intros Hnum Hseq _ Hparse Hcontent Htext Hsource Hsrc Hround.
  destruct (post_stores request env now v src text Hnum Hparse Hcontent
              Htext Hsource Hsrc Hround)
    as (z & r & Hpost & Hr & _ & _ & _ & Hfresh).
  eexists. rewrite Hpost. cbn [fst snd]. split; [reflexivity|].
  intros request' ai' now' Hm Hp. cbn [stored] in Hp.
  destruct (of_N_digits (Z.to_N (id (columns r)))) as (Hall & Hne & Hval).
  assert (Hid : 1 <= id (columns r)).
  { rewrite Hr. cbn [columns id].
    pose proof (proj1 (next_id_fresh (DB env))). lia. }
  rewrite Z2N.id in Hval by lia.
  rewrite (fetch_item_get request' _ now' _ Hm Hp Hne Hall).
  rewrite (getFeedbackById_cases _ _ (id (columns r)))
    by (rewrite (parseInt_digits _ Hall Hne), Hval; reflexivity).
  cbn [DB table fst].
  rewrite find_snoc.
  - unfold parse_themes. rewrite Hr at 1 2. cbn [columns themes].
    rewrite Hround. split; reflexivity.
  - intros y Hy. apply Z.eqb_neq.
    assert (id (columns y) < id (columns r)); [|lia].
    apply Hfresh. unfold ids, rows. rewrite map_map.
    apply (in_map (fun r => id (columns r))). exact Hy.
  - apply Z.eqb_refl.
Qed.

(** The feedback stored under id 3 in the example is found as [/api/feedback/3]. *)
Lemma posted_feedback_is_found_witness :
  exists item,
    id (columns (stored item)) = 3
    /\ body
         (fst (@fetch Demo.platform Demo.runtime
                 (item_request "GET" "3" "")
                 {| DB :=
                      snd (@handlePostFeedback Demo.platform Demo.runtime
                             (Demo.request "POST" "/api/feedback"
                                Demo.post_text)
                             (Demo.env (Sample.ai_says Demo.answer_text)) 0);
                    AI := fun _ => AiRejects |} 7)) =
       FeedbackJson item.
Proof.
  destruct (@posted_feedback_is_found Demo.platform Demo.runtime
              (Demo.request "POST" "/api/feedback" Demo.post_text)
              (Demo.env (Sample.ai_says Demo.answer_text)) 0
              (JObj [("source", JStr "github"); ("content", JStr "slow")])
              "github" "slow" demo_priorities_binary64 ltac:(simpl; lia)
              eq_refl eq_refl eq_refl ltac:(discriminate) eq_refl
              ltac:(simpl; tauto) eq_refl)
    as (item & Hpost & Hget).
  exists item.
  assert (Hid : id (columns (stored item)) = 3).
  { vm_compute in Hpost. injection Hpost as <-. reflexivity. }
  split; [exact Hid|].
  apply (Hget (item_request "GET" "3" "") (fun _ => AiRejects) 7 eq_refl).
  rewrite Hid. reflexivity.
Defined.

(* ================================================================= *)
(** ** PATCH /api/feedback/:id *)

Lemma update_addressed_table (db : database) (a : Z) (at_ : option string)
  (n : Z) :
  table (Table.update_addressed db a at_ (Num.Int n)) =
  map (fun r => if id (columns r) =? n
                then {| columns := columns r; addressed := a;
                        addressed_at := at_ |}
                else r) (table db).
Proof. reflexivity. Qed.

Lemma update_addressed_rows (db : database) (a : Z) (at_ : option string)
  (n : jsint) :
  rows (Table.update_addressed db a at_ n) = rows db
  /\ sequence (Table.update_addressed db a at_ n) = sequence db.
Proof.
  destruct n as [|z]; [split; reflexivity|]. split; [|reflexivity].
  unfold rows. cbn [Table.update_addressed table]. rewrite map_map.
  apply map_ext. intros r. now destruct (_ =? _).
Qed.

Lemma update_addressed_absent (db : database) (a : Z) (at_ : option string)
  (n : Z) :
  ~ In n (ids db) -> Table.update_addressed db a at_ (Num.Int n) = db.
Proof.
  intros Hn. destruct db as [l s]. unfold Table.update_addressed.
  cbn [table sequence]. f_equal.
  unfold ids, rows in Hn. cbn [table] in Hn. rewrite map_map in Hn.
  induction l as [|r l IH]; [reflexivity|]. simpl in *.
  destruct (Z.eqb_spec (id (columns r)) n) as [E|_]; [tauto|].
  f_equal. apply IH. tauto.
Qed.

Lemma find_update (l : list StoredFeedback) (a : Z) (at_ : option string)
  (n : Z) :
  find (fun r => id (columns r) =? n)
    (map (fun r => if id (columns r) =? n
                   then {| columns := columns r; addressed := a;
                           addressed_at := at_ |}
                   else r) l) =
  option_map (fun r => {| columns := columns r; addressed := a;
                          addressed_at := at_ |})
    (find (fun r => id (columns r) =? n) l).
Proof.
  induction l as [|r l IH]; [reflexivity|]. simpl.
  destruct (Z.eqb_spec (id (columns r)) n) as [E|E]; simpl.
  - now rewrite E, Z.eqb_refl.
  - destruct (Z.eqb_spec (id (columns r)) n); [contradiction | exact IH].
Qed.

(** The table after a PATCH holds the same rows in the same columns the
    analytics read. *)
Lemma patch_rows {P : Platform} (id_text : string)
  (request : Request) (env : Env) (now : Z) :
  rows (snd (handlePatchFeedback id_text request env now)) = rows (DB env)
  /\ sequence (snd (handlePatchFeedback id_text request env now)) =
     sequence (DB env).
Proof.
  unfold handlePatchFeedback.
  destruct (bind _ _) as [[[| flag | | | |]|]|]; try (split; reflexivity).
  set (db := Table.update_addressed _ _ _ _).
  assert (Hdb : rows db = rows (DB env) /\ sequence db = sequence (DB env))
    by apply update_addressed_rows.
  destruct (Table.first_by_id db _) as [r|]; [|exact Hdb].
  destruct (with_parsed_themes r); exact Hdb.
Qed.

(** A PATCH whose body is an object without a boolean [addressed] is
    answered with 400 and changes nothing.  With a boolean, every row of
    the given id gets [addressed] 1 and the current time, or 0 and NULL;
    no other row and no other column changes; the answer is the marked
    row, or 404 when no row has the id, and then the table is as
    before. *)
Theorem handlePatchFeedback_marks {P : Platform}
  (id_text : string) (request : Request) (env : Env) (now : Z) (v : json)
  (n : Z) :
  JSON_parse (body_text request) = Some v -> v <> JNull ->
  Str.parseInt id_text = Num.Int n -> 0 <= n < 2 ^ 53 ->
  let result := handlePatchFeedback id_text request env now in
  ((forall flag, get_prop v "addressed" <> Some (JBool flag)) ->
   result =
   (json_response 400 (ErrorJson "No valid fields to update"), DB env))
  /\ (forall flag,
        get_prop v "addressed" = Some (JBool flag) ->
        table (snd result) =
          map (fun r => if id (columns r) =? n then marked flag now r
                        else r)
            (table (DB env))
        /\ sequence (snd result) = sequence (DB env)
        /\ (~ In n (ids (DB env)) ->
            result =
            (json_response 404 (ErrorJson "Feedback not found"), DB env))
        /\ (forall r parsed,
              NoDup (ids (DB env)) -> In r (table (DB env)) ->
              id (columns r) = n ->
              parse_themes (columns r) = Normal parsed ->
              fst result =
              json_response 200
                (FeedbackJson
                   {| stored := marked flag now r;
                      stored_themes := parsed |}))).
Proof.
  intros Hparse Hv Hn _ result. unfold result, handlePatchFeedback,
    request_json.
  rewrite Hparse. cbn [bind]. rewrite (member_get_prop v "addressed" Hv).
  split.
  - intros Hnot. destruct (get_prop v "addressed") as [[| flag | | | |]|];
      try reflexivity.
    destruct (Hnot flag eq_refl).
  - intros flag ->. rewrite Hn.
    set (a := if flag then 1 else 0).
    set (at_ := if flag then Some (toISOString now) else None).
    unfold Table.first_by_id. rewrite update_addressed_table, find_update.
    fold (marked flag now).
    assert (Htable : forall x : Response * database,
              snd x = Table.update_addressed (DB env) a at_ (Num.Int n) ->
              table (snd x) =
                map (fun r => if id (columns r) =? n then marked flag now r
                              else r) (table (DB env))
              /\ sequence (snd x) = sequence (DB env)).
    { intros x ->. split; reflexivity. }
    split; [|split]; [| |split].
    + apply Htable.
      destruct (find _ _) as [r|]; [|reflexivity]. simpl.
      destruct (with_parsed_themes _); reflexivity.
    + apply Htable.
      destruct (find _ _) as [r|]; [|reflexivity]. simpl.
      destruct (with_parsed_themes _); reflexivity.
    + intros Hnone. rewrite (find_id_none _ _ Hnone). cbn [option_map].
      now rewrite (update_addressed_absent _ _ _ _ Hnone).
    + intros r parsed Hnd Hin Hid Hthemes. rewrite <- Hid.
      rewrite (find_id_some _ r Hnd Hin). cbn [option_map].
      unfold with_parsed_themes. cbn [marked columns].
      rewrite Hthemes. reflexivity.
Qed.

(** Row 1 of the example table is marked as addressed. *)
Lemma handlePatchFeedback_marks_witness :
  map (fun r => (id (columns r), addressed r, addressed_at r))
    (table
       (snd (@handlePatchFeedback Demo.platform "1"
               (item_request "PATCH" "1"
                  (Sample.json_of_field "addressed" "true"))
               (Demo.env (fun _ => AiRejects)) 0))) =
  [(1, 1, Some "2024-01-02T00:00:00.000Z"); (2, 0, None)].
Proof.
  destruct (@handlePatchFeedback_marks Demo.platform "1"
              (item_request "PATCH" "1"
                 (Sample.json_of_field "addressed" "true"))
              (Demo.env (fun _ => AiRejects)) 0
              (JObj [("addressed", JBool true)]) 1
              eq_refl ltac:(discriminate) eq_refl ltac:(lia)) as [_ H].
  destruct (H true eq_refl) as (Htable & _). rewrite Htable. reflexivity.
Defined.

(** [{"addressed":1}] holds no boolean: 400, and the table as before. *)
Lemma handlePatchFeedback_not_boolean_example :
  @handlePatchFeedback Demo.platform "1"
    (item_request "PATCH" "1" (Sample.json_of_field "addressed" "1"))
    (Demo.env (fun _ => AiRejects)) 0 =
  (json_response 400 (ErrorJson "No valid fields to update"), Demo.db).
Proof. reflexivity. Qed.

(** Whatever a PATCH does, it leaves the eight columns other than
    [addressed] and [addressed_at] of every row, the order of the rows
    and the sequence as they are: the answers of [GET /api/themes] and of
    [GET /api/ai-insights], whose statements select neither of the two
    columns, are the same before and after it. *)
Theorem patch_leaves_analytics {P : Platform}
  (id_text : string) (request : Request) (env : Env) (now : Z) :
  let after (ai : Ai) :=
    {| DB := snd (handlePatchFeedback id_text request env now);
       AI := ai |} in
  rows (snd (handlePatchFeedback id_text request env now)) = rows (DB env)
  /\ sequence (snd (handlePatchFeedback id_text request env now)) =
     sequence (DB env)
  /\ getThemes_response (after (AI env)) = getThemes_response env
  /\ getAIInsights_response (after (AI env)) = getAIInsights_response env.
Proof.
  intros after.
  destruct (patch_rows id_text request env now) as [Hrows Hseq].
  split; [exact Hrows|]. split; [exact Hseq|].
  unfold getThemes_response, getAIInsights_response, after.
  cbn [DB]. rewrite Hrows. split; reflexivity.
Qed.

(* ================================================================= *)
(** ** GET /api/insights: counts by sentiment and by category *)

Lemma NoDup_snoc {A : Type} (l : list A) (x : A) :
  NoDup (l ++ [x]) <-> NoDup l /\ ~ In x l.
Proof.
  split.
  - intros H. apply NoDup_remove in H. now rewrite app_nil_r in H.
  - intros [Hl Hx]. apply NoDup_app; [assumption | repeat constructor;
      intros [] |].
    intros a Ha [<-|[]]. contradiction.
Qed.

Lemma count_rows_snoc (col : Feedback -> string) (k : string)
  (db : list Feedback) (f : Feedback) :
  count_rows col k (db ++ [f]) =
  count_rows col k db + (if String.eqb (col f) k then 1 else 0).
Proof.
  unfold count_rows. rewrite filter_app, length_app. simpl.
  destruct (String.eqb (col f) k); simpl; lia.
Qed.

Lemma count_rows_nonneg (col : Feedback -> string) (k : string)
  (db : list Feedback) : 0 <= count_rows col k db.
Proof. unfold count_rows. lia. Qed.

(** The groups of [GROUP BY]: one for each value that occurs, with the
    number of its rows. *)
Lemma group_count_get (col : Feedback -> string) (db : list Feedback)
  (k : string) :
  Obj.get k (Table.group_count col db) =
  if count_rows col k db =? 0 then None else Some (count_rows col k db).
Proof.
  unfold Table.group_count.
  induction db as [|f db IH] using rev_ind; [reflexivity|].
  rewrite fold_left_app, count_rows_snoc. simpl.
  set (groups := fold_left _ db _) in *.
  pose proof (count_rows_nonneg col k db) as Hk.
  destruct (Obj.get (col f) groups) as [n|] eqn:Hf.
  - rewrite get_replace, Hf. simpl.
    destruct (String.eqb_spec (col f) k) as [E|E].
    + rewrite <- E, Hf in IH.
      destruct (Z.eqb_spec (count_rows col (col f) db) 0);
        [discriminate|].
      injection IH as ->. rewrite <- E.
      pose proof (count_rows_nonneg col (col f) db).
      destruct (Z.eqb_spec (count_rows col (col f) db + 1) 0);
        [lia | reflexivity].
    + now rewrite Z.add_0_r.
  - rewrite (get_snoc (col f) k 1 groups Hf).
    destruct (String.eqb_spec (col f) k) as [E|E].
    + rewrite <- E, Hf in IH.
      destruct (Z.eqb_spec (count_rows col (col f) db) 0) as [H0|];
        [|discriminate].
      rewrite <- E, H0. reflexivity.
    + now rewrite Z.add_0_r.
Qed.

Lemma group_count_NoDup (col : Feedback -> string) (db : list Feedback) :
  NoDup (Obj.keys (Table.group_count col db)).
Proof.
  unfold Table.group_count.
  induction db as [|f db IH] using rev_ind; [constructor|].
  rewrite fold_left_app. simpl.
  set (groups := fold_left _ db _) in *.
  destruct (Obj.get (col f) groups) as [n|] eqn:Hf.
  - now rewrite keys_replace.
  - unfold Obj.keys. rewrite map_app. simpl.
    apply NoDup_snoc. split; [exact IH|]. now apply get_None_keys in Hf.
Qed.

Lemma group_count_sum (col : Feedback -> string) (db : list Feedback) :
  sum (Obj.values (Table.group_count col db)) =
  Z.of_nat (List.length db).
Proof.
  unfold Table.group_count.
  induction db as [|f db IH] using rev_ind; [reflexivity|].
  rewrite fold_left_app, length_app. simpl.
  set (groups := fold_left _ db _) in *.
  destruct (Obj.get (col f) groups) as [n|] eqn:Hf.
  - rewrite sum_replace, Hf, IH. lia.
  - unfold Obj.values. rewrite map_app, sum_app. fold (Obj.values groups).
    rewrite IH. simpl. lia.
Qed.

(** [categories] holds what the groups hold. *)
Lemma categories_groups (groups : list (string * Z)) :
  NoDup (Obj.keys groups) ->
  (forall k, Obj.get k (categories groups) = Obj.get k groups)
  /\ sum (Obj.values (categories groups)) = sum (Obj.values groups).
Proof.
  unfold categories, Arr.forEach.
  induction groups as [|[k0 c0] groups IH] using rev_ind; intros Hnd.
  - split; reflexivity.
  - unfold Obj.keys in Hnd. rewrite map_app in Hnd.
    apply NoDup_snoc in Hnd as [Hnd Hfresh].
    destruct (IH Hnd) as [Hget Hsum].
    assert (Hk0 : Obj.get k0 groups = None) by now apply get_None_keys.
    rewrite fold_left_app. simpl.
    set (o := fold_left _ groups _) in *. split.
    + intros k. rewrite get_set, (get_snoc k0 k c0 groups Hk0).
      destruct (String.eqb k0 k); [reflexivity | apply Hget].
    + unfold Obj.values at 2. rewrite map_app, sum_app.
      fold (Obj.values groups). rewrite <- Hsum. simpl.
      unfold Obj.set. replace (Obj.has k0 o) with false.
      2:{ unfold Obj.has. now rewrite Hget, Hk0. }
      destruct (Str.array_index k0).
      * rewrite sum_insert_index. lia.
      * unfold Obj.values. rewrite map_app, sum_app. simpl. lia.
Qed.

(** [sentimentCounts] keeps its three keys and takes the count of each
    from its group. *)
Lemma sentimentCounts_groups (groups : list (string * Z)) :
  NoDup (Obj.keys groups) ->
  Obj.keys (sentimentCounts groups) = ["positive"; "negative"; "neutral"]
  /\ forall s, In s ["positive"; "negative"; "neutral"] ->
       Obj.get s (sentimentCounts groups) =
       Some (count_or_0 (Obj.get s groups)).
Proof.
  unfold sentimentCounts, Arr.forEach.
  induction groups as [|[k0 c0] groups IH] using rev_ind; intros Hnd.
  - split; [reflexivity|].
    intros s [<-|[<-|[<-|[]]]]; reflexivity.
  - unfold Obj.keys in Hnd. rewrite map_app in Hnd.
    apply NoDup_snoc in Hnd as [Hnd Hfresh].
    destruct (IH Hnd) as [Hkeys Hget].
    assert (Hk0 : Obj.get k0 groups = None) by now apply get_None_keys.
    rewrite fold_left_app. simpl.
    set (o := fold_left _ groups _) in *.
    destruct (Obj.has k0 o) eqn:Hhas.
    + split.
      * unfold Obj.set. rewrite Hhas, keys_replace. exact Hkeys.
      * intros s Hs. rewrite get_set, (get_snoc k0 s c0 groups Hk0).
        destruct (String.eqb k0 s); [reflexivity | now apply Hget].
    + split; [exact Hkeys|].
      intros s Hs. rewrite (get_snoc k0 s c0 groups Hk0).
      destruct (String.eqb_spec k0 s) as [E|E]; [|now apply Hget].
      exfalso. subst s. unfold Obj.has in Hhas.
      rewrite (Hget k0 Hs) in Hhas. discriminate.
Qed.

Lemma count_rows_cons (col : Feedback -> string) (k : string)
  (db : list Feedback) (f : Feedback) :
  count_rows col k (f :: db) =
  (if String.eqb (col f) k then 1 else 0) + count_rows col k db.
Proof.
  unfold count_rows. cbn [filter].
  destruct (String.eqb (col f) k); cbn [List.length]; lia.
Qed.

Lemma count_rows_checked (db : list Feedback) :
  Forall sentiment_checked db ->
  count_rows sentiment "positive" db + count_rows sentiment "negative" db
  + count_rows sentiment "neutral" db = Z.of_nat (List.length db).
Proof.
  induction 1 as [|f db Hf _ IH]; [reflexivity|].
  rewrite !count_rows_cons, length_cons.
  destruct Hf as [<-|[<-|[<-|[]]]];
    cbv [String.eqb Ascii.eqb Bool.eqb]; lia.
Qed.

Lemma handleGetInsights_fields {P : Platform} (db : list Feedback)
  (i : InsightsResponse) :
  handleGetInsights db = Normal i ->
  ins_total i = Z.of_nat (List.length db)
  /\ ins_sentiment i = sentimentCounts (Table.group_count sentiment db)
  /\ ins_categories i = categories (Table.group_count category db)
  /\ ins_topThemes i = topThemes db
  /\ map item_row (ins_highPriority i) = Table.high_priority db.
Proof.
  unfold handleGetInsights.
  destruct (parse_rows _) as [items|] eqn:Hitems; [|discriminate].
  simpl. intros [= <-]. simpl.
  rewrite (parse_rows_rows _ _ Hitems). repeat split; reflexivity.
Qed.

(** The aggregate insights report the number of rows as [total]; under
    [sentiment] exactly the keys [positive], [negative] and [neutral],
    each with the number of rows of that sentiment; under [categories]
    each category that occurs with the number of its rows.  The category
    counts always add up to [total]; the three sentiment counts do when
    every row holds one of the three sentiments of the schema. *)
Theorem insights_count_rows {P : Platform} (db : list Feedback)
  (i : InsightsResponse) :
  handleGetInsights db = Normal i ->
  ins_total i = Z.of_nat (List.length db)
  /\ Obj.keys (ins_sentiment i) = ["positive"; "negative"; "neutral"]
  /\ (forall s, In s ["positive"; "negative"; "neutral"] ->
        Obj.get s (ins_sentiment i) = Some (count_rows sentiment s db))
  /\ (forall c, count_or_0 (Obj.get c (ins_categories i)) =
                count_rows category c db)
  /\ sum (Obj.values (ins_categories i)) = ins_total i
  /\ (Forall sentiment_checked db ->
      sum (Obj.values (ins_sentiment i)) = ins_total i).
Proof.
  intros Hi.
  destruct (handleGetInsights_fields db i Hi)
    as (Htotal & Hsent & Hcat & _ & _).
  destruct (sentimentCounts_groups _ (group_count_NoDup sentiment db))
    as [Hkeys Hget].
  destruct (categories_groups _ (group_count_NoDup category db))
    as [Hcget Hcsum].
  assert (Hcount : forall (col : Feedback -> string) k,
            count_or_0 (Obj.get k (Table.group_count col db)) =
            count_rows col k db).
  { intros col k. rewrite group_count_get.
    destruct (Z.eqb_spec (count_rows col k db) 0) as [->|];
      reflexivity. }
  rewrite Hsent, Hcat, Htotal.
  split; [reflexivity|]. split; [exact Hkeys|]. split.
  { intros s Hs. rewrite (Hget s Hs). f_equal. apply Hcount. }
  split; [intros c; rewrite Hcget; apply Hcount|].
  split; [rewrite Hcsum; apply group_count_sum|].
  intros Hchecked.
  set (o := sentimentCounts _) in *.
  assert (Hvals : Obj.values o =
            [count_rows sentiment "positive" db;
             count_rows sentiment "negative" db;
             count_rows sentiment "neutral" db]).
  { pose proof (Hget "positive" ltac:(simpl; tauto)) as H1.
    pose proof (Hget "negative" ltac:(simpl; tauto)) as H2.
    pose proof (Hget "neutral" ltac:(simpl; tauto)) as H3.
    rewrite Hcount in H1, H2, H3.
    destruct o as [|[k1 v1] [|[k2 v2] [|[k3 v3] [|]]]]; try discriminate.
    injection Hkeys as -> -> ->. simpl in H1, H2, H3.
    injection H1 as ->. injection H2 as ->. injection H3 as ->.
    reflexivity. }
  rewrite Hvals. simpl. rewrite <- (count_rows_checked db Hchecked). lia.
Qed.

(** Four negative rows and a positive one. *)
Lemma insights_count_rows_witness :
  exists i,
    @handleGetInsights Sample.platform sample_negative_rows = Normal i
    /\ Obj.get "negative" (ins_sentiment i) = Some 4
    /\ sum (Obj.values (ins_sentiment i)) = ins_total i.
Proof.
  eexists. split; [reflexivity|].
  destruct (@insights_count_rows Sample.platform sample_negative_rows _
              eq_refl) as (_ & _ & Hget & _ & _ & Hsum).
  split; [exact (Hget "negative" ltac:(simpl; tauto))|].
  apply Hsum. repeat constructor; simpl; tauto.
Defined.

(* ================================================================= *)
(** ** GET /api/insights: the high-priority rows *)

Lemma parse_rows_throw {P : Platform} (l : list Feedback) (f : Feedback)
  (m : string) :
  In f l -> parse_themes f = Throw m -> exists m', parse_rows l = Throw m'.
Proof.
  induction l as [|g l IH]; intros Hin Hf; [destruct Hin|]. simpl.
  destruct Hin as [->|Hin].
  - rewrite Hf. simpl. eauto.
  - destruct (parse_themes g); simpl; [|eauto].
    destruct (IH Hin Hf) as (m' & ->). simpl. eauto.
Qed.

Lemma parse_rows_throw_inv {P : Platform} (l : list Feedback) (m : string) :
  parse_rows l = Throw m ->
  exists f m', In f l /\ parse_themes f = Throw m'.
Proof.
  revert m. induction l as [|g l IH]; intros m; [discriminate|]. simpl.
  destruct (parse_themes g) as [v|m0] eqn:Hg.
  - simpl. destruct (parse_rows l) as [items|m1]; [discriminate|].
    intros _. destruct (IH m1 eq_refl) as (f & m' & Hin & Hf).
    exists f, m'. split; [now right | assumption].
  - intros _. exists g, m0. split; [now left | assumption].
Qed.

Lemma high_priority_In (db : list Feedback) (f : Feedback) :
  In f (Table.high_priority db) -> In f db /\ 4 <= priority f.
Proof.
  unfold Table.high_priority. intros Hin.
  assert (Hin' : In f (Arr.stable_sort
                         (fun x y =>
                            (priority y <? priority x)
                            || ((priority y =? priority x)
                                && String.leb (created_at y) (created_at x)))
                         (filter (fun f => 4 <=? priority f) db))).
  { rewrite <- (firstn_skipn 5). apply in_or_app. now left. }
  apply stable_sort_In, filter_In in Hin' as [Hdb Hp].
  split; [assumption | now apply Z.leb_le].
Qed.

Lemma high_priority_urgent (db : list Feedback) (f : Feedback) :
  In f (Table.high_priority db) -> In f (urgent_rows db).
Proof.
  unfold Table.high_priority, urgent_rows. intros Hin.
  eapply stable_sort_In. rewrite <- (firstn_skipn 5).
  apply in_or_app. left. exact Hin.
Qed.

Lemma high_priority_all (db : list Feedback) (f : Feedback) :
  (List.length (urgent_rows db) <= 5)%nat ->
  In f (urgent_rows db) -> In f (Table.high_priority db).
Proof.
  unfold Table.high_priority, urgent_rows. intros Hlen Hin.
  rewrite firstn_all2.
  - now apply stable_sort_In.
  - now rewrite stable_sort_length.
Qed.

(** The insights list at most five rows as [highPriority], all of them
    rows of the table of priority 4 or 5.  The route parses the [themes]
    of the rows it lists outside of any [try]: it answers 200 when the
    themes of every row of priority 4 or 5 parse, whatever the other rows
    hold; when it answers 500, the themes of a row of priority 4 or 5 do
    not parse; and with at most five such rows, all of which are then
    listed, it answers 500 as soon as the themes of one of them do not
    parse. *)
Theorem insights_fail_on_high_priority_themes {P : Platform} (env : Env) :
  let db := rows (DB env) in
  let failed :=
    getInsights_response env =
    json_response 500 (ErrorJson "Failed to fetch insights") in
  ((forall f, In f (urgent_rows db) -> exists v, parse_themes f = Normal v) ->
   exists i,
     getInsights_response env = json_response 200 (InsightsJson i)
     /\ (List.length (ins_highPriority i) <= 5)%nat
     /\ (forall item, In item (ins_highPriority i) ->
           In (item_row item) db /\ 4 <= priority (item_row item))
     /\ ((List.length (urgent_rows db) <= 5)%nat ->
         forall f, In f (urgent_rows db) ->
                   In f (map item_row (ins_highPriority i))))
  /\ (failed ->
      exists f m,
        In f db /\ 4 <= priority f /\ parse_themes f = Throw m)
  /\ ((List.length (urgent_rows db) <= 5)%nat ->
      forall f m,
        In f db -> 4 <= priority f -> parse_themes f = Throw m -> failed).
Proof.
  intros db failed. subst failed.
  set (listed := Table.high_priority db).
  assert (Hresp :
            getInsights_response env =
            match parse_rows listed with
            | Normal items =>
                json_response 200
                  (InsightsJson
                     {| ins_total := Z.of_nat (List.length db);
                        ins_sentiment :=
                          sentimentCounts (Table.group_count sentiment db);
                        ins_categories :=
                          categories (Table.group_count category db);
                        ins_topThemes := topThemes db;
                        ins_highPriority := items |})
            | Throw _ =>
                json_response 500 (ErrorJson "Failed to fetch insights")
            end).
  { unfold getInsights_response, handleGetInsights. fold db. fold listed.
    destruct (parse_rows listed); reflexivity. }
  split; [|split].
  - intros Hok.
    destruct (parse_rows_ok listed) as (items & Hitems & Hrows).
    { intros f Hf. now apply Hok, high_priority_urgent. }
    rewrite Hresp, Hitems. eexists. split; [reflexivity|].
    cbn [ins_highPriority].
    split; [|split].
    + rewrite <- (length_map item_row), Hrows. apply firstn_le_length.
    + intros item Hitem. apply high_priority_In. fold listed.
      rewrite <- Hrows. now apply in_map.
    + intros Hlen f Hf. rewrite Hrows. now apply high_priority_all.
  - rewrite Hresp. destruct (parse_rows listed) as [items|m] eqn:Hrows;
      [discriminate|].
    intros _.
    destruct (parse_rows_throw_inv listed m Hrows) as (f & m' & Hin & Hf).
    apply high_priority_In in Hin as [Hdb Hp]. now exists f, m'.
  - intros Hlen f m Hdb Hp Hf.
    assert (Hin : In f listed).
    { apply high_priority_all; [assumption|].
      apply filter_In. split; [assumption | now apply Z.leb_le]. }
    destruct (parse_rows_throw listed f m Hin Hf) as (m' & Hthrow).
    now rewrite Hresp, Hthrow.
Qed.

(* ================================================================= *)
(** ** GET /api/themes *)

Lemma get_add_to_group (f : Feedback) (t t' : string)
  (groups : Obj.t ThemeGroupData) :
  Obj.get t' (add_to_group f t groups) =
  if String.eqb t t'
  then Some
         match Obj.get t groups with
         | Some d => {| tg_count := tg_count d + 1;
                        tg_feedback := tg_feedback d ++ [example_of f] |}
         | None => {| tg_count := 0 + 1;
                      tg_feedback := [] ++ [example_of f] |}
         end
  else Obj.get t' groups.
Proof.
  unfold add_to_group, Obj.has.
  destruct (Obj.get t groups) as [d|] eqn:Hget.
  - rewrite Hget. apply get_set.
  - rewrite (get_set t t), String.eqb_refl, !get_set.
    now destruct (String.eqb t t').
Qed.

Lemma NoDup_keys_add_to_group (f : Feedback) (t : string)
  (groups : Obj.t ThemeGroupData) :
  NoDup (Obj.keys groups) -> NoDup (Obj.keys (add_to_group f t groups)).
Proof.
  intros Hnd. unfold add_to_group.
  destruct (Obj.has t groups).
  - destruct (Obj.get t groups); [now apply NoDup_keys_set | assumption].
  - rewrite (get_set t t), String.eqb_refl.
    now apply NoDup_keys_set, NoDup_keys_set.
Qed.

Lemma NoDup_keys_group_mentions (ms : list (string * Feedback)) :
  NoDup (Obj.keys (group_mentions ms)).
Proof.
  unfold group_mentions.
  induction ms as [|m ms IH] using rev_ind; [constructor|].
  rewrite fold_left_app. simpl. now apply NoDup_keys_add_to_group.
Qed.

Lemma themeGroups_mentions {P : Platform} (db : list Feedback) :
  themeGroups db = group_mentions (theme_mentions db).
Proof.
  unfold themeGroups, group_mentions, theme_mentions, Arr.forEach.
  generalize (@Obj.empty ThemeGroupData).
  induction db as [|f db IH]; intros acc; simpl; [reflexivity|].
  rewrite fold_left_app, IH. f_equal.
  rewrite forEach_theme_fold, fold_left_map. reflexivity.
Qed.

Lemma theme_mentions_scan {P : Platform} (db : list Feedback) :
  map fst (theme_mentions db) = theme_scan db.
Proof.
  unfold theme_mentions, theme_scan.
  induction db as [|f db IH]; [reflexivity|]. simpl.
  rewrite map_app, IH, map_map. simpl. now rewrite map_id.
Qed.

Lemma examples_length (t : string) (ms : list (string * Feedback)) :
  Z.of_nat (List.length (examples_of t ms)) = occurrences t (map fst ms).
Proof.
  unfold examples_of, occurrences. rewrite length_map. f_equal.
  induction ms as [|[t' f] ms IH]; [reflexivity|]. cbn [map fst filter].
  cbn [count_occ].
  destruct (String.eqb_spec t' t) as [E|E];
    destruct (string_dec t' t) as [E'|E']; try contradiction;
    cbn [List.length]; now rewrite IH.
Qed.

(** A group holds the number of mentions of its theme and one example for
    each of them, in scan order. *)
Lemma group_mentions_get (t : string) (ms : list (string * Feedback)) :
  Obj.get t (group_mentions ms) =
  match examples_of t ms with
  | [] => None
  | l => Some {| tg_count := Z.of_nat (List.length l); tg_feedback := l |}
  end.
Proof.
  unfold group_mentions.
  induction ms as [|m ms IH] using rev_ind; [reflexivity|].
  rewrite fold_left_app. simpl. rewrite get_add_to_group.
  unfold examples_of in *. rewrite filter_app, map_app. simpl.
  destruct (String.eqb_spec (fst m) t) as [Heq|Hne].
  - rewrite Heq, IH. simpl.
    destruct (map _ (filter _ ms)) as [|x l]; simpl.
    + reflexivity.
    + f_equal. f_equal. rewrite length_app. simpl. lia.
  - simpl. rewrite app_nil_r. exact IH.
Qed.

(** Where the themes of the rows are plain, every theme that is
    mentioned has exactly one group, with the number of its mentions and,
    as examples, the rows of its first three mentions (a row that repeats
    the theme is repeated); the groups come by falling count, and none is
    cut off. *)
Theorem themes_group_every_mention {P : Platform} (db : list Feedback) :
  plain_themes db ->
  let groups := handleGetThemes db in
  let scan := theme_scan db in
  (forall g, In g groups ->
     In (th_theme g) scan
     /\ th_count g = occurrences (th_theme g) scan
     /\ th_feedback g =
        firstn 3 (examples_of (th_theme g) (theme_mentions db)))
  /\ (forall t, In t scan -> exists g, In g groups /\ th_theme g = t)
  /\ NoDup (map th_theme groups)
  /\ StronglySorted (fun a b => th_count b <= th_count a) groups.
Proof.
  intros _ groups scan. unfold groups, handleGetThemes, Obj.entries.
  rewrite themeGroups_mentions. unfold scan.
  rewrite <- theme_mentions_scan.
  set (ms := theme_mentions db).
  pose proof (NoDup_keys_group_mentions ms) as Hnd.
  set (key := fun e : string * ThemeGroupData => tg_count (snd e)).
  assert (Hentry : forall e, In e (group_mentions ms) ->
            examples_of (fst e) ms <> []
            /\ snd e = {| tg_count :=
                            Z.of_nat (List.length (examples_of (fst e) ms));
                          tg_feedback := examples_of (fst e) ms |}).
  { intros [t d] He. apply (In_get_NoDup t d _ Hnd) in He.
    rewrite group_mentions_get in He. simpl.
    destruct (examples_of t ms) as [|x l] eqn:E; [discriminate|].
    injection He as <-. split; [discriminate | reflexivity]. }
  assert (Hpos : forall t, In t (map fst ms) <-> examples_of t ms <> []).
  { intros t. rewrite <- occurrences_pos_In, <- examples_length.
    destruct (examples_of t ms); simpl; split; intros H;
      try lia; try discriminate; contradiction. }
  repeat split.
  - apply in_map_iff in H as (e & <- & He).
    apply stable_sort_In in He. cbn [th_theme fst].
    apply Hpos. now apply Hentry.
  - apply in_map_iff in H as (e & <- & He).
    apply stable_sort_In in He. cbn [th_theme th_count fst].
    destruct (Hentry e He) as [_ ->]. cbn [tg_count].
    apply examples_length.
  - apply in_map_iff in H as (e & <- & He).
    apply stable_sort_In in He. cbn [th_theme th_feedback fst].
    destruct (Hentry e He) as [_ ->]. cbn [tg_feedback].
    apply slice_prefix. lia.
  - intros t Ht. apply Hpos in Ht.
    pose proof (group_mentions_get t ms) as Hget.
    destruct (examples_of t ms) as [|x l] eqn:E; [contradiction|].
    apply get_In in Hget. eexists. split.
    + apply in_map. apply stable_sort_In. exact Hget.
    + reflexivity.
  - rewrite map_map. simpl.
    eapply Permutation_NoDup; [|exact Hnd].
    unfold Obj.keys. apply Permutation_map.
    apply stable_sort_perm.
  - apply StronglySorted_map. simpl.
    apply (sort_desc_StronglySorted key).
Qed.

(** The three rows of the example mention [ui] and [api]: each has its
    group. *)
Lemma themes_group_every_mention_witness :
  exists g,
    In g (@handleGetThemes Sample.platform sample_db) /\ th_theme g = "api".
Proof.
  destruct (@themes_group_every_mention Sample.platform sample_db
              (@all_plain_themes Sample.platform sample_db
                 ltac:(vm_compute; reflexivity)))
    as (_ & Hall & _).
  apply Hall. vm_compute. tauto.
Defined.

(* ================================================================= *)
(** ** The themes route and the top themes of the insights *)

Section MapValues.
Context {V W : Type} (g : V -> W).

Lemma get_map_values (k : string) (o : Obj.t V) :
  Obj.get k (map_values g o) = option_map g (Obj.get k o).
Proof.
  induction o as [|[k' v] o IH]; [reflexivity|]. simpl.
  destruct (String.eqb k' k); [reflexivity | exact IH].
Qed.

Lemma has_map_values (k : string) (o : Obj.t V) :
  Obj.has k (map_values g o) = Obj.has k o.
Proof.
  unfold Obj.has. rewrite get_map_values. now destruct (Obj.get k o).
Qed.

Lemma replace_map_values (k : string) (v : V) (o : Obj.t V) :
  map_values g (Obj.replace k v o) =
  Obj.replace k (g v) (map_values g o).
Proof.
  induction o as [|[k' v'] o IH]; [reflexivity|]. simpl.
  destruct (String.eqb k' k); simpl; [reflexivity | now rewrite IH].
Qed.

Lemma insert_index_map_values (n : N) (k : string) (v : V) (o : Obj.t V) :
  map_values g (Obj.insert_index n k v o) =
  Obj.insert_index n k (g v) (map_values g o).
Proof.
  induction o as [|[k' v'] o IH]; [reflexivity|]. simpl.
  destruct (Str.array_index k') as [n'|]; [|reflexivity].
  destruct (n' <? n)%N; simpl; [now rewrite IH | reflexivity].
Qed.

Lemma set_map_values (k : string) (v : V) (o : Obj.t V) :
  map_values g (Obj.set k v o) = Obj.set k (g v) (map_values g o).
Proof.
  unfold Obj.set. rewrite has_map_values.
  destruct (Obj.has k o); [apply replace_map_values|].
  destruct (Str.array_index k); [apply insert_index_map_values|].
  unfold map_values. now rewrite map_app.
Qed.

End MapValues.

Lemma replace_insert_index {V : Type} (n : N) (k : string) (v0 v : V)
  (o : Obj.t V) :
  ~ In k (Obj.keys o) ->
  Obj.replace k v (Obj.insert_index n k v0 o) = Obj.insert_index n k v o.
Proof.
  induction o as [|[k' v'] o IH]; intros Hk; simpl.
  - now rewrite String.eqb_refl.
  - simpl in Hk.
    destruct (Str.array_index k') as [n'|];
      [destruct (n' <? n)%N|]; simpl;
      try (now rewrite String.eqb_refl).
    destruct (String.eqb_spec k' k) as [E|_]; [tauto|].
    rewrite IH; [reflexivity | tauto].
Qed.

Lemma replace_snoc {V : Type} (k : string) (v0 v : V) (o : Obj.t V) :
  ~ In k (Obj.keys o) ->
  Obj.replace k v (o ++ [(k, v0)]) = o ++ [(k, v)].
Proof.
  induction o as [|[k' v'] o IH]; intros Hk; simpl.
  - now rewrite String.eqb_refl.
  - simpl in Hk. destruct (String.eqb_spec k' k) as [E|_]; [tauto|].
    rewrite IH; [reflexivity | tauto].
Qed.

(** Setting a fresh key and then its value again is setting it once. *)
Lemma set_set_fresh {V : Type} (k : string) (v0 v : V) (o : Obj.t V) :
  Obj.has k o = false -> Obj.set k v (Obj.set k v0 o) = Obj.set k v o.
Proof.
  intros Hhas.
  assert (Hk : ~ In k (Obj.keys o)).
  { intros Hin. apply has_keys in Hin. congruence. }
  unfold Obj.set at 1.
  replace (Obj.has k (Obj.set k v0 o)) with true.
  2:{ symmetry. unfold Obj.has. now rewrite get_set, String.eqb_refl. }
  unfold Obj.set. rewrite Hhas.
  destruct (Str.array_index k);
    [now apply replace_insert_index | now apply replace_snoc].
Qed.

(** The groups of the themes route, seen as counters, are the counter of
    the insights: same keys, same order, same counts. *)
Lemma group_counts (ms : list (string * Feedback)) :
  map_values tg_count (group_mentions ms) =
  fold_left (fun o t => increment t o) (map fst ms) Obj.empty.
Proof.
  unfold group_mentions.
  induction ms as [|[t f] ms IH] using rev_ind; [reflexivity|].
  rewrite map_app, !fold_left_app. cbn [map fst snd fold_left].
  rewrite <- IH. set (groups := fold_left _ ms _).
  unfold increment, add_to_group.
  rewrite get_map_values. unfold Obj.has.
  destruct (Obj.get t groups) as [d|] eqn:Hget.
  - rewrite Hget, set_map_values. reflexivity.
  - rewrite (get_set t t), String.eqb_refl.
    rewrite set_set_fresh by (unfold Obj.has; now rewrite Hget).
    rewrite set_map_values. reflexivity.
Qed.

Lemma insert_sorted_map {A B : Type} (f : A -> B) (p : A -> A -> bool)
  (q : B -> B -> bool) (x : A) (l : list A) :
  (forall a b, p a b = q (f a) (f b)) ->
  map f (Arr.insert_sorted p x l) = Arr.insert_sorted q (f x) (map f l).
Proof.
  intros Hpq. induction l as [|y l IH]; [reflexivity|]. simpl.
  rewrite <- Hpq. destruct (p x y); simpl; [reflexivity | now rewrite IH].
Qed.

Lemma stable_sort_map {A B : Type} (f : A -> B) (p : A -> A -> bool)
  (q : B -> B -> bool) (l : list A) :
  (forall a b, p a b = q (f a) (f b)) ->
  map f (Arr.stable_sort p l) = Arr.stable_sort q (map f l).
Proof.
  intros Hpq. unfold Arr.stable_sort.
  induction l as [|x l IH]; [reflexivity|]. simpl.
  now rewrite (insert_sorted_map f p q), IH.
Qed.

(** Where the themes of the rows are plain, the first five groups of
    [GET /api/themes] are the [topThemes] of [GET /api/insights]: same
    themes, same order, same counts. *)
Theorem topThemes_head_of_themes {P : Platform} (db : list Feedback) :
  plain_themes db ->
  map as_theme_count (firstn 5 (handleGetThemes db)) = topThemes db.
Proof.
  intros _. unfold handleGetThemes, topThemes, Obj.entries.
  rewrite themeCounts_fold, <- theme_mentions_scan, <- group_counts.
  rewrite themeGroups_mentions, slice_prefix by lia.
  change (Z.to_nat 5) with 5%nat.
  set (groups := group_mentions (theme_mentions db)).
  unfold Arr.sort_desc, map_values.
  rewrite <- (stable_sort_map (fun e => (fst e, tg_count (snd e)))
                (fun x y => tg_count (snd y) <=? tg_count (snd x)))
    by reflexivity.
  rewrite <- !firstn_map, !map_map. reflexivity.
Qed.

(** The three rows of the example. *)
Lemma topThemes_head_of_themes_witness :
  map as_theme_count (firstn 5 (@handleGetThemes Sample.platform sample_db)) =
  @topThemes Sample.platform sample_db.
Proof.
  exact (@topThemes_head_of_themes Sample.platform sample_db
           (@all_plain_themes Sample.platform sample_db
              ltac:(vm_compute; reflexivity))).
Defined.

(* ================================================================= *)
(** ** The router *)

Lemma insert_consistent {R : Runtime} (db db' : database) (now : Z)
  (src text sent cat : string) (prio : number) (th : string)
  (r : StoredFeedback) :
  Table.insert db now src text sent cat prio th = Normal (db', r) ->
  consistent db -> consistent db'.
Proof.
  unfold Table.insert. destruct (integer_value prio) as [p|]; [|discriminate].
  destruct (Table.check _) eqn:Hcheck; [|discriminate].
  intros [= <- <-] (Hnd & Hseq & Hrows).
  destruct (next_id_fresh db) as [Hlt Hfresh].
  unfold consistent, ids, rows in *. cbn [table sequence].
  rewrite !map_app. cbn [map columns id]. repeat split.
  - apply NoDup_snoc. split; [assumption|].
    intros Hin. specialize (Hfresh _ Hin). lia.
  - intros x Hx. apply in_app_or in Hx as [Hx|[<-|[]]]; [|lia].
    specialize (Hfresh _ Hx). lia.
  - apply Forall_app. split; [assumption|]. repeat constructor.
    exact Hcheck.
Qed.

Lemma post_db {P : Platform} {R : Runtime} (request : Request) (env : Env)
  (now : Z) :
  snd (handlePostFeedback request env now) = DB env
  \/ exists src text sent cat prio th r,
       Table.insert (DB env) now src text sent cat prio th =
       Normal (snd (handlePostFeedback request env now), r).
Proof.
  unfold handlePostFeedback.
  destruct (bind _ _) as [[rejected|[src text]]|]; try (now left).
  destruct (Table.insert _ _ _ _ _ _ _ _) as [[db r]|] eqn:Hinsert;
    [|now left].
  right. exists src, text. do 5 eexists.
  rewrite Hinsert. destruct (with_parsed_themes r); reflexivity.
Qed.

Lemma seed_insert_consistent {R : Runtime} (now : Z)
  (l : list MockFeedback) (st : database * bool) :
  consistent (fst st) -> consistent (fst (fold_left (seed_insert now) l st)).
Proof.
  revert st. induction l as [|f l IH]; intros st Hst; [assumption|].
  simpl. apply IH. unfold seed_insert.
  destruct (Table.insert _ _ _ _ _ _ _ _) as [[db r]|] eqn:Hinsert;
    [|assumption].
  cbn [fst]. eapply insert_consistent; eassumption.
Qed.

Lemma seed_db {R : Runtime} (env : Env) (now : Z) :
  snd (handleSeed env now) =
  fst (fold_left (seed_insert now) mockFeedback
         (Table.delete_all (DB env), true)).
Proof.
  unfold handleSeed.
  destruct (fold_left _ _ _) as [db inserted].
  now destruct inserted.
Qed.

Lemma delete_all_consistent (db : database) :
  (forall x, In x (ids db) -> x <= sequence db) ->
  consistent (Table.delete_all db).
Proof.
  intros _. unfold consistent, ids, rows. simpl.
  repeat split; [constructor | intros x [] | constructor].
Qed.

Lemma fetch_db {P : Platform} {R : Runtime} (request : Request) (env : Env)
  (now : Z) :
  snd (fetch request env now) = DB env
  \/ (method request = "POST" /\ pathname request = "/api/feedback"
      /\ snd (fetch request env now) =
         snd (handlePostFeedback request env now))
  \/ (method request = "POST" /\ pathname request = "/api/seed"
      /\ snd (fetch request env now) = snd (handleSeed env now))
  \/ (method request = "PATCH"
      /\ exists digits,
           feedbackIdMatch (pathname request) = Some digits
           /\ snd (fetch request env now) =
              snd (handlePatchFeedback digits request env now)).
Proof.
  unfold fetch.
  destruct (feedbackIdMatch (pathname request)) as [digits|] eqn:Hid;
    repeat match goal with
           | |- context [if ?c then _ else _] => destruct c eqn:?
           end;
    try (left; reflexivity);
    repeat match goal with
           | H : _ && _ = true |- _ => apply andb_true_iff in H as [? ?]
           | H : String.eqb _ _ = true |- _ => apply String.eqb_eq in H
           end;
    first
      [ right; left; split; [assumption|]; split; [assumption|];
        now destruct (handlePostFeedback request env now)
      | right; right; left; split; [assumption|]; split; [assumption|];
        now destruct (handleSeed env now)
      | right; right; right; split; [assumption|]; exists digits;
        split; [reflexivity|];
        now destruct (handlePatchFeedback digits request env now) ].
Qed.

Lemma fetch_consistent {P : Platform} {R : Runtime} (request : Request)
  (env : Env) (now : Z) :
  consistent (DB env) -> consistent (snd (fetch request env now)).
Proof.
  intros Hdb.
  destruct (fetch_db request env now)
    as [->|[(_ & _ & ->)|[(_ & _ & ->)|(_ & digits & _ & ->)]]].
  - assumption.
  - destruct (post_db request env now)
      as [->|(src & text & sent & cat & prio & th & r & Hinsert)];
      [assumption|].
    eapply insert_consistent; eassumption.
  - rewrite seed_db. apply seed_insert_consistent. cbn [fst].
    apply delete_all_consistent. apply Hdb.
  - destruct (patch_rows digits request env now) as [Hrows Hseq].
    unfold consistent, ids in *. now rewrite Hrows, Hseq.
Qed.

(** Whatever requests arrive, in whatever order, the table stays as the
    schema wants it: the ids are all different and none is beyond the
    sequence, and every row has a source, a sentiment and a category of
    the schema and a priority from 1 to 5. *)
Theorem requests_keep_table_consistent {P : Platform} {R : Runtime}
  (ai : Ai) (requests : list (Request * Z)) (db : database) :
  consistent db -> consistent (serve ai requests db).
Proof.
  unfold serve. revert db.
  induction requests as [|r requests IH]; intros db Hdb; [assumption|].
  simpl. apply IH.
  exact (fetch_consistent (fst r) {| DB := db; AI := ai |} (snd r) Hdb).
Qed.

(** A seed, a post and a patch on the example table. *)
Lemma requests_keep_table_consistent_witness :
  consistent
    (@serve Demo.platform Demo.runtime (Sample.ai_says Demo.answer_text)
       [ (Demo.request "POST" "/api/seed" "", 1);
         (Demo.request "POST" "/api/feedback" Demo.post_text, 2);
         (item_request "PATCH" "1"
            (Sample.json_of_field "addressed" "true"), 3) ]
       Demo.db).
Proof.
  apply requests_keep_table_consistent.
  unfold consistent, ids, rows. simpl. repeat split.
  - repeat constructor; simpl; intuition discriminate.
  - intros x [<-|[<-|[]]]; lia.
  - repeat constructor.
Defined.

Lemma prefix_drop (p s : string) :
  String.prefix p s = true -> s = (p ++ Str.drop (String.length p) s)%string.
Proof.
  revert s. induction p as [|a p IH]; intros s H.
  - now destruct s.
  - destruct s as [|b s]; [discriminate|]. simpl in H.
    destruct (Ascii.ascii_dec a b) as [<-|]; [|discriminate].
    simpl. f_equal. now apply IH.
Qed.

Lemma feedbackIdMatch_Some (path digits : string) :
  feedbackIdMatch path = Some digits ->
  path = ("/api/feedback/" ++ digits)%string
  /\ digits <> EmptyString /\ all_digits digits = true.
Proof.
  unfold feedbackIdMatch, startsWith.
  destruct (String.prefix "/api/feedback/" path) eqn:Hpre; [|discriminate].
  pose proof (prefix_drop _ _ Hpre) as Hpath.
  change (String.length "/api/feedback/") with 14%nat in Hpath.
  set (d := Str.drop 14 path) in *.
  destruct (Str.truthy d && all_digits d) eqn:Hd; [|discriminate].
  intros [= <-]. apply andb_true_iff in Hd as [Ht Hall].
  split; [exact Hpath|]. split; [|exact Hall].
  intros Hempty. rewrite Hempty in Ht. discriminate.
Qed.

(** Only three routes write: [POST /api/feedback], [POST /api/seed] and
    [PATCH /api/feedback/<digits>].  Every other request, whatever its
    method and path, leaves the table as it is. *)
Theorem only_three_routes_write {P : Platform} {R : Runtime}
  (request : Request) (env : Env) (now : Z) :
  snd (fetch request env now) <> DB env ->
  (method request = "POST"
   /\ (pathname request = "/api/feedback"
       \/ pathname request = "/api/seed"))
  \/ (method request = "PATCH"
      /\ exists digits,
           pathname request = ("/api/feedback/" ++ digits)%string
           /\ digits <> EmptyString /\ all_digits digits = true).
Proof.
  intros Hchanged.
  destruct (fetch_db request env now)
    as [Hsame|[(Hm & Hp & _)|[(Hm & Hp & _)|(Hm & digits & Hid & _)]]].
  - contradiction.
  - left. tauto.
  - left. tauto.
  - right. split; [assumption|]. exists digits.
    now apply feedbackIdMatch_Some.
Qed.

(** A post on the example table changes it. *)
Lemma only_three_routes_write_witness :
  method (Demo.request "POST" "/api/feedback" Demo.post_text) = "POST"
  /\ (pathname (Demo.request "POST" "/api/feedback" Demo.post_text) =
        "/api/feedback"
      \/ pathname (Demo.request "POST" "/api/feedback" Demo.post_text) =
           "/api/seed").
Proof.
  destruct (@only_three_routes_write Demo.platform Demo.runtime
              (Demo.request "POST" "/api/feedback" Demo.post_text)
              (Demo.env (Sample.ai_says Demo.answer_text)) 0)
    as [H|[H _]].
  - vm_compute. intros H. discriminate H.
  - exact H.
  - discriminate H.
Defined.

(* ================================================================= *)
(** ** CORS headers *)

Lemma headers_get_set (name name' value : string) (h : Headers.t) :
  Headers.get name (Headers.set name' value h) =
  if String.eqb (Str.toLowerCase name') (Str.toLowerCase name)
  then Some value else Headers.get name h.
Proof.
  unfold Headers.get, Headers.set.
  destruct (Obj.has (Str.toLowerCase name') h) eqn:Hhas.
  - rewrite get_replace. unfold Obj.has in Hhas.
    destruct (Obj.get (Str.toLowerCase name') h); [|discriminate].
    reflexivity.
  - apply get_snoc. unfold Obj.has in Hhas.
    now destruct (Obj.get (Str.toLowerCase name') h).
Qed.

Lemma addCorsHeaders_get (response : Response) (name : string) :
  Headers.get name (headers (addCorsHeaders response corsHeaders)) =
  if String.eqb "access-control-allow-headers" (Str.toLowerCase name)
  then Some "Content-Type"
  else if String.eqb "access-control-allow-methods" (Str.toLowerCase name)
  then Some "GET, POST, PATCH, OPTIONS"
  else if String.eqb "access-control-allow-origin" (Str.toLowerCase name)
  then Some "*"
  else Headers.get name (headers response).
Proof.
  unfold addCorsHeaders, corsHeaders, Arr.forEach.
  cbn [headers fold_left fst snd]. rewrite !headers_get_set. reflexivity.
Qed.

(** [addCorsHeaders] keeps the status and the body, sets the three CORS
    headers over whatever the response carried under these names, in any
    case of letters, and keeps every other header. *)
Theorem addCorsHeaders_sets_three (response : Response) :
  let result := addCorsHeaders response corsHeaders in
  status result = status response
  /\ body result = body response
  /\ has_cors result
  /\ (forall name,
        ~ In (Str.toLowerCase name)
            (map (fun e => Str.toLowerCase (fst e)) corsHeaders) ->
        Headers.get name (headers result) =
        Headers.get name (headers response)).
Proof.
  intros result. split; [reflexivity|]. split; [reflexivity|]. split.
  - intros name value [H|[H|[H|[]]]]; injection H as <- <-;
      unfold result; rewrite addCorsHeaders_get; reflexivity.
  - intros name Hname. unfold result. rewrite addCorsHeaders_get.
    simpl in Hname.
    destruct (String.eqb_spec "access-control-allow-headers"
                (Str.toLowerCase name)); [tauto|].
    destruct (String.eqb_spec "access-control-allow-methods"
                (Str.toLowerCase name)); [tauto|].
    destruct (String.eqb_spec "access-control-allow-origin"
                (Str.toLowerCase name)); [tauto|].
    reflexivity.
Qed.





(* ================================================================= *)
(** ** POST /api/seed *)

Lemma fold_max_bounded (l : list Z) (a : Z) :
  (forall x, In x l -> x <= a) -> fold_left Z.max l a = a.
Proof.
  induction l as [|y l IH]; intros H; [reflexivity|]. simpl.
  rewrite Z.max_l by (apply H; now left). apply IH.
  intros x Hx. apply H. now right.
Qed.

Lemma next_id_bounded (db : database) :
  (forall x, In x (ids db) -> x <= sequence db) ->
  Table.next_id db = sequence db + 1.
Proof.
  intros H. unfold Table.next_id. rewrite fold_max_bounded; [reflexivity|].
  unfold ids, rows in H. now rewrite map_map in H.
Qed.

Lemma seed_rows_ids {R : Runtime} (now last : Z) (l : list MockFeedback) :
  map (fun r => id (columns r)) (seed_rows now last l) =
  map (fun k => last + Z.of_nat k) (seq 1 (List.length l)).
Proof.
  revert last. induction l as [|f l IH]; intros last; [reflexivity|].
  cbn [seed_rows map List.length seq seed_row columns id].
  f_equal; try lia.
  rewrite IH, <- (seq_shift (List.length l) 1), map_map.
  apply map_ext. intros k. lia.
Qed.

(** The statements of the seed, run on a table whose ids are within its
    sequence, store the mock entries one after the other under the ids
    that follow the sequence. *)
Lemma seed_fold {R : Runtime} (now : Z) (l : list MockFeedback)
  (db : database) :
  (forall x, In x (ids db) -> x <= sequence db) ->
  forallb mock_fits l = true ->
  fold_left (seed_insert now) l (db, true) =
  ({| table := table db ++ seed_rows now (sequence db) l;
      sequence := sequence db + Z.of_nat (List.length l) |}, true).
Proof.
  revert db. induction l as [|f l IH]; intros db Hids Hfits.
  - simpl. rewrite app_nil_r, Z.add_0_r. now destruct db.
  - cbn [forallb] in Hfits. apply andb_true_iff in Hfits as [Hf Hl].
    cbn [fold_left]. unfold seed_insert at 2. cbn [fst snd].
    unfold Table.insert. rewrite (next_id_bounded db Hids).
    assert (Hp : 1 <= mock_priority f <= 5).
    { unfold mock_fits in Hf.
      apply andb_true_iff in Hf as [Hf H5].
      apply andb_true_iff in Hf as [_ H1].
      apply Z.leb_le in H1, H5. lia. }
    rewrite (integer_value_1_5 _ Hp).
    change (Table.check _) with (mock_fits f). rewrite Hf.
    rewrite IH; [|cbn [sequence]|assumption].
    + cbn [table sequence seed_rows]. rewrite <- app_assoc.
      cbn [app List.length]. f_equal. f_equal. lia.
    + intros x Hx. unfold ids, rows in Hx. cbn [table] in Hx.
      rewrite !map_app in Hx. cbn [sequence].
      apply in_app_or in Hx as [Hx|Hx].
      * specialize (Hids x Hx). lia.
      * cbn in Hx. destruct Hx as [<-|[]]. lia.
Qed.

(** Seeding never fails: every mock entry is within the CHECK
    constraints.  Whatever the table held, it then holds exactly the 30
    mock entries, in the order of the array, under the 30 ids that follow
    the largest id ever given out (ids are not used again), stamped with
    the current time and not addressed.  The answer reports 18 negative,
    8 neutral and 4 positive entries, and 12 bugs, 8 features, 6
    complaints and 4 praises: both splits add up to the total. *)
Theorem handleSeed_replaces_table {R : Runtime} (env : Env) (now : Z) :
  forallb mock_fits mockFeedback = true
  /\ handleSeed env now =
     (json_response 200
        (SeedJson "Seeded 30 feedback entries"
           {| seed_total := 30; seed_negative := 18; seed_neutral := 8;
              seed_positive := 4; seed_bug := 12; seed_feature := 8;
              seed_complaint := 6; seed_praise := 4 |}),
      {| table := seed_rows now (sequence (DB env)) mockFeedback;
         sequence := sequence (DB env) + 30 |})
  /\ ids (snd (handleSeed env now)) =
     map (fun k => sequence (DB env) + Z.of_nat k) (seq 1 30)
  /\ Forall (fun f => Table.check f = true) (rows (snd (handleSeed env now))).
Proof.
  assert (Hfits : forallb mock_fits mockFeedback = true)
    by (vm_compute; reflexivity).
  assert (Hseed : handleSeed env now =
     (json_response 200
        (SeedJson "Seeded 30 feedback entries"
           {| seed_total := 30; seed_negative := 18; seed_neutral := 8;
              seed_positive := 4; seed_bug := 12; seed_feature := 8;
              seed_complaint := 6; seed_praise := 4 |}),
      {| table := seed_rows now (sequence (DB env)) mockFeedback;
         sequence := sequence (DB env) + 30 |})).
  { unfold handleSeed.
    rewrite (seed_fold now mockFeedback (Table.delete_all (DB env)));
      [|intros x []|exact Hfits].
    reflexivity. }
  split; [exact Hfits|]. split; [exact Hseed|]. rewrite Hseed. cbn [snd].
  split.
  - unfold ids, rows. cbn [table]. rewrite map_map.
    apply (seed_rows_ids now (sequence (DB env)) mockFeedback).
  - unfold rows. cbn [table]. apply Forall_forall. intros f Hf.
    apply in_map_iff in Hf as (r & <- & Hr).
    assert (Hrow : forall last l,
              forallb mock_fits l = true ->
              In r (seed_rows now last l) ->
              Table.check (columns r) = true).
    { intros last l. revert last.
      induction l as [|g l IH]; intros last Hl Hin; [destruct Hin|].
      cbn [forallb] in Hl. apply andb_true_iff in Hl as [Hg Hl].
      destruct Hin as [<-|Hin]; [exact Hg|]. now apply (IH (last + 1)). }
    exact (Hrow _ _ Hfits Hr).
Qed.

(* ================================================================= *)
(** ** The filters of the listing *)

Lemma handleGetFeedback_numeric {P : Platform} (db : list Feedback)
  (now : Z) (q : searchParams) (r : listing) :
  handleGetFeedback db now q = Normal r ->
  exists p lim, page_of q = Num.Int p /\ limit_of q = Num.Int lim.
Proof.
  unfold handleGetFeedback, dataQuery, offset_of, Sql.select.
  destruct (page_of q) as [|p]; destruct (limit_of q) as [|lim];
    try discriminate.
  intros _. eauto.
Qed.

(** What passing the WHERE clause means, filter by filter. *)
Lemma whereClause_holds {P : Platform} (now : Z) (q : searchParams)
  (f : Feedback) :
  Sql.where_ (whereClause now q) f = true ->
  (forall s, given (q_source q) = Some s -> source f = s)
  /\ (forall s, given (q_sentiment q) = Some s -> sentiment f = s)
  /\ (forall s, given (q_category q) = Some s -> category f = s)
  /\ (forall s, given (q_priority q) = Some s ->
        Str.parseInt s = Num.Int (priority f)).
Proof.
  unfold whereClause. rewrite !where_app. intros H.
  apply andb_true_iff in H as [H1 H].
  apply andb_true_iff in H as [H2 H].
  apply andb_true_iff in H as [H3 H].
  apply andb_true_iff in H as [H4 _].
  repeat split; intros s Hs; rewrite Hs in *.
  - rewrite where_single in H1. now apply String.eqb_eq in H1.
  - rewrite where_single in H2. now apply String.eqb_eq in H2.
  - rewrite where_single in H3. now apply String.eqb_eq in H3.
  - rewrite where_single in H4. simpl in H4.
    destruct (Str.parseInt s) as [|n]; [discriminate|].
    apply Z.eqb_eq in H4. now rewrite H4.
Qed.

(** Every row of a listing is a row of the table that carries the source,
    the sentiment and the category asked for, and whose priority is what
    [parseInt] reads at the head of the [priority] parameter.  A filter
    given as the empty string is no filter; a [priority] that [parseInt]
    cannot read matches no row: the listing is then empty, with a total
    of 0, and not an error. *)
Theorem listing_rows_match_filters {P : Platform} (db : list Feedback)
  (now : Z) (q : searchParams) (r : listing) :
  handleGetFeedback db now q = Normal r ->
  (forall f, In f (rows_of r) ->
     In f db
     /\ (forall s, given (q_source q) = Some s -> source f = s)
     /\ (forall s, given (q_sentiment q) = Some s -> sentiment f = s)
     /\ (forall s, given (q_category q) = Some s -> category f = s)
     /\ (forall s, given (q_priority q) = Some s ->
           Str.parseInt s = Num.Int (priority f)))
  /\ (forall s, given (q_priority q) = Some s ->
        Str.parseInt s = Num.IntNaN ->
        feedback r = [] /\ total (listing_pagination r) = 0).
Proof.
  intros Hr.
  destruct (handleGetFeedback_numeric db now q r Hr) as (p & lim & Hp & Hl).
  destruct (handleGetFeedback_answer db now q p lim r Hp Hl Hr)
    as (Hrows & Htotal & _).
  assert (Hin : forall f, In f (rows_of r) ->
            In f db /\ Sql.where_ (whereClause now q) f = true).
  { intros f Hf. rewrite Hrows in Hf.
    assert (Hord : In f (Sql.order_by_created_at_desc
                           (filter (Sql.where_ (whereClause now q)) db))).
    { rewrite <- (firstn_skipn (Z.to_nat ((p - 1) * lim))).
      apply in_or_app. right.
      rewrite <- (firstn_skipn (Z.to_nat lim) (skipn _ _)).
      apply in_or_app. now left. }
    apply stable_sort_In in Hord. now apply filter_In in Hord. }
  split.
  - intros f Hf. destruct (Hin f Hf) as [Hdb Hw].
    split; [exact Hdb|]. exact (whereClause_holds now q f Hw).
  - intros s Hs Hnan.
    assert (Hall : forall l : list Feedback,
              filter (Sql.where_ (whereClause now q)) l = []).
    { induction l as [|g l IH]; [reflexivity|]. simpl.
      destruct (Sql.where_ (whereClause now q) g) eqn:Hg; [|exact IH].
      destruct (whereClause_holds now q g Hg) as (_ & _ & _ & Hprio).
      rewrite (Hprio s Hs) in Hnan. discriminate. }
    pose proof (Hall db) as Hnone.
    split.
    + rewrite Hnone in Hrows. simpl in Hrows.
      unfold Sql.order_by_created_at_desc in Hrows. simpl in Hrows.
      rewrite skipn_nil, firstn_nil in Hrows. unfold rows_of in Hrows.
      now destruct (feedback r).
    + rewrite Htotal, Hnone. reflexivity.
Qed.

(** [priority=high] matches nothing. *)
Lemma listing_rows_match_filters_witness :
  exists r,
    @handleGetFeedback Sample.platform sample_db 0 (priority_request "high")
    = Normal r
    /\ feedback r = [] /\ total (listing_pagination r) = 0.
Proof.
  eexists. split; [reflexivity|].
  exact (proj2 (@listing_rows_match_filters Sample.platform sample_db 0
                  (priority_request "high") _ eq_refl)
           "high" eq_refl eq_refl).
Defined.

(* ================================================================= *)
(** ** The sentiment trend of a single record *)

(** With one record in the table the recent half is that record and the
    older half is empty: the trend is [improving] for a positive record,
    [declining] for a negative one and [stable] for any other. *)
Theorem single_record_trend {P : Platform} (f : Feedback) :
  let st := sentimentTrend (aiInsights [f]) in
  trend st =
    (if String.eqb (sentiment f) "positive" then "improving"
     else if String.eqb (sentiment f) "negative" then "declining"
     else "stable")
  /\ recentPositive st =
     Some (if String.eqb (sentiment f) "positive" then 1 else 0)
  /\ recentNegative st =
     Some (if String.eqb (sentiment f) "negative" then 1 else 0).
Proof.
  intros st. unfold st, aiInsights. cbn [List.length Nat.eqb sentimentTrend].
  unfold calcSentimentTrend.
  change (recentHalf [f]) with [f].
  change (olderHalf [f]) with (@nil Feedback).
  unfold calcPositiveRatio, count_sentiment. cbn [filter].
  destruct (String.eqb_spec (sentiment f) "positive") as [E|E].
  - rewrite E. repeat split; vm_compute; reflexivity.
  - destruct (String.eqb (sentiment f) "negative");
      repeat split; vm_compute; reflexivity.
Qed.

(* ================================================================= *)
(** ** From the classifier to the theme counters *)












(* ================================================================= *)
(** ** When the listing fails *)

(** For a request whose offset binary64 holds exactly, and rows that
    pass its filters with stamps that differ from one another, the
    listing answers 500 exactly when [page] or [limit] is not a number, or
    when a row of the page asked for holds themes that are not JSON; such
    rows on other pages do no harm. *)
Theorem listing_fails_exactly_when {P : Platform} (db : list Feedback)
  (now : Z) (q : searchParams) :
  exact_offset q ->
  distinct_stamps (filter (spec_matches now q) db) ->
  (exists m, handleGetFeedback db now q = Throw m) <->
  page_of q = Num.IntNaN \/ limit_of q = Num.IntNaN
  \/ exists p lim f m,
       page_of q = Num.Int p /\ limit_of q = Num.Int lim
       /\ In f (page_rows db now q p lim)
       /\ parse_themes f = Throw m.
Proof.
  intros _ _.
  unfold handleGetFeedback, dataQuery, offset_of, Sql.select, page_rows.
  rewrite <- filter_matches.
  destruct (page_of q) as [|p]; destruct (limit_of q) as [|lim];
    cbn [Num.int_sub Num.int_mul bind];
    try (split; [intros _; tauto | intros _; eauto]).
  set (chunk := firstn _ _).
  split.
  - intros (m & Hm). right. right.
    destruct (parse_rows chunk) as [items|m'] eqn:Hrows;
      [discriminate|].
    destruct (parse_rows_throw_inv chunk m' Hrows) as (f & m1 & Hin & Hf).
    exists p, lim, f, m1. repeat split; assumption.
  - intros [H|[H|(p' & lim' & f & m & Hp & Hl & Hin & Hf)]];
      try discriminate.
    injection Hp as <-. injection Hl as <-.
    destruct (parse_rows_throw chunk f m Hin Hf) as (m' & ->).
    simpl. eauto.
Qed.

(** Of two rows the older holds themes that are not JSON: the first page
    of one row is served, the second is not. *)
Lemma listing_fails_exactly_when_witness :
  (exists m,
     @handleGetFeedback Sample.platform sample_mixed_db 0
       (plain_request (Some "2") (Some "1")) = Throw m)
  /\ ~ (exists m,
          @handleGetFeedback Sample.platform sample_mixed_db 0
            (plain_request (Some "1") (Some "1")) = Throw m).
Proof.
  split.
  - apply (@listing_fails_exactly_when Sample.platform sample_mixed_db 0
             (plain_request (Some "2") (Some "1"))).
    + intros p lim Hp Hl. vm_compute in Hp, Hl.
      injection Hp as <-. injection Hl as <-. reflexivity.
    + vm_compute. repeat constructor; simpl; intuition discriminate.
    + right. right.
      exists 2, 1, (nth 1 sample_mixed_db (Sample.row 0 "neutral" 3 [])),
        "SyntaxError".
      repeat split. vm_compute. tauto.
  - intros H.
    apply (@listing_fails_exactly_when Sample.platform sample_mixed_db 0
             (plain_request (Some "1") (Some "1"))) in H.
    + destruct H as [H|[H|(p & lim & f & m & Hp & Hl & Hin & Hf)]];
        try discriminate.
      vm_compute in Hp, Hl. injection Hp as <-. injection Hl as <-.
      vm_compute in Hin. destruct Hin as [<-|[]]. discriminate.
    + intros p lim Hp Hl. vm_compute in Hp, Hl.
      injection Hp as <-. injection Hl as <-. reflexivity.
    + vm_compute. repeat constructor; simpl; intuition discriminate.
Defined.
